(** * ArchFairFight: challenge state machine, winner detection and
      challenge manager, embedded from the Python sources

    - [StateMachine]     : archfairfight/challenge/state_machine.py
    - [ChallengeStatus], [FightType], [FightResult], [User], [Challenge],
      [Fight]            : archfairfight/database/models.py
    - [WinnerDetector]   : archfairfight/ai/winner_detector.py
    - [UserOps], [ChallengeOps], [FightOps]
                         : archfairfight/database/operations.py
    - [RecordingManager], [UserbotManager]
                         : the calls the manager makes into
                           recording/manager.py and userbot/manager.py
    - [ChallengeManager] : archfairfight/challenge/manager.py
    - [StateMachineQueries], [WinnerReports], [ChallengeStore],
      [ChallengeLifecycle]
                         : further functions of the files above
    - [UserbotPool]      : archfairfight/userbot/manager.py
    - [CallbackData]     : archfairfight/bot/handlers.py
    - [Py64], [WinnerDetector64]
                         : archfairfight/ai/winner_detector.py again, on
                           the numbers of the Python interpreter

    Conventions.  A [datetime] is a number of microseconds (type [Z]).
    Python dictionaries are finite maps ([gmap]).  A coroutine is a state
    transformer over [Runtime.World] that returns or raises; the sources
    need Python 3.9 (built-in generics in the annotations of
    state_machine.py), where [asyncio.CancelledError] is a [BaseException]
    that [except Exception] does not catch.

    Numbers.  The metrics dictionaries are modelled twice.  In [Py], which
    the challenge manager is built on, a number is an exact rational (type
    [Q]), a Python [int] n being n/1; this agrees with the interpreter on
    comparisons of finite numbers and on arithmetic whose results binary64
    holds exactly, and the statements about the manager that depend on
    arithmetic say so.  In [Py64] a number is what the interpreter has: an
    [int] of any size or a binary64 [float] with its rounding, infinities
    and NaN, with the [TypeError], [ZeroDivisionError] and [OverflowError]
    of the operations; the statements about the detector's decisions,
    scores and reports are made on [WinnerDetector64]. *)

From Stdlib Require Import ZArith QArith Qabs Lqa String List.
From Stdlib Require Import Floats.
From stdpp Require Import base option gmap strings.
Import ListNotations.

Local Open Scope Z_scope.

(* ===================================================================== *)
(** ** challenge/state_machine.py *)
(* ===================================================================== *)

Module StateMachine.

(** [class ChallengeState(str, Enum)] *)
Inductive ChallengeState : Set :=
  | CREATED
  | SENT
  | ACCEPTED
  | DECLINED
  | FIGHT_TYPE_SELECTED
  | PARTICIPANTS_JOINING
  | FIGHT_ACTIVE
  | FIGHT_FINISHED
  | EXPIRED
  | CANCELLED.

#[global] Instance ChallengeState_eq_dec : EqDecision ChallengeState.
Proof. solve_decision. Defined.

Definition all_states : list ChallengeState :=
  [CREATED; SENT; ACCEPTED; DECLINED; FIGHT_TYPE_SELECTED;
   PARTICIPANTS_JOINING; FIGHT_ACTIVE; FIGHT_FINISHED; EXPIRED; CANCELLED].

(** [VALID_TRANSITIONS]: the mapping literal, one line per key.  The value
    sets are written as duplicate-free lists and only tested for
    membership. *)
Definition VALID_TRANSITIONS (s : ChallengeState) : list ChallengeState :=
  match s with
  | CREATED => [SENT; CANCELLED]
  | SENT => [ACCEPTED; DECLINED; EXPIRED; CANCELLED]
  | ACCEPTED => [FIGHT_TYPE_SELECTED; CANCELLED]
  | FIGHT_TYPE_SELECTED => [PARTICIPANTS_JOINING; CANCELLED]
  | PARTICIPANTS_JOINING => [FIGHT_ACTIVE; EXPIRED; CANCELLED]
  | FIGHT_ACTIVE => [FIGHT_FINISHED; CANCELLED]
  | FIGHT_FINISHED => []
  | EXPIRED => []
  | DECLINED => []
  | CANCELLED => []
  end.

(** A [datetime], in microseconds. *)
Definition datetime := Z.

(** The two attributes of a [ChallengeStateMachine] object. *)
Record ChallengeStateMachine : Set := mkSM {
  current_state : ChallengeState;
  state_history : list (ChallengeState * datetime)
}.

(** [__init__(initial_state)], [now] being the value of [datetime.utcnow()]. *)
Definition init (initial_state : ChallengeState) (now : datetime)
  : ChallengeStateMachine :=
  mkSM initial_state [(initial_state, now)].

(** [can_transition_to] *)
Definition can_transition_to (sm : ChallengeStateMachine)
    (new_state : ChallengeState) : bool :=
  bool_decide (new_state ∈ VALID_TRANSITIONS (current_state sm)).

(** [transition_to]: the returned boolean and the object after the call
    (the two log calls have no effect on the object). *)
Definition transition_to (sm : ChallengeStateMachine)
    (new_state : ChallengeState) (now : datetime)
  : bool * ChallengeStateMachine :=
  if negb (can_transition_to sm new_state) then (false, sm)
  else (true, mkSM new_state (state_history sm ++ [(new_state, now)])).

(** [is_terminal_state] *)
Definition is_terminal_state (sm : ChallengeStateMachine) : bool :=
  Nat.eqb (length (VALID_TRANSITIONS (current_state sm))) 0.

(** [is_active] *)
Definition is_active (sm : ChallengeStateMachine) : bool :=
  bool_decide (current_state sm ∈
    [SENT; ACCEPTED; FIGHT_TYPE_SELECTED; PARTICIPANTS_JOINING; FIGHT_ACTIVE]).

(** [get_current_state] *)
Definition get_current_state (sm : ChallengeStateMachine) : ChallengeState :=
  current_state sm.

(** [int(td.total_seconds())]: whole seconds, truncated towards zero. *)
Definition whole_seconds (micros : Z) : Z := Z.quot micros 1000000.

(** [get_time_in_state] *)
Definition get_time_in_state (sm : ChallengeStateMachine) (now : datetime) : Z :=
  match last (state_history sm) with
  | None => 0
  | Some (_, last_transition_time) => whole_seconds (now - last_transition_time)
  end.

(** [get_total_duration] *)
Definition get_total_duration (sm : ChallengeStateMachine) (now : datetime) : Z :=
  match state_history sm with
  | [] => 0
  | (_, creation_time) :: _ => whole_seconds (now - creation_time)
  end.

(** States reachable from [CREATED] along the edges of the table. *)
Inductive reachable : ChallengeState -> Prop :=
  | reachable_init : reachable CREATED
  | reachable_step s t :
      reachable s -> t ∈ VALID_TRANSITIONS s -> reachable t.

End StateMachine.

(* ===================================================================== *)
(** ** Python values, exceptions and [try]/[except] *)
(* ===================================================================== *)

Module Py.

(** The exceptions the modelled code can meet.  [CancelledError] is what
    [Task.cancel()] throws into a coroutine at its suspension point; it
    derives from [BaseException], the others from [Exception]. *)
Inductive exn : Set :=
  | TypeError
  | ZeroDivisionError
  | AttributeError
  | KeyError
  | ValidationError
  | CancelledError.

Definition is_Exception (e : exn) : bool :=
  match e with
  | CancelledError => false
  | _ => true
  end.

(** Result of evaluating a piece of Python: a value or a raised exception. *)
Inductive res (A : Type) : Type :=
  | Ok (a : A)
  | Raise (e : exn).
Arguments Ok {A} a.
Arguments Raise {A} e.

#[global] Instance res_ret : MRet res := fun A a => Ok a.
#[global] Instance res_bind : MBind res := fun A B f m =>
  match m with
  | Ok a => f a
  | Raise e => Raise e
  end.

(** [try: body  except Exception as e: handler] *)
Definition try_except {A : Type} (body : res A) (handler : exn -> res A) : res A :=
  match body with
  | Ok a => Ok a
  | Raise e => if is_Exception e then handler e else Raise e
  end.

(** The values stored in a metrics dictionary: numbers, and [None] for an
    entry that is present but holds no number. *)
Inductive pyval : Set :=
  | PyNum (q : Q)
  | PyNone.

Definition Qltb (x y : Q) : bool := negb (Qle_bool y x).

(** [a - b] *)
Definition py_sub (a b : pyval) : res pyval :=
  match a, b with
  | PyNum x, PyNum y => Ok (PyNum (x - y))
  | _, _ => Raise TypeError
  end.

(** [a + b] *)
Definition py_add (a b : pyval) : res pyval :=
  match a, b with
  | PyNum x, PyNum y => Ok (PyNum (x + y))
  | _, _ => Raise TypeError
  end.

(** [a * b] *)
Definition py_mul (a b : pyval) : res pyval :=
  match a, b with
  | PyNum x, PyNum y => Ok (PyNum (x * y))
  | _, _ => Raise TypeError
  end.

(** [a / b] *)
Definition py_truediv (a b : pyval) : res pyval :=
  match a, b with
  | PyNum x, PyNum y =>
      if Qeq_bool y 0 then Raise ZeroDivisionError else Ok (PyNum (x / y))
  | _, _ => Raise TypeError
  end.

(** [abs(a)] *)
Definition py_abs (a : pyval) : res pyval :=
  match a with
  | PyNum x => Ok (PyNum (Qabs x))
  | PyNone => Raise TypeError
  end.

(** [a < b] *)
Definition py_lt (a b : pyval) : res bool :=
  match a, b with
  | PyNum x, PyNum y => Ok (Qltb x y)
  | _, _ => Raise TypeError
  end.

(** [a > b] *)
Definition py_gt (a b : pyval) : res bool :=
  match a, b with
  | PyNum x, PyNum y => Ok (Qltb y x)
  | _, _ => Raise TypeError
  end.

(** A metrics dictionary and [d.get(key, default)]. *)
Abbreviation metrics := (gmap string pyval).

Definition get (d : metrics) (key : string) (default : pyval) : pyval :=
  match d !! key with
  | Some v => v
  | None => default
  end.

End Py.

(* ===================================================================== *)
(** ** database/models.py *)
(* ===================================================================== *)

Module ChallengeStatus.
Inductive t : Set :=
  | PENDING | ACCEPTED | DECLINED | IN_PROGRESS | COMPLETED | CANCELLED | EXPIRED.
End ChallengeStatus.

Module FightType.
Inductive t : Set := TIMING | VOLUME.
#[global] Instance eq_dec : EqDecision t.
Proof. solve_decision. Defined.
End FightType.

Module FightResult.
Inductive t : Set := WIN | LOSS | DRAW | NO_SHOW | CANCELLED.
#[global] Instance eq_dec : EqDecision t.
Proof. solve_decision. Defined.
End FightResult.

(** [class User(BaseModel)]: the statistics counters. *)
Module User.
Record t : Set := mk {
  total_fights : Z;
  wins : Z;
  losses : Z;
  draws : Z
}.

(** [$inc] of the four counters. *)
Definition inc (d_wins d_losses d_draws d_total_fights : Z) (u : t) : t :=
  mk (total_fights u + d_total_fights) (wins u + d_wins)
     (losses u + d_losses) (draws u + d_draws).
End User.

(** [class Challenge(BaseModel)]: the fields the manager reads or writes. *)
Module Challenge.
Record t : Set := mk {
  challenger_id : Z;
  opponent_id : Z;
  fight_type : option FightType.t;
  status : ChallengeStatus.t;
  challenge_expires_at : StateMachine.datetime
}.

Definition set_status (s : ChallengeStatus.t) (c : t) : t :=
  mk (challenger_id c) (opponent_id c) (fight_type c) s (challenge_expires_at c).
End Challenge.

(** [class Fight(BaseModel)].  [challenge_id] to [ended_at] are the declared
    fields the manager and the fight operations touch ([peak_participants],
    [ai_analysis] and [created_at] have defaults and are never written). *)
Module Fight.
Import Py.

Record t : Type := mk {
  challenge_id : string;
  participant1_id : Z;
  participant2_id : Z;
  fight_type : FightType.t;
  duration : Z;
  winner_id : option Z;
  participant1_result : FightResult.t;
  participant2_result : FightResult.t;
  participant1_metrics : metrics;
  participant2_metrics : metrics;
  group_call_id : string;
  started_at : StateMachine.datetime;
  ended_at : StateMachine.datetime
}.

(** The keyword arguments of a constructor call: [None] for a keyword that
    is not passed.  [fight_type] may be passed the value [None]. *)
Record kwargs : Type := mk_kwargs {
  kw_challenge_id : option string;
  kw_participant1_id : option Z;
  kw_participant2_id : option Z;
  kw_fight_type : option (option FightType.t);
  kw_duration : option Z;
  kw_winner_id : option (option Z);
  kw_participant1_result : option FightResult.t;
  kw_participant2_result : option FightResult.t;
  kw_participant1_metrics : option metrics;
  kw_participant2_metrics : option metrics;
  kw_group_call_id : option string;
  kw_started_at : option StateMachine.datetime;
  kw_ended_at : option StateMachine.datetime
}.

(** A field declared [Field(...)]: the keyword must be passed. *)
Definition required {A : Type} (kw : option A) : res A :=
  match kw with
  | Some a => Ok a
  | None => Raise ValidationError
  end.

(** A field declared with [Field(None)] or [Field(default_factory=...)]. *)
Definition optional {A : Type} (kw : option A) (default : A) : A :=
  match kw with
  | Some a => a
  | None => default
  end.

(** The constructor call [Fight(...)] and its validation.  Every field declared [Field(...)]
    is required; [fight_type: FightType] does not accept [None]. *)
Definition init (k : kwargs) : res t :=
  challenge_id ← required (kw_challenge_id k);
  participant1_id ← required (kw_participant1_id k);
  participant2_id ← required (kw_participant2_id k);
  fight_type ← required (kw_fight_type k);
  fight_type ← required fight_type;
  duration ← required (kw_duration k);
  participant1_result ← required (kw_participant1_result k);
  participant2_result ← required (kw_participant2_result k);
  group_call_id ← required (kw_group_call_id k);
  started_at ← required (kw_started_at k);
  ended_at ← required (kw_ended_at k);
  Ok (mk challenge_id participant1_id participant2_id fight_type duration
        (optional (kw_winner_id k) None)
        participant1_result participant2_result
        (optional (kw_participant1_metrics k) ∅)
        (optional (kw_participant2_metrics k) ∅)
        group_call_id started_at ended_at).

(** [$set] of the four fields written by [finish_fight]. *)
Definition set_result (w : option Z) (r1 r2 : FightResult.t)
    (now : StateMachine.datetime) (f : t) : t :=
  mk (challenge_id f) (participant1_id f) (participant2_id f) (fight_type f)
     (duration f) w r1 r2 (participant1_metrics f) (participant2_metrics f)
     (group_call_id f) (started_at f) now.

Definition set_participant1_metrics (m : metrics) (f : t) : t :=
  mk (challenge_id f) (participant1_id f) (participant2_id f) (fight_type f)
     (duration f) (winner_id f) (participant1_result f) (participant2_result f)
     m (participant2_metrics f) (group_call_id f) (started_at f) (ended_at f).

Definition set_participant2_metrics (m : metrics) (f : t) : t :=
  mk (challenge_id f) (participant1_id f) (participant2_id f) (fight_type f)
     (duration f) (winner_id f) (participant1_result f) (participant2_result f)
     (participant1_metrics f) m (group_call_id f) (started_at f) (ended_at f).
End Fight.

(* ===================================================================== *)
(** ** ai/winner_detector.py *)
(* ===================================================================== *)

Module WinnerDetector.
Import Py.

(** The configuration module is not part of the sources; the one option the
    detector reads, [config.volume_threshold], is a parameter. *)
Section Detector.
Variable volume_threshold : Q.

(** [(winner_participant_number, participant1_result, participant2_result)] *)
Definition outcome : Set := (option Z * FightResult.t * FightResult.t)%type.

Definition draw : outcome := (None, FightResult.DRAW, FightResult.DRAW).
Definition p1_wins : outcome := (Some 1, FightResult.WIN, FightResult.LOSS).
Definition p2_wins : outcome := (Some 2, FightResult.LOSS, FightResult.WIN).

(** [_analyze_timing_fight] *)
Definition _analyze_timing_fight (p1_metrics p2_metrics : metrics) : res outcome :=
  try_except
    (let p1_join_time := get p1_metrics "total_join_time" (PyNum 0) in
     let p2_join_time := get p2_metrics "total_join_time" (PyNum 0) in
     d ← py_sub p1_join_time p2_join_time;
     time_difference ← py_abs d;
     small ← py_lt time_difference (PyNum 5);
     if small : bool then Ok draw
     else
       longer ← py_gt p1_join_time p2_join_time;
       if longer : bool then Ok p1_wins else Ok p2_wins)
    (fun _ => Ok draw).

(** [_calculate_activity_score] *)
Definition _calculate_activity_score (m : metrics) : res pyval :=
  try_except
    (let speak_time := get m "speak_time" (PyNum 0) in
     let average_volume := get m "average_volume" (PyNum 0) in
     let total_join_time := get m "total_join_time" (PyNum 1) in
     positive ← py_gt total_join_time (PyNum 0);
     speaking_percentage ←
       (if positive : bool then py_truediv speak_time total_join_time
        else Ok (PyNum 0));
     a ← py_mul speaking_percentage (PyNum (7 # 10));
     v ← py_truediv average_volume (PyNum 10000);
     b ← py_mul v (PyNum (3 # 10));
     py_add a b)
    (fun _ => Ok (PyNum 0)).

(** [_analyze_volume_fight] *)
Definition _analyze_volume_fight (p1_metrics p2_metrics : metrics) : res outcome :=
  try_except
    (p1_score ← _calculate_activity_score p1_metrics;
     p2_score ← _calculate_activity_score p2_metrics;
     d ← py_sub p1_score p2_score;
     score_difference ← py_abs d;
     let threshold := PyNum volume_threshold in
     small ← py_lt score_difference threshold;
     if small : bool then Ok draw
     else
       higher ← py_gt p1_score p2_score;
       if higher : bool then Ok p1_wins else Ok p2_wins)
    (fun _ => Ok draw).

(** [determine_winner].  The argument [fight_type] is [Some t] for a value
    equal to the member [t] of [FightType], and [None] for any other value
    (the field [Challenge.fight_type] it comes from is optional). *)
Definition determine_winner (fight_type : option FightType.t)
    (participant1_metrics participant2_metrics : metrics) : res outcome :=
  try_except
    (match fight_type with
     | Some FightType.TIMING =>
         _analyze_timing_fight participant1_metrics participant2_metrics
     | Some FightType.VOLUME =>
         _analyze_volume_fight participant1_metrics participant2_metrics
     | None => Ok draw
     end)
    (fun _ => Ok draw).

End Detector.
End WinnerDetector.

(* ===================================================================== *)
(** ** The state the coroutines run in *)
(* ===================================================================== *)

Module Runtime.
Import Py StateMachine.

(** The options of the (absent) configuration module that the manager
    reads, in seconds. *)
Record Config : Set := mkConfig {
  challenge_timeout : Z;
  max_fight_duration : Z;
  monitoring_interval : Z
}.

(** The awaited calls, in the order they are made. *)
Inductive call : Type :=
  | Sleep (seconds : Z)
  | GetChallenge (challenge_id : string)
  | UpdateChallengeStatus (challenge_id : string) (status : ChallengeStatus.t)
  | ExpireOldChallenges
  | CreateFight (fight_id : string)
  | UpdateFightMetrics (fight_id : string) (participant_id : Z)
  | FinishFight (fight_id : string) (winner_id : option Z)
      (participant1_result participant2_result : FightResult.t)
  | UpdateUserStats (telegram_id : Z) (wins losses draws total_fights : Z)
  | CheckParticipantsJoined (participant1_id participant2_id : Z)
  | GetFightMetrics (participant1_id participant2_id : Z)
  | AreParticipantsActive (participant1_id participant2_id : Z)
  | CleanupFight (participant1_id participant2_id : Z)
  | StartRecording (fight_id : string) (include_video : bool)
  | StopRecording (fight_id : string).

(** What the session agents and the scheduler answer during one run of the
    monitoring routine.  [check_participants_joined] and
    [are_participants_active] draw their answer at random in the source;
    [cancelled_at = Some i] means that [Task.cancel()] reaches the routine
    while it is suspended in the sleep of sampling iteration [i]. *)
Record Env : Type := mkEnv {
  participants_joined : bool;
  recording_started : bool;
  fight_metrics : nat -> option (metrics * metrics);
  participants_active : nat -> bool;
  cancelled_at : option nat
}.

(** The persistent collections, the objects owned by the manager and by the
    recording manager, the clock and the log of awaited calls.
    [machines] is the store of [ChallengeStateMachine] objects;
    [_active_challenges] holds references into it, so that an object can
    still be inspected after its entry is deleted. *)
Record World : Type := mkWorld {
  challenges : gmap string Challenge.t;
  fights : gmap string Fight.t;
  users : gmap Z User.t;
  machines : gmap nat ChallengeStateMachine;
  _active_challenges : gmap string nat;
  _fight_tasks : gmap string string;
  active_recordings : gset string;
  clock : datetime;
  calls : list call
}.

Definition with_challenges (f : gmap string Challenge.t -> gmap string Challenge.t)
    (w : World) : World :=
  mkWorld (f (challenges w)) (fights w) (users w) (machines w)
    (_active_challenges w) (_fight_tasks w) (active_recordings w) (clock w) (calls w).

Definition with_fights (f : gmap string Fight.t -> gmap string Fight.t)
    (w : World) : World :=
  mkWorld (challenges w) (f (fights w)) (users w) (machines w)
    (_active_challenges w) (_fight_tasks w) (active_recordings w) (clock w) (calls w).

Definition with_users (f : gmap Z User.t -> gmap Z User.t) (w : World) : World :=
  mkWorld (challenges w) (fights w) (f (users w)) (machines w)
    (_active_challenges w) (_fight_tasks w) (active_recordings w) (clock w) (calls w).

Definition with_machines
    (f : gmap nat ChallengeStateMachine -> gmap nat ChallengeStateMachine)
    (w : World) : World :=
  mkWorld (challenges w) (fights w) (users w) (f (machines w))
    (_active_challenges w) (_fight_tasks w) (active_recordings w) (clock w) (calls w).

Definition with_active (f : gmap string nat -> gmap string nat) (w : World) : World :=
  mkWorld (challenges w) (fights w) (users w) (machines w)
    (f (_active_challenges w)) (_fight_tasks w) (active_recordings w) (clock w) (calls w).

Definition with_tasks (f : gmap string string -> gmap string string)
    (w : World) : World :=
  mkWorld (challenges w) (fights w) (users w) (machines w)
    (_active_challenges w) (f (_fight_tasks w)) (active_recordings w) (clock w) (calls w).

Definition with_recordings (f : gset string -> gset string) (w : World) : World :=
  mkWorld (challenges w) (fights w) (users w) (machines w)
    (_active_challenges w) (_fight_tasks w) (f (active_recordings w)) (clock w) (calls w).

Definition with_clock (f : datetime -> datetime) (w : World) : World :=
  mkWorld (challenges w) (fights w) (users w) (machines w)
    (_active_challenges w) (_fight_tasks w) (active_recordings w) (f (clock w)) (calls w).

Definition with_calls (f : list call -> list call) (w : World) : World :=
  mkWorld (challenges w) (fights w) (users w) (machines w)
    (_active_challenges w) (_fight_tasks w) (active_recordings w) (clock w) (f (calls w)).

(** Coroutines of the manager: a state transformer that returns a value or
    raises.  What was written before an exception stays written. *)
Definition M (A : Type) : Type := World -> res A * World.

#[global] Instance M_ret : MRet M := fun A a w => (Ok a, w).
#[global] Instance M_bind : MBind M := fun A B f m w =>
  match m w with
  | (Ok a, w') => f a w'
  | (Raise e, w') => (Raise e, w')
  end.

Definition raise {A : Type} (e : exn) : M A := fun w => (Raise e, w).

Definition lift {A : Type} (r : res A) : M A := fun w => (r, w).

Definition read {A : Type} (f : World -> A) : M A := fun w => (Ok (f w), w).

Definition modify (f : World -> World) : M unit := fun w => (Ok tt, f w).

(** [try: body  except Exception as e: handler] *)
Definition try_except {A : Type} (body : M A) (handler : exn -> M A) : M A :=
  fun w =>
    match body w with
    | (Ok a, w') => (Ok a, w')
    | (Raise e, w') => if is_Exception e then handler e w' else (Raise e, w')
    end.

(** A coroutine that lets no [BaseException] other than an [Exception]
    escape, and one that always returns. *)
Definition safe {A : Type} (m : M A) : Prop :=
  forall w, match fst (m w) with
            | Ok _ => True
            | Raise e => is_Exception e = true
            end.

Definition total {A : Type} (m : M A) : Prop :=
  forall w, exists a, fst (m w) = Ok a.

Definition awaiting (c : call) : M unit :=
  modify (with_calls (fun l => l ++ [c])).

(** [datetime.utcnow()] *)
Definition utcnow : M datetime := read clock.

(** [await asyncio.sleep(seconds)] *)
Definition sleep (seconds : Z) : M unit :=
  _ ← awaiting (Sleep seconds);
  modify (with_clock (fun t => t + seconds * 1000000)).

(** [obj.transition_to(new_state)] on the object a reference points to; the
    result is written back to the store.  References are only created
    together with their object, the last case is never taken. *)
Definition machine_transition_to (ref : nat) (new_state : ChallengeState) : M bool :=
  fun w =>
    match machines w !! ref with
    | Some sm =>
        let '(ok, sm') := transition_to sm new_state (clock w) in
        (Ok ok, with_machines (insert ref sm') w)
    | None => (Ok false, w)
    end.

End Runtime.

(* ===================================================================== *)
(** ** database/operations.py *)
(* ===================================================================== *)

(** Each operation wraps its body in [try]/[except Exception] and answers
    [False], [None] or [0] on failure; the database itself is taken to
    answer every request. *)

Module UserOps.
Import Py Runtime.

(** [update_user_stats(telegram_id, **stats)]: [$inc] of the counters named
    by the keywords; a keyword that is not passed is an increment of 0. *)
Definition update_user_stats (telegram_id : Z) (wins losses draws total_fights : Z)
  : M bool :=
  _ ← awaiting (UpdateUserStats telegram_id wins losses draws total_fights);
  u ← read (fun w => users w !! telegram_id);
  match u with
  | Some u =>
      _ ← modify (with_users (insert telegram_id
             (User.inc wins losses draws total_fights u)));
      mret true
  | None => mret false
  end.

End UserOps.

Module ChallengeOps.
Import Py Runtime.

(** [get_challenge] *)
Definition get_challenge (challenge_id : string) : M (option Challenge.t) :=
  _ ← awaiting (GetChallenge challenge_id);
  read (fun w => challenges w !! challenge_id).

(** [update_challenge_status] (without extra keywords) *)
Definition update_challenge_status (challenge_id : string)
    (status : ChallengeStatus.t) : M bool :=
  _ ← awaiting (UpdateChallengeStatus challenge_id status);
  c ← read (fun w => challenges w !! challenge_id);
  match c with
  | Some c =>
      _ ← modify (with_challenges (insert challenge_id (Challenge.set_status status c)));
      mret true
  | None => mret false
  end.

Definition is_overdue (now : StateMachine.datetime) (c : Challenge.t) : bool :=
  match Challenge.status c with
  | ChallengeStatus.PENDING => Challenge.challenge_expires_at c <? now
  | _ => false
  end.

(** [expire_old_challenges]: [update_many] and its [modified_count]. *)
Definition expire_old_challenges : M Z :=
  _ ← awaiting ExpireOldChallenges;
  now ← utcnow;
  old ← read challenges;
  _ ← modify (with_challenges (fmap (fun c =>
         if is_overdue now c then Challenge.set_status ChallengeStatus.EXPIRED c
         else c)));
  mret (Z.of_nat (size (filter (fun kc => is_overdue now kc.2 = true) old))).

End ChallengeOps.

Module FightOps.
Import Py Runtime.

(** [create_fight]; [fresh] is the identifier the database generates. *)
Definition create_fight (fresh : string) (fight : Fight.t) : M (option string) :=
  _ ← awaiting (CreateFight fresh);
  old ← read (fun w => fights w !! fresh);
  match old with
  | Some _ => mret None
  | None =>
      _ ← modify (with_fights (insert fresh fight));
      mret (Some fresh)
  end.

(** [update_fight_metrics] *)
Definition update_fight_metrics (fight_id : string) (participant_id : Z)
    (m : metrics) : M bool :=
  _ ← awaiting (UpdateFightMetrics fight_id participant_id);
  fight ← read (fun w => fights w !! fight_id);
  match fight with
  | None => mret false
  | Some fight =>
      let set := if bool_decide (participant_id = Fight.participant1_id fight)
                 then Fight.set_participant1_metrics m
                 else Fight.set_participant2_metrics m in
      _ ← modify (with_fights (insert fight_id (set fight)));
      mret true
  end.

(** [finish_fight] *)
Definition finish_fight (fight_id : string) (winner_id : option Z)
    (participant1_result participant2_result : FightResult.t) : M bool :=
  _ ← awaiting (FinishFight fight_id winner_id participant1_result participant2_result);
  now ← utcnow;
  fight ← read (fun w => fights w !! fight_id);
  match fight with
  | None => mret false
  | Some fight =>
      _ ← modify (with_fights (insert fight_id
             (Fight.set_result winner_id participant1_result participant2_result
                now fight)));
      mret true
  end.

End FightOps.

(* ===================================================================== *)
(** ** recording/manager.py and userbot/manager.py *)
(* ===================================================================== *)

Module RecordingManager.
Import Py Runtime.

(** [start_recording]; whether the recording record can be created is the
    environment's answer [ok]. *)
Definition start_recording (fight_id : string) (include_video : bool) (ok : bool)
  : M bool :=
  _ ← awaiting (StartRecording fight_id include_video);
  if ok then
    _ ← modify (with_recordings (fun s => {[fight_id]} ∪ s));
    mret true
  else mret false.

(** [stop_recording]: [true] when a recording identifier is returned. *)
Definition stop_recording (fight_id : string) : M bool :=
  _ ← awaiting (StopRecording fight_id);
  active ← read (fun w => bool_decide (fight_id ∈ active_recordings w));
  if active : bool then
    _ ← modify (with_recordings (fun s => s ∖ {[fight_id]}));
    mret true
  else mret false.

End RecordingManager.

Module UserbotManager.
Import Py Runtime.

(** The pool of session agents is not modelled: each call is logged and
    answered by the environment. [cleanup_fight] is the call that stops the
    agents' monitoring and releases them to the pool. *)
Definition check_participants_joined (env : Env) (p1 p2 : Z) : M bool :=
  _ ← awaiting (CheckParticipantsJoined p1 p2);
  mret (participants_joined env).

Definition get_fight_metrics (env : Env) (i : nat) (p1 p2 : Z)
  : M (option (metrics * metrics)) :=
  _ ← awaiting (GetFightMetrics p1 p2);
  mret (fight_metrics env i).

Definition are_participants_active (env : Env) (i : nat) (p1 p2 : Z) : M bool :=
  _ ← awaiting (AreParticipantsActive p1 p2);
  mret (participants_active env i).

Definition cleanup_fight (p1 p2 : Z) : M unit :=
  awaiting (CleanupFight p1 p2).

End UserbotManager.

(* ===================================================================== *)
(** ** challenge/manager.py *)
(* ===================================================================== *)

Module ChallengeManager.
Import Py StateMachine Runtime.

Section Manager.
Variable config : Config.

(** [challenge.<attribute>] where [challenge] may be [None]. *)
Definition attribute {A : Type} (challenge : option Challenge.t)
    (field : Challenge.t -> A) : M A :=
  match challenge with
  | Some c => mret (field c)
  | None => raise AttributeError
  end.

(** The block shared by the three [_end_fight_*] coroutines and by
    [cancel_challenge]:
    [if challenge_id in self._active_challenges:
         self._active_challenges[challenge_id].transition_to(state)
         del self._active_challenges[challenge_id]] *)
Definition transition_and_discard (challenge_id : string) (state : ChallengeState)
  : M unit :=
  entry ← read (fun w => _active_challenges w !! challenge_id);
  match entry with
  | Some ref =>
      _ ← machine_transition_to ref state;
      modify (with_active (delete challenge_id))
  | None => mret tt
  end.

(** [start_fight]; [fresh] is the identifier the database would give to
    the new fight record.  The scheduled task is recorded in
    [_fight_tasks] with the fight it monitors. *)
Definition start_fight (fresh : string) (challenge_id : string) : M bool :=
  try_except
    (challenge ← ChallengeOps.get_challenge challenge_id;
     match challenge with
     | None => mret false
     | Some challenge =>
         entry ← read (fun w => _active_challenges w !! challenge_id);
         proceed ← match entry with
                   | Some ref => machine_transition_to ref PARTICIPANTS_JOINING
                   | None => mret true
                   end;
         if negb proceed then mret false
         else
           now ← utcnow;
           fight ← lift (Fight.init
             {| Fight.kw_challenge_id := Some challenge_id;
                Fight.kw_participant1_id := Some (Challenge.challenger_id challenge);
                Fight.kw_participant2_id := Some (Challenge.opponent_id challenge);
                Fight.kw_fight_type := Some (Challenge.fight_type challenge);
                Fight.kw_duration := Some 0;
                Fight.kw_winner_id := None;
                Fight.kw_participant1_result := Some FightResult.WIN;
                Fight.kw_participant2_result := Some FightResult.LOSS;
                Fight.kw_participant1_metrics := None;
                Fight.kw_participant2_metrics := None;
                Fight.kw_group_call_id := Some ""%string;
                Fight.kw_started_at := Some now;
                Fight.kw_ended_at := None |});
           fight_id ← FightOps.create_fight fresh fight;
           match fight_id with
           | None => mret false
           | Some fight_id =>
               _ ← modify (with_tasks (insert challenge_id fight_id));
               mret true
           end
     end)
    (fun _ => mret false).

(** [_end_fight_no_show] *)
Definition _end_fight_no_show (challenge_id fight_id : string) : M unit :=
  try_except
    (_ ← FightOps.finish_fight fight_id None FightResult.NO_SHOW FightResult.NO_SHOW;
     _ ← ChallengeOps.update_challenge_status challenge_id ChallengeStatus.COMPLETED;
     transition_and_discard challenge_id FIGHT_FINISHED)
    (fun _ => mret tt).

(** [_end_fight_error] *)
Definition _end_fight_error (challenge_id fight_id : string) : M unit :=
  try_except
    (_ ← FightOps.finish_fight fight_id None FightResult.CANCELLED FightResult.CANCELLED;
     _ ← ChallengeOps.update_challenge_status challenge_id ChallengeStatus.CANCELLED;
     _ ← transition_and_discard challenge_id CANCELLED;
     _ ← RecordingManager.stop_recording fight_id;
     mret tt)
    (fun _ => mret tt).

(** The three-way comparison both branches of [_end_fight_with_results]
    end in:
    [if a > b: winner = challenger, WIN, LOSS
     elif b > a: winner = opponent, LOSS, WIN
     else: DRAW, DRAW] *)
Definition compare_and_assign (challenge : option Challenge.t) (a b : pyval)
  : M (option Z * FightResult.t * FightResult.t) :=
  first ← lift (py_gt a b);
  if first : bool then
    winner ← attribute challenge Challenge.challenger_id;
    mret (Some winner, FightResult.WIN, FightResult.LOSS)
  else
    second ← lift (py_gt b a);
    if second : bool then
      winner ← attribute challenge Challenge.opponent_id;
      mret (Some winner, FightResult.LOSS, FightResult.WIN)
    else mret (None, FightResult.DRAW, FightResult.DRAW).

(** The part of [_end_fight_with_results] headed ["Determine winner based
    on fight type"]: the values of [winner_id], [participant1_result] and
    [participant2_result] when [finish_fight] is reached. *)
Definition determine_results (challenge : option Challenge.t)
    (fight_type : option FightType.t) (participant1_metrics participant2_metrics : metrics)
  : M (option Z * FightResult.t * FightResult.t) :=
  match fight_type with
  | Some FightType.TIMING =>
      let p1_time := get participant1_metrics "join_time" (PyNum 0) in
      let p2_time := get participant2_metrics "join_time" (PyNum 0) in
      compare_and_assign challenge p1_time p2_time
  | Some FightType.VOLUME =>
      p1_activity ← lift (py_mul (get participant1_metrics "speak_time" (PyNum 0))
                                 (get participant1_metrics "volume_sum" (PyNum 0)));
      p2_activity ← lift (py_mul (get participant2_metrics "speak_time" (PyNum 0))
                                 (get participant2_metrics "volume_sum" (PyNum 0)));
      compare_and_assign challenge p1_activity p2_activity
  | None => mret (None, FightResult.LOSS, FightResult.WIN)
  end.

(** The part of [_end_fight_with_results] headed ["Update user
    statistics"]. *)
Definition update_statistics (challenge : option Challenge.t)
    (participant1_result participant2_result : FightResult.t) : M unit :=
  if bool_decide (participant1_result = FightResult.WIN) then
    p1 ← attribute challenge Challenge.challenger_id;
    _ ← UserOps.update_user_stats p1 1 0 0 1;
    p2 ← attribute challenge Challenge.opponent_id;
    _ ← UserOps.update_user_stats p2 0 1 0 1;
    mret tt
  else if bool_decide (participant2_result = FightResult.WIN) then
    p1 ← attribute challenge Challenge.challenger_id;
    _ ← UserOps.update_user_stats p1 0 1 0 1;
    p2 ← attribute challenge Challenge.opponent_id;
    _ ← UserOps.update_user_stats p2 1 0 0 1;
    mret tt
  else
    p1 ← attribute challenge Challenge.challenger_id;
    _ ← UserOps.update_user_stats p1 0 0 1 1;
    p2 ← attribute challenge Challenge.opponent_id;
    _ ← UserOps.update_user_stats p2 0 0 1 1;
    mret tt.

(** [_end_fight_with_results] *)
Definition _end_fight_with_results (challenge_id fight_id : string) (duration : Z)
    (participant1_metrics participant2_metrics : metrics)
    (fight_type : option FightType.t) : M unit :=
  try_except
    (_ ← RecordingManager.stop_recording fight_id;
     challenge ← ChallengeOps.get_challenge challenge_id;
     '(winner_id, participant1_result, participant2_result) ←
       determine_results challenge fight_type participant1_metrics participant2_metrics;
     _ ← FightOps.finish_fight fight_id winner_id participant1_result participant2_result;
     _ ← update_statistics challenge participant1_result participant2_result;
     _ ← ChallengeOps.update_challenge_status challenge_id ChallengeStatus.COMPLETED;
     _ ← transition_and_discard challenge_id FIGHT_FINISHED;
     p1 ← attribute challenge Challenge.challenger_id;
     p2 ← attribute challenge Challenge.opponent_id;
     UserbotManager.cleanup_fight p1 p2)
    (fun _ => _end_fight_error challenge_id fight_id).

(** Whether a run of the monitoring routine has come to its end within the
    number of sampling iterations that were followed. *)
Inductive completion : Set :=
  | Completed
  | StillSampling.

Section Monitor.
Variable env : Env.
Variable challenge : Challenge.t.
Variable fight_id : string.

(** The sleep that opens sampling iteration [i]: a cancellation that arrives
    while the routine is suspended there is raised at the [await]. *)
Definition sampling_sleep (i : nat) : M unit :=
  if bool_decide (cancelled_at env = Some i) then
    _ ← awaiting (Sleep (monitoring_interval config));
    raise CancelledError
  else sleep (monitoring_interval config).

(** [while fight_duration < max_duration: ...] from iteration [i] on; the
    result is the triple of [fight_duration] and the two metrics
    dictionaries at loop exit, or [None] when the loop is still running
    after [fuel] iterations. *)
Fixpoint sampling_loop (fuel : nat) (i : nat) (fight_duration : Z)
    (participant1_metrics participant2_metrics : metrics)
  : M (option (Z * metrics * metrics)) :=
  if negb (fight_duration <? max_fight_duration config) then
    mret (Some (fight_duration, participant1_metrics, participant2_metrics))
  else
    match fuel with
    | O => mret None
    | S fuel =>
        _ ← sampling_sleep i;
        let fight_duration := fight_duration + monitoring_interval config in
        current_metrics ← UserbotManager.get_fight_metrics env i
          (Challenge.challenger_id challenge) (Challenge.opponent_id challenge);
        '(participant1_metrics, participant2_metrics) ←
          match current_metrics with
          | Some (m1, m2) =>
              _ ← FightOps.update_fight_metrics fight_id
                    (Challenge.challenger_id challenge) m1;
              _ ← FightOps.update_fight_metrics fight_id
                    (Challenge.opponent_id challenge) m2;
              mret (m1, m2)
          | None => mret (participant1_metrics, participant2_metrics)
          end;
        active ← UserbotManager.are_participants_active env i
          (Challenge.challenger_id challenge) (Challenge.opponent_id challenge);
        if negb active then
          mret (Some (fight_duration, participant1_metrics, participant2_metrics))
        else
          sampling_loop fuel (S i) fight_duration
            participant1_metrics participant2_metrics
    end.

End Monitor.

(** [{"join_time": 0, "speak_time": 0, "volume_sum": 0.0}] *)
Definition initial_metrics : metrics :=
  <["join_time" := PyNum 0]> (<["speak_time" := PyNum 0]>
    (<["volume_sum" := PyNum 0]> ∅)).

(** [_monitor_fight], followed for at most [fuel] sampling iterations. *)
Definition _monitor_fight (env : Env) (fuel : nat) (challenge_id fight_id : string)
  : M completion :=
  try_except
    (challenge ← ChallengeOps.get_challenge challenge_id;
     match challenge with
     | None => mret Completed
     | Some challenge =>
         entry ← read (fun w => _active_challenges w !! challenge_id);
         match entry with
         | None => mret Completed
         | Some state_machine =>
             _ ← sleep (challenge_timeout config);
             participants_joined ← UserbotManager.check_participants_joined env
               (Challenge.challenger_id challenge) (Challenge.opponent_id challenge);
             if negb participants_joined then
               _ ← _end_fight_no_show challenge_id fight_id;
               mret Completed
             else
               _ ← machine_transition_to state_machine FIGHT_ACTIVE;
               _ ← RecordingManager.start_recording fight_id
                     (bool_decide (Challenge.fight_type challenge = Some FightType.VOLUME))
                     (recording_started env);
               exit ← sampling_loop env challenge fight_id fuel 0 0
                        initial_metrics initial_metrics;
               match exit with
               | None => mret StillSampling
               | Some (fight_duration, participant1_metrics, participant2_metrics) =>
                   _ ← _end_fight_with_results challenge_id fight_id fight_duration
                         participant1_metrics participant2_metrics
                         (Challenge.fight_type challenge);
                   mret Completed
               end
         end
     end)
    (fun _ =>
       _ ← _end_fight_error challenge_id fight_id;
       mret Completed).

(** [for x in l: body(x)] *)
Fixpoint for_each {A : Type} (l : list A) (body : A -> M unit) : M unit :=
  match l with
  | [] => mret tt
  | x :: l => _ ← body x; for_each l body
  end.

(** [state_machine.get_time_in_state()] through a reference. *)
Definition time_in_state (w : World) (ref : nat) : Z :=
  match machines w !! ref with
  | Some sm => get_time_in_state sm (clock w)
  | None => 0
  end.

(** The body of the second loop of [expire_old_challenges]. *)
Definition expire_entry (challenge_id : string) : M unit :=
  entry ← read (fun w => _active_challenges w !! challenge_id);
  match entry with
  | Some ref =>
      _ ← machine_transition_to ref EXPIRED;
      modify (with_active (delete challenge_id))
  | None => raise KeyError
  end.

(** [expire_old_challenges] *)
Definition expire_old_challenges : M Z :=
  try_except
    (expired_count ← ChallengeOps.expire_old_challenges;
     expired_challenges ← read (fun w =>
       List.filter (fun challenge_id =>
            match _active_challenges w !! challenge_id with
            | Some ref => challenge_timeout config * 3 <? time_in_state w ref
            | None => false
            end)
         (map_to_list (_active_challenges w)).*1);
     _ ← for_each expired_challenges expire_entry;
     mret expired_count)
    (fun _ => mret 0).

(** [cancel_challenge]. [task.cancel()] only requests the cancellation; the
    routine meets it at the [await] it is suspended in. *)
Definition cancel_challenge (challenge_id : string) : M bool :=
  try_except
    (task ← read (fun w => _fight_tasks w !! challenge_id);
     _ ← match task with
         | Some _ => modify (with_tasks (delete challenge_id))
         | None => mret tt
         end;
     _ ← ChallengeOps.update_challenge_status challenge_id ChallengeStatus.CANCELLED;
     _ ← transition_and_discard challenge_id CANCELLED;
     mret true)
    (fun _ => mret false).

(** [get_active_challenges_count] and [is_challenge_active] *)
Definition get_active_challenges_count (w : World) : nat :=
  size (_active_challenges w).

Definition is_challenge_active (w : World) (challenge_id : string) : bool :=
  bool_decide (is_Some (_active_challenges w !! challenge_id)).

End Manager.
End ChallengeManager.

(* ===================================================================== *)
(** ** The specification's own wording, for comparison with the code *)
(* ===================================================================== *)

Module Spec.
Import StateMachine.

(** The directed edges of section 4.1, state by state: the four terminal
    states have no outgoing edge. *)
Definition edge (S T : ChallengeState) : bool :=
  match S, T with
  | CREATED, SENT | CREATED, CANCELLED => true
  | SENT, ACCEPTED | SENT, DECLINED | SENT, EXPIRED | SENT, CANCELLED => true
  | ACCEPTED, FIGHT_TYPE_SELECTED | ACCEPTED, CANCELLED => true
  | FIGHT_TYPE_SELECTED, PARTICIPANTS_JOINING | FIGHT_TYPE_SELECTED, CANCELLED => true
  | PARTICIPANTS_JOINING, FIGHT_ACTIVE | PARTICIPANTS_JOINING, EXPIRED
  | PARTICIPANTS_JOINING, CANCELLED => true
  | FIGHT_ACTIVE, FIGHT_FINISHED | FIGHT_ACTIVE, CANCELLED => true
  | _, _ => false
  end.

(** Section 4.2, output contract: exactly one of the pairings WIN/LOSS (winner
    participant 1), LOSS/WIN (winner participant 2) and DRAW/DRAW (no
    winner). *)
Definition consistent (o : WinnerDetector.outcome) : Prop :=
  o = WinnerDetector.p1_wins \/ o = WinnerDetector.p2_wins \/ o = WinnerDetector.draw.

(** The identity behind a participant number of the detector: participant 1
    is the challenger, participant 2 the opponent. *)
Definition participant_id (c : Challenge.t) (number : Z) : Z :=
  if number =? 1 then Challenge.challenger_id c else Challenge.opponent_id c.



(** The triple of a fight record that [finish_fight] writes. *)
Definition persisted (f : Fight.t) : option Z * FightResult.t * FightResult.t :=
  (Fight.winner_id f, Fight.participant1_result f, Fight.participant2_result f).

(** The statistics of a user after one more fight that was won, lost or
    drawn. *)
Definition won (u : User.t) : User.t :=
  User.mk (User.total_fights u + 1) (User.wins u + 1) (User.losses u) (User.draws u).
Definition lost (u : User.t) : User.t :=
  User.mk (User.total_fights u + 1) (User.wins u) (User.losses u + 1) (User.draws u).
Definition drew (u : User.t) : User.t :=
  User.mk (User.total_fights u + 1) (User.wins u) (User.losses u) (User.draws u + 1).

(** How the challenger and the opponent are credited for the results [r1]
    and [r2] of a fight. *)
Definition credit1 (r1 r2 : FightResult.t) : User.t -> User.t :=
  if bool_decide (r1 = FightResult.WIN) then won
  else if bool_decide (r2 = FightResult.WIN) then lost else drew.

Definition credit2 (r1 r2 : FightResult.t) : User.t -> User.t :=
  if bool_decide (r1 = FightResult.WIN) then lost
  else if bool_decide (r2 = FightResult.WIN) then won else drew.


(** The users after the two statistics updates of a fight that ended with
    the results [r1] and [r2]: the challenger is credited first, then the
    opponent; a user without a record is skipped. *)
Definition credited (c : Challenge.t) (r1 r2 : FightResult.t) (us : gmap Z User.t)
  : gmap Z User.t :=
  let f1 := if bool_decide (r1 = FightResult.WIN) then User.inc 1 0 0 1
            else if bool_decide (r2 = FightResult.WIN) then User.inc 0 1 0 1
            else User.inc 0 0 1 1 in
  let f2 := if bool_decide (r1 = FightResult.WIN) then User.inc 0 1 0 1
            else if bool_decide (r2 = FightResult.WIN) then User.inc 1 0 0 1
            else User.inc 0 0 1 1 in
  let us1 := match us !! Challenge.challenger_id c with
             | Some u => <[Challenge.challenger_id c := f1 u]> us
             | None => us
             end in
  match us1 !! Challenge.opponent_id c with
  | Some u => <[Challenge.opponent_id c := f2 u]> us1
  | None => us1
  end.


(** Calls that stop a recording, and calls that release the session agents. *)
Definition is_stop_recording (c : Runtime.call) : bool :=
  match c with
  | Runtime.StopRecording _ => true
  | _ => false
  end.

Definition is_release (c : Runtime.call) : bool :=
  match c with
  | Runtime.CleanupFight _ _ => true
  | _ => false
  end.

Definition count (p : Runtime.call -> bool) (l : list Runtime.call) : nat :=
  length (List.filter p l).

(** A stretch of the call log without any of the two. *)
Definition no_cleanup (l : list Runtime.call) : Prop :=
  count is_stop_recording l = 0%nat /\ count is_release l = 0%nat.

(** What a run appends to the call log holds no cleanup call. *)
Definition appends_no_cleanup (w w' : Runtime.World) : Prop :=
  exists l, Runtime.calls w' = Runtime.calls w ++ l /\ no_cleanup l.

End Spec.

(* ===================================================================== *)
(** ** Concrete inputs used by the examples and counterexamples *)
(* ===================================================================== *)

Module Examples.
Import Py.

(** [{"total_join_time": t}] *)
Definition presence (t : pyval) : metrics :=
  {["total_join_time"%string := t]}.

(** [{"speak_time": s, "total_join_time": t, "average_volume": v}] *)
Definition activity (s t v : Q) : metrics :=
  <["speak_time"%string := PyNum s]> (<["total_join_time"%string := PyNum t]>
    (<["average_volume"%string := PyNum v]> ∅)).

(** [{"join_time": j, "total_join_time": j}] *)
Definition joined (j : Q) : metrics :=
  <["join_time"%string := PyNum j]> (presence (PyNum j)).

Definition config0 : Runtime.Config := Runtime.mkConfig 30 300 5.

(** A challenge between users 1001 and 2002 with the given contest type. *)
Definition challenge0 (fight_type : option FightType.t) : Challenge.t :=
  Challenge.mk 1001 2002 fight_type ChallengeStatus.IN_PROGRESS 0.

(** The fight record of that challenge, with the placeholder outcome. *)
Definition fight0 : Fight.t :=
  Fight.mk "c1" 1001 2002 FightType.TIMING 0 None FightResult.WIN FightResult.LOSS
    ∅ ∅ "" 0 0.

Definition user0 : User.t := User.mk 0 0 0 0.

(** A world holding challenge ["c1"], its fight ["f1"], both users, and one
    state machine in state [S], registered for ["c1"]. *)
Definition world0 (fight_type : option FightType.t) (S : StateMachine.ChallengeState)
  : Runtime.World :=
  Runtime.mkWorld {["c1"%string := challenge0 fight_type]} {["f1"%string := fight0]}
    (<[1001 := user0]> {[2002 := user0]})
    {[0%nat := StateMachine.init S 0]} {["c1"%string := 0%nat]}
    {["c1"%string := "f1"%string]} ∅ 0 [].

(** Answers of the environment: whether the participants joined, no
    metrics, participants active throughout, and the sampling iteration at
    which a cancellation arrives, if any. *)
Definition env0 (joined : bool) (cancelled_at : option nat) : Runtime.Env :=
  Runtime.mkEnv joined true (fun _ => None) (fun _ => true) cancelled_at.

End Examples.

(* ===================================================================== *)
(** ** Further functions of challenge/state_machine.py *)
(* ===================================================================== *)

Module StateMachineQueries.
Import StateMachine.

(** The value of each member of [ChallengeState]. *)
Definition value (s : ChallengeState) : string :=
  match s with
  | CREATED => "created"
  | SENT => "sent"
  | ACCEPTED => "accepted"
  | DECLINED => "declined"
  | FIGHT_TYPE_SELECTED => "fight_type_selected"
  | PARTICIPANTS_JOINING => "participants_joining"
  | FIGHT_ACTIVE => "fight_active"
  | FIGHT_FINISHED => "fight_finished"
  | EXPIRED => "expired"
  | CANCELLED => "cancelled"
  end%string.

(** [ChallengeState(state_string)]: the member with that value, [None]
    standing for the [ValueError] of a string that is no member's value. *)
Definition of_value (state_string : string) : option ChallengeState :=
  List.find (fun s => bool_decide (value s = state_string)) all_states.

(** [from_state_string] *)
Definition from_state_string (state_string : string) (now : datetime)
  : ChallengeStateMachine :=
  match of_value state_string with
  | Some state => init state now
  | None => init CREATED now
  end.

(** [get_state_history]: a copy of the list. *)
Definition get_state_history (sm : ChallengeStateMachine)
  : list (ChallengeState * datetime) :=
  state_history sm.

(** A sequence of [transition_to] calls on one machine, each with the
    target asked for and the time of the call; the answers are dropped. *)
Definition transitions (sm : ChallengeStateMachine)
    (steps : list (ChallengeState * datetime)) : ChallengeStateMachine :=
  fold_left (fun sm step => snd (transition_to sm step.1 step.2)) steps sm.

(** Consecutive elements of a list of states are edges of the table. *)
Fixpoint chained (l : list ChallengeState) : Prop :=
  match l with
  | s :: ((t :: _) as l') => t ∈ VALID_TRANSITIONS s /\ chained l'
  | _ => True
  end.

(** The history ends with the current state and is chained. *)
Definition well_formed (sm : ChallengeStateMachine) : Prop :=
  (exists h t, state_history sm = h ++ [(current_state sm, t)])
  /\ chained (state_history sm).*1.

(** The four states without outgoing edges. *)
Definition terminal (s : ChallengeState) : Prop :=
  s = DECLINED \/ s = FIGHT_FINISHED \/ s = EXPIRED \/ s = CANCELLED.

(** How far a state is along the life of a challenge. *)
Definition rank (s : ChallengeState) : nat :=
  match s with
  | CREATED => 0
  | SENT => 1
  | ACCEPTED => 2
  | FIGHT_TYPE_SELECTED => 3
  | PARTICIPANTS_JOINING => 4
  | FIGHT_ACTIVE => 5
  | _ => 6
  end.

End StateMachineQueries.

(* ===================================================================== *)
(** ** Further functions of ai/winner_detector.py *)
(* ===================================================================== *)

Module WinnerReports.
Import Py WinnerDetector.


Definition py_min (a b : pyval) : res pyval :=
  smaller ← py_lt b a;
  Ok (if smaller : bool then b else a).


(** The participant-swapped outcome: the winner's number and the two
    results change places. *)
Definition swapped (o : outcome) : outcome :=
  (match o.1.1 with
   | Some n => Some (3 - n)
   | None => None
   end, o.2, o.1.2).

End WinnerReports.

(* ===================================================================== *)
(** ** Creation and expiry of challenges: database/operations.py and
       challenge/manager.py *)
(* ===================================================================== *)

Module ChallengeStore.
Import Py StateMachine Runtime.

(** The filter of [get_pending_challenges]: the opponent is [telegram_id],
    the status is PENDING and the expiry lies after [now]. *)
Definition is_pending_for (telegram_id : Z) (now : datetime) (c : Challenge.t) : bool :=
  bool_decide (Challenge.opponent_id c = telegram_id)
  && match Challenge.status c with
     | ChallengeStatus.PENDING => true
     | _ => false
     end
  && (now <? Challenge.challenge_expires_at c).

(** [ChallengeOps.get_pending_challenges].  (The call log of [Runtime] has
    no entry for this operation, nor for the next.) *)
Definition get_pending_challenges (telegram_id : Z) : M (list Challenge.t) :=
  now ← utcnow;
  read (fun w => List.filter (is_pending_for telegram_id now)
                   (map_to_list (challenges w)).*2).

(** [ChallengeOps.create_challenge]; [inserted_id] is the identifier the database
    generates, an identifier already in use makes the insertion fail. *)
Definition create_challenge (inserted_id : string) (challenge : Challenge.t)
  : M (option string) :=
  old ← read (fun w => challenges w !! inserted_id);
  match old with
  | Some _ => mret None
  | None =>
      _ ← modify (with_challenges (insert inserted_id challenge));
      mret (Some inserted_id)
  end.

End ChallengeStore.

Module ChallengeLifecycle.
Import Py StateMachine Runtime.

Section Manager.
Variable config : Config.

(** [ChallengeManager.create_challenge].  [Challenge.t] has the fields the
    modelled functions read; [chat_id], which none of them reads, is not
    among them.  The new state machine is a new object of the store. *)
Definition create_challenge (inserted_id : string) (challenger_id opponent_id chat_id : Z)
  : M (option string) :=
  try_except
    (existing_challenges ← ChallengeStore.get_pending_challenges opponent_id;
     if existsb (fun challenge =>
                   bool_decide (Challenge.challenger_id challenge = challenger_id))
          existing_challenges
     then mret None
     else
       now ← utcnow;
       let challenge :=
         Challenge.mk challenger_id opponent_id None ChallengeStatus.PENDING
           (now + challenge_timeout config * 2 * 1000000) in
       challenge_id ← ChallengeStore.create_challenge inserted_id challenge;
       match challenge_id with
       | Some id =>
           if bool_decide (id = ""%string) then mret (Some id)
           else
             now ← utcnow;
             let state_machine := init CREATED now in
             let state_machine := snd (transition_to state_machine SENT now) in
             ref ← read (fun w => fresh (dom (machines w)));
             _ ← modify (with_machines (insert ref state_machine));
             _ ← modify (with_active (insert id ref));
             mret (Some id)
       | None => mret None
       end)
    (fun _ => mret None).

End Manager.

(** A challenge of [challenger_id] to [opponent_id], in this direction,
    that is still pending and not past its expiry. *)
Definition pending_between (w : World) (challenger_id opponent_id : Z) : Prop :=
  exists id c,
    challenges w !! id = Some c
    /\ Challenge.challenger_id c = challenger_id
    /\ Challenge.opponent_id c = opponent_id
    /\ Challenge.status c = ChallengeStatus.PENDING
    /\ clock w < Challenge.challenge_expires_at c.

(** The test of the first loop of the manager's [expire_old_challenges] on
    the entry of [challenge_id]. *)
Definition stale (config : Config) (w : World) (challenge_id : string) : bool :=
  match _active_challenges w !! challenge_id with
  | Some ref => challenge_timeout config * 3 <? ChallengeManager.time_in_state w ref
  | None => false
  end.

(** What the [update_many] of [ChallengeOps.expire_old_challenges] makes of
    a record at time [now]. *)
Definition swept (now : datetime) (c : Challenge.t) : Challenge.t :=
  if ChallengeOps.is_overdue now c
  then Challenge.set_status ChallengeStatus.EXPIRED c else c.

(** The state machine [create_challenge] registers at time [now]. *)
Definition sent_machine (now : datetime) : ChallengeStateMachine :=
  mkSM SENT [(CREATED, now); (SENT, now)].

(** Worlds that differ at most in the fight records, the clock and the call
    log. *)
Definition sampling_frame (w w' : World) : Prop :=
  challenges w' = challenges w /\ users w' = users w /\ machines w' = machines w
  /\ _active_challenges w' = _active_challenges w
  /\ _fight_tasks w' = _fight_tasks w
  /\ active_recordings w' = active_recordings w.

(** The calls a run appends to the log. *)
Definition appended (w w' : World) (l : list call) : Prop :=
  calls w' = (calls w ++ l)%list.

(** A [ChallengeManager] as [__init__] leaves it. *)
Definition manager_init (w : World) : Prop :=
  _active_challenges w = ∅ /\ _fight_tasks w = ∅.

(** One step of a system that drives a manager through its public
    coroutines, lets time pass, and changes the stored challenges and users
    in any way, as the handlers and the other operations of the database
    do. *)
Inductive manager_step (config : Config) (w : World) : World -> Prop :=
  | step_create_challenge (inserted_id : string) (challenger_id opponent_id chat_id : Z) :
      manager_step config w
        (snd (create_challenge config inserted_id challenger_id opponent_id chat_id w))
  | step_start_fight (inserted_id challenge_id : string) :
      manager_step config w (snd (ChallengeManager.start_fight inserted_id challenge_id w))
  | step_cancel_challenge (challenge_id : string) :
      manager_step config w (snd (ChallengeManager.cancel_challenge challenge_id w))
  | step_expire_old_challenges :
      manager_step config w (snd (ChallengeManager.expire_old_challenges config w))
  | step_sleep (seconds : Z) :
      manager_step config w (snd (sleep seconds w))
  | step_database (f : gmap string Challenge.t -> gmap string Challenge.t)
        (g : gmap Z User.t -> gmap Z User.t) :
      manager_step config w (with_challenges f (with_users g w)).

Inductive manager_reachable (config : Config) (w0 : World) : World -> Prop :=
  | reachable_start : manager_reachable config w0 w0
  | reachable_next (w w' : World) :
      manager_reachable config w0 w -> manager_step config w w' ->
      manager_reachable config w0 w'.

(** Every tracked challenge has a state machine of its own, which is in
    state SENT with the history of a new challenge. *)
Definition tracked_in_sent (w : World) : Prop :=
  (forall id ref, _active_challenges w !! id = Some ref ->
     exists now, machines w !! ref = Some (sent_machine now))
  /\ (forall id1 id2 ref, _active_challenges w !! id1 = Some ref ->
        _active_challenges w !! id2 = Some ref -> id1 = id2).

End ChallengeLifecycle.

(* ===================================================================== *)
(** ** userbot/manager.py: the pool of userbots *)
(* ===================================================================== *)

Module UserbotPool.

(** The attributes of a [UserbotManager] that the pool operations use.
    Userbots are objects, named by a number; [current_fight_id] is the
    attribute of that name of each [UserbotController] ([None] when it is
    not monitoring); [active_fights] is a dictionary in insertion order. *)
Record t : Type := mk {
  available_userbots : list nat;
  active_fights : list (string * nat);
  current_fight_id : gmap nat string
}.

(** [d[key] = value] and [del d[key]] on a dictionary in insertion order. *)
Fixpoint dict_set (key : string) (value : nat) (d : list (string * nat))
  : list (string * nat) :=
  match d with
  | [] => [(key, value)]
  | (k, v) :: d' =>
      if bool_decide (k = key) then (key, value) :: d'
      else (k, v) :: dict_set key value d'
  end.

Definition dict_del (key : string) (d : list (string * nat)) : list (string * nat) :=
  List.filter (fun kv => negb (bool_decide (kv.1 = key))) d.

(** [UserbotController.is_monitoring_fight] *)
Definition is_monitoring_fight (p : t) (userbot : nat) : bool :=
  bool_decide (is_Some (current_fight_id p !! userbot)).

(** [get_available_userbot]: [pop(0)] of the list, if it is not empty. *)
Definition get_available_userbot (p : t) : option nat * t :=
  match available_userbots p with
  | userbot :: rest => (Some userbot, mk rest (active_fights p) (current_fight_id p))
  | [] => (None, p)
  end.

(** [release_userbot] *)
Definition release_userbot (userbot : nat) (p : t) : t :=
  if bool_decide (userbot ∈ available_userbots p) then p
  else mk (available_userbots p ++ [userbot]) (active_fights p) (current_fight_id p).

(** [assign_userbot_to_fight]; [joined] is the answer of the userbot's
    [join_voice_chat], which catches what it raises. *)
Definition assign_userbot_to_fight (joined : bool) (fight_id : string) (p : t)
  : bool * t :=
  match get_available_userbot p with
  | (None, p) => (false, p)
  | (Some userbot, p) =>
      if negb joined then (false, release_userbot userbot p)
      else
        (true, mk (available_userbots p)
                 (dict_set fight_id userbot (active_fights p))
                 (<[userbot := fight_id]> (current_fight_id p)))
  end.

(** The first loop of [cleanup_fight] (called without [chat_id]) over the
    items of [active_fights]: the pool after it, and [fights_to_cleanup]. *)
Fixpoint cleanup_loop (items : list (string * nat)) (p : t) (fights_to_cleanup : list string)
  : t * list string :=
  match items with
  | [] => (p, fights_to_cleanup)
  | (fight_id, userbot) :: items =>
      if is_monitoring_fight p userbot then
        let p := mk (available_userbots p) (active_fights p)
                   (delete userbot (current_fight_id p)) in
        let p := release_userbot userbot p in
        cleanup_loop items p (fights_to_cleanup ++ [fight_id])
      else cleanup_loop items p fights_to_cleanup
  end.

(** [cleanup_fight(participant1_id, participant2_id)] *)
Definition cleanup_fight (participant1_id participant2_id : Z) (p : t) : t :=
  let '(p, fights_to_cleanup) := cleanup_loop (active_fights p) p [] in
  fold_left (fun p fight_id =>
               mk (available_userbots p) (dict_del fight_id (active_fights p))
                  (current_fight_id p))
    fights_to_cleanup p.

(** [get_available_userbot_count] and [get_active_fight_count] *)
Definition get_available_userbot_count (p : t) : nat := length (available_userbots p).
Definition get_active_fight_count (p : t) : nat := length (active_fights p).

(** What the pool operations keep true of a pool: no userbot is listed twice
    as available, a fight identifier is a key once, and the userbot of a
    registered fight monitors that fight, serves no other registered fight
    and is not available. *)
Definition consistent (p : t) : Prop :=
  NoDup (available_userbots p)
  /\ NoDup (active_fights p).*1
  /\ NoDup (active_fights p).*2
  /\ Forall (fun kv => current_fight_id p !! kv.2 = Some kv.1
                       /\ kv.2 ∉ available_userbots p) (active_fights p).

End UserbotPool.

(* ===================================================================== *)
(** ** bot/handlers.py: callback data *)
(* ===================================================================== *)

Module CallbackData.
Local Open Scope string_scope.

(** The separator ["_"]: the character of code 95, its bits from the least
    significant one. *)
Definition underscore : Ascii.ascii :=
  Ascii.Ascii true true true true true false true false.

(** [s.split(sep, maxsplit)] for a separator of one character. *)
Fixpoint split (sep : Ascii.ascii) (maxsplit : nat) (s : string) {struct s}
  : list string :=
  match maxsplit with
  | O => [s]
  | S less =>
      match s with
      | EmptyString => [EmptyString]
      | String c s' =>
          if bool_decide (c = sep) then EmptyString :: split sep less s'
          else match split sep maxsplit s' with
               | part :: parts => String c part :: parts
               | [] => [String c EmptyString]
               end
      end
  end.





End CallbackData.

(* ===================================================================== *)
(** ** Products that binary64 forms without rounding *)
(* ===================================================================== *)

Module Products.
Import Py.




End Products.

(* ===================================================================== *)
(** ** Python numbers as the interpreter has them: [int] and [float] *)
(* ===================================================================== *)

Module Py64.

#[local] Set Warnings "-inexact-float".

(** What a metrics dictionary holds at run time: an [int] of any size, a
    [float] (an IEEE 754 binary64 number, the infinities and NaN included),
    or a value that is no number, for which [None] stands. *)
Inductive value : Set :=
  | PyInt (n : Z)
  | PyFloat (x : float)
  | PyNone.

(** The exceptions the arithmetic of the detector can raise; all three
    derive from [Exception]. *)
Inductive exn : Set :=
  | TypeError
  | ZeroDivisionError
  | OverflowError.

Inductive res (A : Type) : Type :=
  | Ok (a : A)
  | Raise (e : exn).
Arguments Ok {A} a.
Arguments Raise {A} e.

#[global] Instance res_ret : MRet res := fun A a => Ok a.
#[global] Instance res_bind : MBind res := fun A B f m =>
  match m with
  | Ok a => f a
  | Raise e => Raise e
  end.

(** [try: body  except Exception as e: handler] *)
Definition try_except {A : Type} (body : res A) (handler : exn -> res A) : res A :=
  match body with
  | Ok a => Ok a
  | Raise e => handler e
  end.

(** An integer as an exact (unrounded) floating-point datum. *)
Definition SF_of_int (n : Z) : spec_float :=
  match n with
  | Z0 => S754_zero false
  | Zpos p => S754_finite false p 0
  | Zneg p => S754_finite true p 0
  end.

(** The binary64 number nearest to [n], ties to even; an infinity when [n]
    is beyond the largest finite one. *)
Definition nearest_float (n : Z) : float :=
  SF2Prim (binary_normalize prec emax n 0 false).

(** [float(n)], the conversion every mixed operation applies to its [int]
    operand: [OverflowError: int too large to convert to float]. *)
Definition float_of_int (n : Z) : res float :=
  let x := nearest_float n in
  if is_infinity x then Raise OverflowError else Ok x.

(** The operand of a float operation. *)
Definition as_float (a : value) : res float :=
  match a with
  | PyInt n => float_of_int n
  | PyFloat x => Ok x
  | PyNone => Raise TypeError
  end.

(** [a - b]: exact on two [int]s, rounded to binary64 otherwise. *)
Definition py_sub (a b : value) : res value :=
  match a, b with
  | PyInt x, PyInt y => Ok (PyInt (x - y))
  | PyNone, _ | _, PyNone => Raise TypeError
  | _, _ => x ← as_float a; y ← as_float b; Ok (PyFloat (x - y))
  end.

(** [a + b] *)
Definition py_add (a b : value) : res value :=
  match a, b with
  | PyInt x, PyInt y => Ok (PyInt (x + y))
  | PyNone, _ | _, PyNone => Raise TypeError
  | _, _ => x ← as_float a; y ← as_float b; Ok (PyFloat (x + y))
  end.

(** [a * b] *)
Definition py_mul (a b : value) : res value :=
  match a, b with
  | PyInt x, PyInt y => Ok (PyInt (x * y))
  | PyNone, _ | _, PyNone => Raise TypeError
  | _, _ => x ← as_float a; y ← as_float b; Ok (PyFloat (x * y))
  end.

(** [a / b] on two [int]s: the quotient of the integers themselves, rounded
    once to binary64; [OverflowError: integer division result too large for
    a float]. *)
Definition int_truediv (a b : Z) : res float :=
  if b =? 0 then Raise ZeroDivisionError
  else
    let q := SF2Prim (SFdiv prec emax (SF_of_int a) (SF_of_int b)) in
    if is_infinity q then Raise OverflowError else Ok q.

(** [a / b]: a float operation converts both operands before it tests the
    divisor. *)
Definition py_truediv (a b : value) : res value :=
  match a, b with
  | PyInt x, PyInt y => q ← int_truediv x y; Ok (PyFloat q)
  | PyNone, _ | _, PyNone => Raise TypeError
  | _, _ =>
      x ← as_float a; y ← as_float b;
      if (y =? 0)%float then Raise ZeroDivisionError else Ok (PyFloat (x / y))
  end.

(** [abs(a)] *)
Definition py_abs (a : value) : res value :=
  match a with
  | PyInt x => Ok (PyInt (Z.abs x))
  | PyFloat x => Ok (PyFloat (abs x))
  | PyNone => Raise TypeError
  end.

(** A float against an [int]: Python compares the two exactly, without
    converting the [int].  [None] when the float is NaN. *)
Definition compare_float_int (x : float) (n : Z) : option comparison :=
  match Prim2SF x with
  | S754_nan => None
  | S754_infinity s => Some (if s then Lt else Gt)
  | S754_zero _ => Some (0 ?= n)
  | S754_finite s m e =>
      let v := cond_Zopp s (Zpos m) in
      Some (if 0 <=? e then (v * 2 ^ e ?= n) else (v ?= n * 2 ^ (- e)))
  end.

(** [x < n] and [x > n] for a float [x] and an [int] [n]; both are false
    of NaN. *)
Definition float_lt_int (x : float) (n : Z) : bool :=
  match compare_float_int x n with
  | Some Lt => true
  | _ => false
  end.

Definition float_gt_int (x : float) (n : Z) : bool :=
  match compare_float_int x n with
  | Some Gt => true
  | _ => false
  end.

(** [a < b] *)
Definition py_lt (a b : value) : res bool :=
  match a, b with
  | PyInt x, PyInt y => Ok (x <? y)
  | PyFloat x, PyFloat y => Ok (x <? y)%float
  | PyFloat x, PyInt y => Ok (float_lt_int x y)
  | PyInt x, PyFloat y => Ok (float_gt_int y x)
  | _, _ => Raise TypeError
  end.

(** [a > b] *)
Definition py_gt (a b : value) : res bool :=
  match a, b with
  | PyInt x, PyInt y => Ok (y <? x)
  | PyFloat x, PyFloat y => Ok (y <? x)%float
  | PyFloat x, PyInt y => Ok (float_gt_int x y)
  | PyInt x, PyFloat y => Ok (float_lt_int y x)
  | _, _ => Raise TypeError
  end.

(** [min(a, b)] and [max(a, b)]: the first argument, unless the second is
    strictly smaller (larger). *)
Definition py_min (a b : value) : res value :=
  smaller ← py_lt b a;
  Ok (if smaller : bool then b else a).

Definition py_max (a b : value) : res value :=
  larger ← py_gt b a;
  Ok (if larger : bool then b else a).

(** A metrics dictionary and [d.get(key, default)]. *)
Abbreviation metrics := (gmap string value).

Definition get (d : metrics) (key : string) (default : value) : value :=
  match d !! key with
  | Some v => v
  | None => default
  end.

(** The rational number a finite float stands for. *)
Definition to_Q (x : float) : option Q :=
  match Prim2SF x with
  | S754_zero _ => Some 0%Q
  | S754_finite s m e => Some (inject_Z (cond_Zopp s (Zpos m)) * 2 ^ e)%Q
  | _ => None
  end.

End Py64.

(* ===================================================================== *)
(** ** ai/winner_detector.py on Python's numbers *)
(* ===================================================================== *)

Module WinnerDetector64.
Import Py64.
Export WinnerDetector (outcome, draw, p1_wins, p2_wins).

#[local] Set Warnings "-inexact-float".

Section Detector.
(** [config.volume_threshold], whatever the configuration holds. *)
Variable volume_threshold : value.

(** [_analyze_timing_fight] *)
Definition _analyze_timing_fight (p1_metrics p2_metrics : metrics) : res outcome :=
  try_except
    (let p1_join_time := get p1_metrics "total_join_time" (PyInt 0) in
     let p2_join_time := get p2_metrics "total_join_time" (PyInt 0) in
     d ← py_sub p1_join_time p2_join_time;
     time_difference ← py_abs d;
     small ← py_lt time_difference (PyInt 5);
     if small : bool then Ok draw
     else
       longer ← py_gt p1_join_time p2_join_time;
       if longer : bool then Ok p1_wins else Ok p2_wins)
    (fun _ => Ok draw).

(** [_calculate_activity_score] *)
Definition _calculate_activity_score (m : metrics) : res value :=
  try_except
    (let speak_time := get m "speak_time" (PyInt 0) in
     let average_volume := get m "average_volume" (PyInt 0) in
     let total_join_time := get m "total_join_time" (PyInt 1) in
     positive ← py_gt total_join_time (PyInt 0);
     speaking_percentage ←
       (if positive : bool then py_truediv speak_time total_join_time
        else Ok (PyInt 0));
     a ← py_mul speaking_percentage (PyFloat 0.7);
     v ← py_truediv average_volume (PyInt 10000);
     b ← py_mul v (PyFloat 0.3);
     py_add a b)
    (fun _ => Ok (PyFloat 0)).

(** [_analyze_volume_fight] *)
Definition _analyze_volume_fight (p1_metrics p2_metrics : metrics) : res outcome :=
  try_except
    (p1_score ← _calculate_activity_score p1_metrics;
     p2_score ← _calculate_activity_score p2_metrics;
     d ← py_sub p1_score p2_score;
     score_difference ← py_abs d;
     let threshold := volume_threshold in
     small ← py_lt score_difference threshold;
     if small : bool then Ok draw
     else
       higher ← py_gt p1_score p2_score;
       if higher : bool then Ok p1_wins else Ok p2_wins)
    (fun _ => Ok draw).

(** [determine_winner].  The argument [fight_type] is [Some t] for a value
    equal to the member [t] of [FightType], and [None] for any other
    value. *)
Definition determine_winner (fight_type : option FightType.t)
    (participant1_metrics participant2_metrics : metrics) : res outcome :=
  try_except
    (match fight_type with
     | Some FightType.TIMING =>
         _analyze_timing_fight participant1_metrics participant2_metrics
     | Some FightType.VOLUME =>
         _analyze_volume_fight participant1_metrics participant2_metrics
     | None => Ok draw
     end)
    (fun _ => Ok draw).

End Detector.

(** The dictionary [analyze_fight_quality] returns: the analysis, or
    [{'fight_quality': 'unknown', 'error': str(e)}]. *)
Record analysis : Type := mkAnalysis {
  total_participants : Z;
  fight_quality : string;
  engagement_level : string;
  balance_rating : value;
  notable_events : list string
}.

Inductive quality_report : Type :=
  | Analysis (a : analysis)
  | Unknown (error : exn).

(** [analyze_fight_quality] *)
Definition analyze_fight_quality (participant1_metrics participant2_metrics : metrics)
  : res quality_report :=
  try_except
    (p1_score ← _calculate_activity_score participant1_metrics;
     p2_score ← _calculate_activity_score participant2_metrics;
     total_engagement ← py_add p1_score p2_score;
     high ← py_gt total_engagement (PyFloat 1.5);
     levels ←
       (if high : bool then Ok ("high"%string, "excellent"%string)
        else
          medium ← py_gt total_engagement (PyFloat 1.0);
          if medium : bool then Ok ("medium"%string, "good"%string)
          else Ok ("low"%string, "fair"%string));
     total ← py_add p1_score p2_score;
     positive ← py_gt total (PyInt 0);
     balance ←
       (if positive : bool then
          lower ← py_min p1_score p2_score;
          higher ← py_max p1_score p2_score;
          py_truediv lower higher
        else Ok (PyFloat 0.5));
     long1 ← py_gt (get participant1_metrics "speak_time" (PyInt 0)) (PyInt 60);
     let events := if long1 : bool
                   then ["Participant 1 spoke for over 1 minute"%string] else [] in
     long2 ← py_gt (get participant2_metrics "speak_time" (PyInt 0)) (PyInt 60);
     let events := if long2 : bool
                   then (events ++ ["Participant 2 spoke for over 1 minute"%string])%list
                   else events in
     even ← py_gt balance (PyFloat 0.8);
     let events := if even : bool
                   then (events ++ ["Very evenly matched fight"%string])%list
                   else events in
     Ok (Analysis (mkAnalysis 2 levels.2 levels.1 balance events)))
    (fun e => Ok (Unknown e)).

End WinnerDetector64.

(* ===================================================================== *)
(** ** Defaults of the detector, and inputs of its examples *)
(* ===================================================================== *)

Module Spec64.
Import Py64.

(** [d.setdefault(key, default)]: the dictionary with [key] bound to
    [default] unless it is bound already. *)
Definition setdefault (key : string) (default : value) (d : metrics) : metrics :=
  match d !! key with
  | Some _ => d
  | None => <[key := default]> d
  end.

(** A metrics dictionary with every entry the contest reads filled in: a
    missing duration is 0 in a timing contest; in a volume contest a
    missing speaking time or amplitude is 0 and a missing duration is 1. *)
Definition with_defaults (fight_type : option FightType.t) (d : metrics) : metrics :=
  match fight_type with
  | Some FightType.TIMING => setdefault "total_join_time" (PyInt 0) d
  | Some FightType.VOLUME =>
      setdefault "speak_time" (PyInt 0)
        (setdefault "average_volume" (PyInt 0)
           (setdefault "total_join_time" (PyInt 1) d))
  | None => d
  end.

(** [{"total_join_time": t}] *)
Definition presence (t : value) : metrics :=
  {["total_join_time"%string := t]}.

(** [{"speak_time": s, "total_join_time": t, "average_volume": v}] *)
Definition activity (s t v : value) : metrics :=
  <["speak_time"%string := s]> (<["total_join_time"%string := t]>
    (<["average_volume"%string := v]> ∅)).

(** A participant who never spoke: every entry the activity score reads
    is there, the speaking time and the amplitude are 0. *)
Definition silent : metrics := activity (PyInt 0) (PyInt 1) (PyInt 0).

(** A dictionary the activity score cannot be computed from: the amplitude
    or the duration is no number, or the speaking time is no number while
    the duration is positive. *)
Definition unscorable (d : metrics) : Prop :=
  get d "average_volume" (PyInt 0) = PyNone
  \/ get d "total_join_time" (PyInt 1) = PyNone
  \/ (get d "speak_time" (PyInt 0) = PyNone
      /\ py_gt (get d "total_join_time" (PyInt 1)) (PyInt 0) = Ok true).

(** [s > 60] for a speaking time that is a number. *)
Definition over_a_minute (s : value) : bool :=
  match s with
  | PyInt n => 60 <? n
  | PyFloat x => (60 <? x)%float
  | PyNone => false
  end.

End Spec64.

(* ===================================================================== *)
(** * Properties of the state machine *)
(* ===================================================================== *)

Module StateMachineFacts.
Import StateMachine.

Lemma can_transition_to_edge (sm : ChallengeStateMachine) (T : ChallengeState) :
  can_transition_to sm T = Spec.edge (current_state sm) T.
Proof.
  unfold can_transition_to.
  destruct (current_state sm), T; vm_compute; reflexivity.
Qed.

Lemma transition_to_rejected (sm : ChallengeStateMachine) (T : ChallengeState)
    (now : datetime) :
  can_transition_to sm T = false -> transition_to sm T now = (false, sm).
Proof. intros H. unfold transition_to. rewrite H. reflexivity. Qed.

Lemma transition_to_accepted (sm : ChallengeStateMachine) (T : ChallengeState)
    (now : datetime) :
  can_transition_to sm T = true ->
  transition_to sm T now = (true, mkSM T (state_history sm ++ [(T, now)])).
Proof. intros H. unfold transition_to. rewrite H. reflexivity. Qed.

(** C1.  [transition_to] answers [True] exactly on the edges of the fixed
    adjacency table; a rejected transition leaves the reported current
    state and the history as they were (nothing is appended), an accepted
    one moves to the target and appends one entry. *)
Theorem transition_to_iff_edge (sm : ChallengeStateMachine) (T : ChallengeState)
    (now : datetime) :
  (fst (transition_to sm T now) = true <-> Spec.edge (current_state sm) T = true)
  /\ (fst (transition_to sm T now) = false ->
        get_current_state (snd (transition_to sm T now)) = current_state sm
        /\ state_history (snd (transition_to sm T now)) = state_history sm)
  /\ (fst (transition_to sm T now) = true ->
        get_current_state (snd (transition_to sm T now)) = T
        /\ state_history (snd (transition_to sm T now))
           = state_history sm ++ [(T, now)]).
Proof.
  rewrite <- can_transition_to_edge.
  destruct (can_transition_to sm T) eqn:E.
  - rewrite (transition_to_accepted _ _ _ E). cbn. repeat split; auto; discriminate.
  - rewrite (transition_to_rejected _ _ _ E). cbn. repeat split; auto; discriminate.
Qed.

(** C1 at a fresh machine asked to go from CREATED to ACCEPTED: rejected,
    and nothing changes. *)
Lemma transition_to_iff_edge_witness :
  fst (transition_to (init CREATED 0) ACCEPTED 7) = false
  /\ get_current_state (snd (transition_to (init CREATED 0) ACCEPTED 7)) = CREATED
  /\ state_history (snd (transition_to (init CREATED 0) ACCEPTED 7)) = [(CREATED, 0)].
Proof.
  split; [reflexivity|].
  apply (proj1 (proj2 (transition_to_iff_edge (init CREATED 0) ACCEPTED 7))).
  reflexivity.
Defined.

(** The table of the code, read as sets of targets, is the table of the
    specification. *)
Lemma VALID_TRANSITIONS_edge (S T : ChallengeState) :
  T ∈ VALID_TRANSITIONS S <-> Spec.edge S T = true.
Proof.
  rewrite <- (can_transition_to_edge (mkSM S [])).
  unfold can_transition_to. cbn. rewrite bool_decide_eq_true. reflexivity.
Qed.

(** Every state is reachable from [CREATED]. *)
Lemma all_reachable (S : ChallengeState) : reachable S.
Proof.
  assert (reachable SENT) as HS
    by (eapply reachable_step; [apply reachable_init | apply VALID_TRANSITIONS_edge; reflexivity]).
  assert (reachable ACCEPTED) as HA
    by (eapply reachable_step; [apply HS | apply VALID_TRANSITIONS_edge; reflexivity]).
  assert (reachable FIGHT_TYPE_SELECTED) as HF
    by (eapply reachable_step; [apply HA | apply VALID_TRANSITIONS_edge; reflexivity]).
  assert (reachable PARTICIPANTS_JOINING) as HP
    by (eapply reachable_step; [apply HF | apply VALID_TRANSITIONS_edge; reflexivity]).
  assert (reachable FIGHT_ACTIVE) as HFA
    by (eapply reachable_step; [apply HP | apply VALID_TRANSITIONS_edge; reflexivity]).
  destruct S; try assumption.
  - apply reachable_init.
  - eapply reachable_step; [apply HS | apply VALID_TRANSITIONS_edge; reflexivity].
  - eapply reachable_step; [apply HFA | apply VALID_TRANSITIONS_edge; reflexivity].
  - eapply reachable_step; [apply HS | apply VALID_TRANSITIONS_edge; reflexivity].
  - eapply reachable_step; [apply reachable_init | apply VALID_TRANSITIONS_edge; reflexivity].
Qed.

End StateMachineFacts.

(* ===================================================================== *)
(** * Properties of winner detection *)
(* ===================================================================== *)

Module WinnerDetectorFacts.
Import Py WinnerDetector Spec Examples.
Local Open Scope Q_scope.
Local Open Scope string_scope.








End WinnerDetectorFacts.

(* ===================================================================== *)
(** * Properties of binary64 arithmetic the detector relies on *)
(* ===================================================================== *)

Module Py64Facts.
Import Py64.

(** Rounding to nearest even does not look at the sign. *)
Lemma SFabs_binary_round_aux (s : bool) (m e : Z) (l : location) :
  SFabs (binary_round_aux prec emax s m e l)
  = SFabs (binary_round_aux prec emax false m e l).
Proof.
  unfold binary_round_aux.
  destruct (shr_fexp prec emax m e l) as [mrs' e'].
  destruct (shr_fexp prec emax _ e' loc_Exact) as [mrs'' e''].
  destruct (shr_m mrs''); [reflexivity| |reflexivity].
  destruct (Z.leb e'' _); reflexivity.
Qed.

Lemma SFabs_binary_normalize_opp (z e : Z) :
  SFabs (binary_normalize prec emax (- z) e false)
  = SFabs (binary_normalize prec emax z e false).
Proof.
  destruct z as [|p|p]; [reflexivity| |].
  - change (- Z.pos p) with (Z.neg p). unfold binary_normalize, binary_round.
    destruct (shl_align p e _) as [mz ez]. apply SFabs_binary_round_aux.
  - change (- Z.neg p) with (Z.pos p). unfold binary_normalize, binary_round.
    destruct (shl_align p e _) as [mz ez]. symmetry. apply SFabs_binary_round_aux.
Qed.

Lemma SFabs_SFsub_sym (X Y : spec_float) :
  SFabs (SFsub prec emax X Y) = SFabs (SFsub prec emax Y X).
Proof.
  destruct X as [sx|sx| |sx mx ex], Y as [sy|sy| |sy my ey];
    try reflexivity; try (destruct sx, sy; reflexivity).
  unfold SFsub. rewrite (Z.min_comm ey ex).
  set (a := cond_Zopp sx _). set (b := cond_Zopp sy _).
  replace (b - a) with (- (a - b)) by lia.
  symmetry. apply SFabs_binary_normalize_opp.
Qed.

(** [abs(x - y) == abs(y - x)], bit for bit. *)
Lemma abs_sub_sym (x y : float) : abs (x - y) = abs (y - x).
Proof.
  apply Prim2SF_inj. rewrite !abs_spec, !sub_spec. apply SFabs_SFsub_sym.
Qed.

Lemma SFcompare_antisym (X Y : spec_float) :
  SFcompare Y X = CompOpp <$> SFcompare X Y.
Proof.
  destruct X as [sx|sx| |sx mx ex], Y as [sy|sy| |sy my ey];
    try reflexivity; try (destruct sx, sy; reflexivity);
    try (destruct sx; reflexivity); try (destruct sy; reflexivity).
  cbn. destruct sx, sy; try reflexivity;
    rewrite (Z.compare_antisym ex ey);
    destruct (ex ?= ey); cbn; try reflexivity;
    pose proof (Pos.compare_cont_antisym mx my Eq) as H; cbn in H; rewrite <- H;
    destruct (Pos.compare_cont Eq mx my); reflexivity.
Qed.

(** [x < y] and [y < x] never hold together. *)
Lemma ltb_antisym (x y : float) : (x <? y)%float = true -> (y <? x)%float = false.
Proof.
  rewrite !ltb_spec. unfold SFltb. rewrite (SFcompare_antisym (Prim2SF x) (Prim2SF y)).
  destruct (SFcompare (Prim2SF x) (Prim2SF y)) as [[]|]; cbn; congruence.
Qed.

Lemma Prim2SF_nan : Prim2SF nan = S754_nan.
Proof. reflexivity. Qed.


Lemma digits2_pos_bounds (p : positive) :
  2 ^ (Z.pos (digits2_pos p) - 1) <= Z.pos p < 2 ^ Z.pos (digits2_pos p).
Proof.
  induction p as [p IH|p IH|]; cbn [digits2_pos].
  - rewrite Pos2Z.inj_succ. replace (Z.succ (Z.pos (digits2_pos p)) - 1)
      with (Z.succ (Z.pos (digits2_pos p) - 1)) by lia.
    rewrite !Z.pow_succ_r by lia. lia.
  - rewrite Pos2Z.inj_succ. replace (Z.succ (Z.pos (digits2_pos p)) - 1)
      with (Z.succ (Z.pos (digits2_pos p) - 1)) by lia.
    rewrite !Z.pow_succ_r by lia. lia.
  - cbn. lia.
Qed.

(** The mantissa of a binary64 number is below [2^53], and at least [2^52]
    unless the exponent is the smallest one. *)
Lemma valid_mantissa (s : bool) (m : positive) (e : Z) :
  valid_binary (S754_finite s m e) = true ->
  Z.pos m < 2 ^ 53 /\ -1074 <= e /\ (-1074 < e -> 2 ^ 52 <= Z.pos m).
Proof.
  unfold SpecFloat.valid_binary, bounded, canonical_mantissa, fexp, SpecFloat.emin.
  intros H. apply andb_prop in H as [H _]. apply Z.eqb_eq in H.
  change (3 - emax - prec) with (-1074) in H. change prec with 53 in H.
  pose proof (digits2_pos_bounds m) as [Hlo Hhi].
  set (d := Z.pos (digits2_pos m)) in *.
  assert (d <= 53) by lia.
  split; [|split].
  - eapply Z.lt_le_trans; [exact Hhi|]. apply Z.pow_le_mono_r; lia.
  - lia.
  - intros He. assert (d = 53) as -> by lia. exact Hlo.
Qed.

(** Against an integer [n] that binary64 holds exactly, as [n * 2^k * 2^-k]
    with a full mantissa, the exact comparison is the comparison of
    floats. *)
Lemma compare_float_int_exact (x : float) (n k : Z) :
  0 <= k -> 2 ^ 52 <= n * 2 ^ k < 2 ^ 53 ->
  compare_float_int x n
  = SFcompare (Prim2SF x) (S754_finite false (Z.to_pos (n * 2 ^ k)) (- k)).
Proof.
  intros Hk Hn. unfold compare_float_int.
  pose proof (Prim2SF_valid x) as Hv.
  assert (0 < 2 ^ k) as Hpk by (apply Z.pow_pos_nonneg; lia).
  assert (0 < n) as Hn0 by nia.
  assert (k <= 52) as Hk52.
  { destruct (Z.le_gt_cases k 52) as [|Hgt]; [assumption|].
    assert (2 ^ 53 <= 2 ^ k) by (apply Z.pow_le_mono_r; lia). nia. }
  destruct (Prim2SF x) as [s|s| |s m e]; try reflexivity.
  - unfold SFcompare. f_equal. apply (proj2 (Z.compare_lt_iff _ _)). lia.
  - apply valid_mantissa in Hv as [Hm [He Hfull]].
    destruct s; cbn [cond_Zopp SFcompare]; f_equal.
    + destruct (0 <=? e) eqn:E.
      * apply (proj2 (Z.compare_lt_iff _ _)). apply Z.leb_le in E.
        assert (0 < 2 ^ e) by (apply Z.pow_pos_nonneg; lia). nia.
      * apply (proj2 (Z.compare_lt_iff _ _)). apply Z.leb_gt in E.
        assert (0 < 2 ^ (- e)) by (apply Z.pow_pos_nonneg; lia). nia.
    + destruct (e ?= - k) eqn:C.
      * apply Z.compare_eq in C. subst e.
        destruct (0 <=? - k) eqn:E.
        -- apply Z.leb_le in E. assert (k = 0) as -> by lia.
           cbn [Z.opp]. rewrite !Z.pow_0_r, !Z.mul_1_r.
           rewrite <- (Z2Pos.id n) at 1 by lia. reflexivity.
        -- rewrite Z.opp_involutive.
           rewrite <- (Z2Pos.id (n * 2 ^ k)) at 1 by lia. reflexivity.
      * apply (proj1 (Z.compare_lt_iff _ _)) in C.
        assert ((0 <=? e) = false) as -> by (apply Z.leb_gt; lia).
        apply (proj2 (Z.compare_lt_iff _ _)).
        assert (2 ^ (k + 1) <= 2 ^ (- e)) by (apply Z.pow_le_mono_r; lia).
        rewrite Z.pow_add_r, Z.pow_1_r in * by lia. nia.
      * apply (proj1 (Z.compare_gt_iff _ _)) in C.
        specialize (Hfull ltac:(lia)).
        destruct (0 <=? e) eqn:E.
        -- apply Z.leb_le in E. apply (proj2 (Z.compare_gt_iff _ _)).
           assert (0 < 2 ^ e) by (apply Z.pow_pos_nonneg; lia).
           destruct (Z.eq_dec k 0) as [->|Hk0].
           ++ assert (2 ^ 1 <= 2 ^ e) by (apply Z.pow_le_mono_r; lia).
              rewrite Z.pow_0_r in *. rewrite Z.pow_1_r in *. nia.
           ++ assert (2 ^ 1 <= 2 ^ k) by (apply Z.pow_le_mono_r; lia).
              rewrite Z.pow_1_r in *. nia.
        -- apply Z.leb_gt in E. apply (proj2 (Z.compare_gt_iff _ _)).
           assert (2 ^ k = 2 ^ (- e) * 2 ^ (k + e)) as Hsplit
             by (rewrite <- Z.pow_add_r by lia; f_equal; lia).
           assert (2 ^ 1 <= 2 ^ (k + e)) by (apply Z.pow_le_mono_r; lia).
           assert (0 < 2 ^ (- e)) by (apply Z.pow_pos_nonneg; lia).
           rewrite Z.pow_1_r in *. nia.
Qed.



Lemma Prim2SF_zero : Prim2SF 0 = S754_zero false.
Proof. reflexivity. Qed.

(** [x < 5], [x > 60] and [x > 0] against the [int] literals of the
    detector are the comparisons with the floats [5.0], [60.0] and [0.0]. *)
Lemma float_lt_int_5 (x : float) : float_lt_int x 5 = (x <? 5)%float.
Proof.
  unfold float_lt_int. rewrite (compare_float_int_exact x 5 50) by (cbn; lia).
  rewrite ltb_spec. reflexivity.
Qed.

Lemma float_gt_int_60 (x : float) : float_gt_int x 60 = (60 <? x)%float.
Proof.
  unfold float_gt_int. rewrite (compare_float_int_exact x 60 47) by (cbn; lia).
  rewrite ltb_spec. unfold SFltb.
  change (Prim2SF 60) with (S754_finite false (Z.to_pos (60 * 2 ^ 47)) (- 47)).
  rewrite (SFcompare_antisym (Prim2SF x)).
  destruct (SFcompare (Prim2SF x) _) as [[]|]; reflexivity.
Qed.

Lemma compare_float_int_0 (x : float) :
  compare_float_int x 0 = SFcompare (Prim2SF x) (S754_zero false).
Proof.
  unfold compare_float_int.
  destruct (Prim2SF x) as [s|s| |s m e]; try reflexivity.
  unfold SFcompare. f_equal.
  destruct (0 <=? e) eqn:E.
  - apply Z.leb_le in E. assert (0 < 2 ^ e) by (apply Z.pow_pos_nonneg; lia).
    destruct s; cbn [cond_Zopp].
    + apply (proj2 (Z.compare_lt_iff _ _)). nia.
    + apply (proj2 (Z.compare_gt_iff _ _)). nia.
  - destruct s; reflexivity.
Qed.

Lemma float_gt_int_0 (x : float) : float_gt_int x 0 = (0 <? x)%float.
Proof.
  unfold float_gt_int. rewrite compare_float_int_0, ltb_spec. unfold SFltb.
  rewrite Prim2SF_zero, (SFcompare_antisym (Prim2SF x)).
  destruct (SFcompare (Prim2SF x) _) as [[]|]; reflexivity.
Qed.

(** A positive float is not zero. *)
Lemma positive_nonzero (x : float) : (0 <? x)%float = true -> (x =? 0)%float = false.
Proof.
  rewrite ltb_spec, FloatAxioms.eqb_spec. unfold SFltb, SFeqb.
  rewrite (SFcompare_antisym (Prim2SF 0) (Prim2SF x)).
  destruct (SFcompare (Prim2SF 0) (Prim2SF x)) as [[]|]; cbn; congruence.
Qed.

(** NaN: every comparison is false, and it spreads through [-] and [abs]. *)
Lemma ltb_nan_l (x : float) : (nan <? x)%float = false.
Proof. rewrite ltb_spec, Prim2SF_nan. reflexivity. Qed.

Lemma ltb_nan_r (x : float) : (x <? nan)%float = false.
Proof. rewrite ltb_spec, Prim2SF_nan. unfold SFltb. destruct (Prim2SF x); reflexivity. Qed.

Lemma sub_nan_l (x : float) : (nan - x)%float = nan.
Proof. apply Prim2SF_inj. rewrite sub_spec, Prim2SF_nan. reflexivity. Qed.

Lemma sub_nan_r (x : float) : (x - nan)%float = nan.
Proof.
  apply Prim2SF_inj. rewrite sub_spec, Prim2SF_nan.
  destruct (Prim2SF x); reflexivity.
Qed.

(** When the sum of two scores is positive, the larger of them is not
    zero. *)
Lemma max_nonzero (x y : float) :
  (0 <? x + y)%float = true ->
  ((if (x <? y)%float then y else x) =? 0)%float = false.
Proof.
  rewrite !ltb_spec, add_spec, Prim2SF_zero.
  intros H.
  assert (forall z, (z =? 0)%float = SFeqb (Prim2SF z) (S754_zero false)) as Heq
    by (intros z; rewrite FloatAxioms.eqb_spec, Prim2SF_zero; reflexivity).
  destruct (SFltb (Prim2SF x) (Prim2SF y)) eqn:L; rewrite Heq;
    revert H L; unfold SF64add;
    destruct (Prim2SF x) as [sx|sx| |sx mx ex], (Prim2SF y) as [sy|sy| |sy my ey];
    try reflexivity; try discriminate;
    try (destruct sx; try reflexivity; try discriminate);
    try (destruct sy; try reflexivity; try discriminate).
Qed.


(** No float is below itself, and no absolute value is below zero. *)
Lemma ltb_irrefl (x : float) : (x <? x)%float = false.
Proof.
  destruct (x <? x)%float eqn:E; [|reflexivity].
  rewrite (ltb_antisym x x E) in E. discriminate.
Qed.

Lemma abs_not_below_zero (x : float) : (abs x <? 0)%float = false.
Proof.
  rewrite ltb_spec, abs_spec, Prim2SF_zero. unfold SFltb.
  destruct (Prim2SF x) as [s|s| |s m e]; reflexivity.
Qed.

(** [x <= y] excludes [y < x]. *)
Lemma leb_not_ltb (x y : float) : (x <=? y)%float = true -> (y <? x)%float = false.
Proof.
  rewrite leb_spec, ltb_spec. unfold SFleb, SFltb.
  rewrite (SFcompare_antisym (Prim2SF x) (Prim2SF y)).
  destruct (SFcompare (Prim2SF x) (Prim2SF y)) as [[]|]; cbn; congruence.
Qed.

(** A finite float is a zero or has a mantissa and an exponent. *)
Lemma is_finite_spec (x : float) :
  is_finite x = true ->
  match Prim2SF x with
  | S754_zero _ | S754_finite _ _ _ => True
  | _ => False
  end.
Proof.
  unfold is_finite, is_nan, is_infinity.
  rewrite !FloatAxioms.eqb_spec, abs_spec.
  change (Prim2SF infinity) with (S754_infinity false).
  destruct (Prim2SF x) as [s|s| |s m e]; cbn;
    try (destruct s; discriminate); try discriminate; exact (fun _ => I).
Qed.

Lemma SFcompare_finite_Eq (s1 s2 : bool) (m1 m2 : positive) (e1 e2 : Z) :
  SFcompare (S754_finite s1 m1 e1) (S754_finite s2 m2 e2) = Some Eq ->
  s1 = s2 /\ m1 = m2 /\ e1 = e2.
Proof.
  cbn. destruct s1, s2; try discriminate;
    destruct (e1 ?= e2) eqn:E; try discriminate;
    apply Z.compare_eq in E; intros H; injection H as H;
    [apply (f_equal CompOpp) in H; cbn in H; rewrite CompOpp_involutive in H|];
    apply Pos.compare_eq in H; auto.
Qed.

(** Two finite floats neither of which is below the other have the
    difference zero. *)
Lemma abs_sub_unordered (x y : float) :
  is_finite x = true -> is_finite y = true ->
  (x <? y)%float = false -> (y <? x)%float = false ->
  abs (x - y) = 0%float.
Proof.
  intros Fx Fy. apply is_finite_spec in Fx, Fy.
  rewrite !ltb_spec. unfold SFltb. intros L1 L2.
  apply Prim2SF_inj. rewrite abs_spec, sub_spec, Prim2SF_zero.
  rewrite (SFcompare_antisym (Prim2SF x) (Prim2SF y)) in L2.
  destruct (Prim2SF x) as [sx|sx| |sx mx ex], (Prim2SF y) as [sy|sy| |sy my ey];
    try contradiction.
  - destruct sx, sy; reflexivity.
  - destruct sy; discriminate.
  - destruct sx; discriminate.
  - destruct (SFcompare (S754_finite sx mx ex) (S754_finite sy my ey))
      as [[]|] eqn:C; try discriminate.
    apply SFcompare_finite_Eq in C as [-> [-> ->]].
    unfold SF64sub, SFsub. rewrite Z.sub_diag. reflexivity.
Qed.

End Py64Facts.

(* ===================================================================== *)
(** * Properties of winner detection on Python's numbers *)
(* ===================================================================== *)

Module WinnerDetector64Facts.
Import Py64 WinnerDetector64 Spec64 Py64Facts.

#[local] Set Warnings "-inexact-float".
#[local] Arguments float_of_int : simpl never.
#[local] Arguments float_lt_int : simpl never.
#[local] Arguments float_gt_int : simpl never.
#[local] Arguments int_truediv : simpl never.

(** The decision of [_analyze_timing_fight] for each kind of duration. *)
Lemma timing_on_values (m1 m2 : metrics) :
  _analyze_timing_fight m1 m2
  = Ok match get m1 "total_join_time" (PyInt 0), get m2 "total_join_time" (PyInt 0) with
       | PyInt a, PyInt b =>
           if Z.abs (a - b) <? 5 then draw else if b <? a then p1_wins else p2_wins
       | PyFloat x, PyFloat y =>
           if (abs (x - y) <? 5)%float then draw
           else if (y <? x)%float then p1_wins else p2_wins
       | PyInt a, PyFloat y =>
           match float_of_int a with
           | Ok x => if (abs (x - y) <? 5)%float then draw
                     else if float_lt_int y a then p1_wins else p2_wins
           | Raise _ => draw
           end
       | PyFloat x, PyInt b =>
           match float_of_int b with
           | Ok y => if (abs (x - y) <? 5)%float then draw
                     else if float_gt_int x b then p1_wins else p2_wins
           | Raise _ => draw
           end
       | PyNone, _ | _, PyNone => draw
       end.
Proof.
  unfold _analyze_timing_fight.
  destruct (get m1 _ _) as [a|x|], (get m2 _ _) as [b|y|]; cbn; try reflexivity.
  - destruct (Z.abs (a - b) <? 5); cbn; [reflexivity|].
    destruct (b <? a); reflexivity.
  - destruct (float_of_int a) as [x|e]; cbn; [|reflexivity].
    rewrite float_lt_int_5. destruct (abs (x - y) <? 5)%float; cbn; [reflexivity|].
    destruct (float_lt_int y a); reflexivity.
  - destruct (float_of_int b) as [y|e]; cbn; [|reflexivity].
    rewrite float_lt_int_5. destruct (abs (x - y) <? 5)%float; cbn; [reflexivity|].
    destruct (float_gt_int x b); reflexivity.
  - rewrite float_lt_int_5. destruct (abs (x - y) <? 5)%float; cbn; [reflexivity|].
    destruct (y <? x)%float; reflexivity.
Qed.


Lemma float_of_int_0 : float_of_int 0 = Ok 0%float.
Proof. reflexivity. Qed.

Lemma float_of_int_10000 : float_of_int 10000 = Ok 10000%float.
Proof. reflexivity. Qed.

(** The score of a dictionary whose three entries are floats. *)
Lemma score_on_floats (m : metrics) (s v t : float) :
  get m "speak_time" (PyInt 0) = PyFloat s ->
  get m "average_volume" (PyInt 0) = PyFloat v ->
  get m "total_join_time" (PyInt 1) = PyFloat t ->
  _calculate_activity_score m
  = Ok (PyFloat ((if 0 <? t then s / t else 0) * 0.7 + v / 10000 * 0.3)%float).
Proof.
  intros Hs Hv Ht. unfold _calculate_activity_score. rewrite Hs, Hv, Ht. cbn.
  rewrite float_gt_int_0, float_of_int_10000.
  destruct (0 <? t)%float eqn:P; cbn.
  - rewrite (positive_nonzero t P). cbn. reflexivity.
  - rewrite float_of_int_0. cbn. reflexivity.
Qed.

(** The score of a dictionary whose three entries are [int]s. *)
Lemma score_on_ints (m : metrics) (s v t : Z) :
  get m "speak_time" (PyInt 0) = PyInt s ->
  get m "average_volume" (PyInt 0) = PyInt v ->
  get m "total_join_time" (PyInt 1) = PyInt t ->
  _calculate_activity_score m
  = Ok (PyFloat
          match (if 0 <? t then int_truediv s t else Ok 0%float), int_truediv v 10000 with
          | Ok p, Ok q => (p * 0.7 + q * 0.3)%float
          | _, _ => 0%float
          end).
Proof.
  intros Hs Hv Ht. unfold _calculate_activity_score. rewrite Hs, Hv, Ht. cbn.
  destruct (0 <? t) eqn:P; cbn.
  - destruct (int_truediv s t) as [p|e]; cbn; [|reflexivity].
    destruct (int_truediv v 10000) as [q|e]; cbn; reflexivity.
  - rewrite float_of_int_0. cbn.
    destruct (int_truediv v 10000) as [q|e]; cbn; reflexivity.
Qed.


Lemma mul_float_r (a : value) (c : float) :
  match py_mul a (PyFloat c) with
  | Ok (PyFloat _) | Raise _ => True
  | Ok _ => False
  end.
Proof. destruct a as [n|x|]; cbn; try exact I. destruct (float_of_int n); exact I. Qed.

(** The score is a float, whatever the dictionary holds. *)
Lemma score_is_float (m : metrics) :
  exists r : float, _calculate_activity_score m = Ok (PyFloat r).
Proof.
  unfold _calculate_activity_score.
  destruct (py_gt _ _) as [pos|e]; cbn; [|eauto].
  match goal with |- context [mbind _ ?x] => destruct x as [pct|e] end; cbn; [|eauto].
  pose proof (mul_float_r pct 0.7) as Ha.
  destruct (py_mul pct _) as [[|a|]|e]; cbn; try contradiction; [|eauto].
  destruct (py_truediv _ (PyInt 10000)) as [q|e]; cbn; [|eauto].
  pose proof (mul_float_r q 0.3) as Hb.
  destruct (py_mul q _) as [[|b|]|e]; cbn; try contradiction; eauto.
Qed.

(** A dictionary whose amplitude or duration is no number scores 0.0, and
    so does one whose speaking time is no number while the duration is
    positive. *)
Lemma score_malformed (m : metrics) :
  unscorable m -> _calculate_activity_score m = Ok (PyFloat 0).
Proof.
  unfold _calculate_activity_score. intros [H|[H|[H P]]].
  - rewrite H.
    destruct (py_gt _ _) as [pos|e]; cbn; [|reflexivity].
    match goal with |- context [mbind _ ?x] => destruct x as [pct|e] end;
      cbn; [|reflexivity].
    destruct (py_mul pct _) as [a|e]; cbn; reflexivity.
  - rewrite H. reflexivity.
  - rewrite P, H. cbn. reflexivity.
Qed.

(** The decision of [_analyze_volume_fight] on two scores. *)
Lemma volume_on_float_scores (threshold : value) (m1 m2 : metrics) (p1 p2 : float) :
  _calculate_activity_score m1 = Ok (PyFloat p1) ->
  _calculate_activity_score m2 = Ok (PyFloat p2) ->
  _analyze_volume_fight threshold m1 m2
  = Ok match threshold with
       | PyFloat t =>
           if (abs (p1 - p2) <? t)%float then draw
           else if (p2 <? p1)%float then p1_wins else p2_wins
       | PyInt n =>
           if float_lt_int (abs (p1 - p2)) n then draw
           else if (p2 <? p1)%float then p1_wins else p2_wins
       | PyNone => draw
       end.
Proof.
  intros H1 H2. unfold _analyze_volume_fight. rewrite H1, H2. cbn.
  destruct threshold as [n|t|]; cbn; [| |reflexivity].
  - destruct (float_lt_int _ n); cbn; [reflexivity|].
    destruct (p2 <? p1)%float; reflexivity.
  - destruct (abs (p1 - p2) <? t)%float; cbn; [reflexivity|].
    destruct (p2 <? p1)%float; reflexivity.
Qed.

Ltac decide_outcome :=
  repeat match goal with
         | |- context [if ?c then _ else _] => destruct c
         | |- context [match ?c with Ok _ => _ | Raise _ => _ end] => destruct c
         end;
  eexists; (split; [reflexivity|]); unfold Spec.consistent; auto.

Lemma timing_total (m1 m2 : metrics) :
  exists o, _analyze_timing_fight m1 m2 = Ok o /\ Spec.consistent o.
Proof.
  rewrite timing_on_values.
  destruct (get m1 "total_join_time" (PyInt 0)) as [a|x|],
           (get m2 "total_join_time" (PyInt 0)) as [b|y|]; decide_outcome.
Qed.

Lemma volume_total (threshold : value) (m1 m2 : metrics) :
  exists o, _analyze_volume_fight threshold m1 m2 = Ok o /\ Spec.consistent o.
Proof.
  destruct (score_is_float m1) as [p1 H1], (score_is_float m2) as [p2 H2].
  rewrite (volume_on_float_scores threshold m1 m2 p1 p2 H1 H2).
  destruct threshold as [n|t|]; decide_outcome.
Qed.

(** [determine_winner] hands the decision of the contest on. *)
Lemma determine_winner_is_timing (threshold : value) (m1 m2 : metrics) :
  determine_winner threshold (Some FightType.TIMING) m1 m2 = _analyze_timing_fight m1 m2.
Proof.
  unfold determine_winner. destruct (timing_total m1 m2) as [o [-> _]]. reflexivity.
Qed.

Lemma determine_winner_is_volume (threshold : value) (m1 m2 : metrics) :
  determine_winner threshold (Some FightType.VOLUME) m1 m2
  = _analyze_volume_fight threshold m1 m2.
Proof.
  unfold determine_winner. destruct (volume_total threshold m1 m2) as [o [-> _]].
  reflexivity.
Qed.

Lemma get_setdefault (k : string) (d d' : value) (m : metrics) :
  get (setdefault k d m) k d' = get m k d.
Proof.
  unfold get, setdefault. destruct (m !! k) eqn:E.
  - rewrite E. reflexivity.
  - rewrite lookup_insert_eq. reflexivity.
Qed.

Lemma get_setdefault_ne (k k' : string) (d d' : value) (m : metrics) :
  k <> k' -> get (setdefault k d m) k' d' = get m k' d'.
Proof.
  intros Hne. unfold get, setdefault. destruct (m !! k); [reflexivity|].
  rewrite lookup_insert_ne by exact Hne. reflexivity.
Qed.

Lemma timing_defaults (m1 m2 : metrics) :
  _analyze_timing_fight (with_defaults (Some FightType.TIMING) m1)
    (with_defaults (Some FightType.TIMING) m2)
  = _analyze_timing_fight m1 m2.
Proof.
  unfold _analyze_timing_fight, with_defaults.
  rewrite !(get_setdefault "total_join_time"). reflexivity.
Qed.

Lemma score_defaults (m : metrics) :
  _calculate_activity_score (with_defaults (Some FightType.VOLUME) m)
  = _calculate_activity_score m.
Proof.
  unfold _calculate_activity_score, with_defaults.
  rewrite (get_setdefault "speak_time").
  rewrite !(get_setdefault_ne "speak_time") by discriminate.
  rewrite (get_setdefault "average_volume").
  rewrite !(get_setdefault_ne "average_volume") by discriminate.
  rewrite (get_setdefault "total_join_time").
  rewrite !(get_setdefault_ne "total_join_time") by discriminate.
  reflexivity.
Qed.

Lemma volume_defaults (threshold : value) (m1 m2 : metrics) :
  _analyze_volume_fight threshold (with_defaults (Some FightType.VOLUME) m1)
    (with_defaults (Some FightType.VOLUME) m2)
  = _analyze_volume_fight threshold m1 m2.
Proof. unfold _analyze_volume_fight. rewrite !score_defaults. reflexivity. Qed.


Lemma score_silent : _calculate_activity_score silent = Ok (PyFloat 0).
Proof. reflexivity. Qed.

Lemma abs_nan : abs nan = nan.
Proof. reflexivity. Qed.

(** A NaN duration: no draw, and no win for participant 1. *)
Lemma timing_nan (m1 m2 : metrics) (x y : float) :
  get m1 "total_join_time" (PyInt 0) = PyFloat x ->
  get m2 "total_join_time" (PyInt 0) = PyFloat y ->
  x = nan \/ y = nan ->
  _analyze_timing_fight m1 m2 = Ok p2_wins.
Proof.
  intros H1 H2 Hn. rewrite timing_on_values, H1, H2.
  destruct Hn as [-> | ->].
  - rewrite sub_nan_l, abs_nan, ltb_nan_l, ltb_nan_r. reflexivity.
  - rewrite sub_nan_r, abs_nan, !ltb_nan_l. reflexivity.
Qed.

(** C3, as stated, fails on durations that are floats: the durations 5.1
    and 0.1 differ by less than 5, and so do 5.0 and 2^-60, but the
    subtraction rounds both differences to 5.0 and participant 1 wins. *)
Lemma timing_fight_rounding_counterexample :
  (exists a b : Q,
      to_Q 5.1 = Some a /\ to_Q 0.1 = Some b /\ (Qabs (a - b) < 5)%Q)
  /\ _analyze_timing_fight (presence (PyFloat 5.1)) (presence (PyFloat 0.1))
     = Ok p1_wins
  /\ (exists a b : Q,
        to_Q 5 = Some a /\ to_Q 0x1p-60 = Some b /\ (Qabs (a - b) < 5)%Q)
  /\ _analyze_timing_fight (presence (PyFloat 5)) (presence (PyFloat 0x1p-60))
     = Ok p1_wins.
Proof.
  split; [|split; [|split]].
  - eexists _, _. split; [reflexivity|]. split; [reflexivity|].
    vm_compute. reflexivity.
  - vm_compute. reflexivity.
  - eexists _, _. split; [reflexivity|]. split; [reflexivity|].
    vm_compute. reflexivity.
  - vm_compute. reflexivity.
Qed.

(** C3, amended.  A timing contest is decided by [_analyze_timing_fight]
    alone.  On two [int] durations [a] and [b] (a missing entry is the
    [int] 0) it is a draw if and only if [|a - b| < 5], and otherwise the
    larger duration wins.  On two floats the same rule is applied to the
    difference as binary64 subtraction rounds it: a draw if and only if
    [abs (x - y) < 5.0] for the rounded [x - y], otherwise participant 1
    wins if [x > y] and participant 2 in every other case, which includes
    NaN on either side.  An [int] against a float is converted first, a
    draw if it is too large for a float, and is then compared exactly.  A
    duration that is no number gives a draw.  Durations 100 and 103 give a
    draw and durations 100 and 110 a win for participant 2, as [int]s and
    as floats. *)
Theorem timing_fight_rule :
  (forall (volume_threshold : value) (m1 m2 : metrics),
      determine_winner volume_threshold (Some FightType.TIMING) m1 m2
      = _analyze_timing_fight m1 m2)
  /\ (forall m1 m2 : metrics,
        _analyze_timing_fight m1 m2
        = Ok match get m1 "total_join_time" (PyInt 0),
                   get m2 "total_join_time" (PyInt 0) with
             | PyInt a, PyInt b =>
                 if Z.abs (a - b) <? 5 then draw
                 else if b <? a then p1_wins else p2_wins
             | PyFloat x, PyFloat y =>
                 if (abs (x - y) <? 5)%float then draw
                 else if (y <? x)%float then p1_wins else p2_wins
             | PyInt a, PyFloat y =>
                 match float_of_int a with
                 | Ok x => if (abs (x - y) <? 5)%float then draw
                           else if float_lt_int y a then p1_wins else p2_wins
                 | Raise _ => draw
                 end
             | PyFloat x, PyInt b =>
                 match float_of_int b with
                 | Ok y => if (abs (x - y) <? 5)%float then draw
                           else if float_gt_int x b then p1_wins else p2_wins
                 | Raise _ => draw
                 end
             | PyNone, _ | _, PyNone => draw
             end)
  /\ (forall (m1 m2 : metrics) (x y : float),
        get m1 "total_join_time" (PyInt 0) = PyFloat x ->
        get m2 "total_join_time" (PyInt 0) = PyFloat y ->
        x = nan \/ y = nan ->
        _analyze_timing_fight m1 m2 = Ok p2_wins)
  /\ _analyze_timing_fight (presence (PyInt 100)) (presence (PyInt 103)) = Ok draw
  /\ _analyze_timing_fight (presence (PyInt 100)) (presence (PyInt 110)) = Ok p2_wins
  /\ _analyze_timing_fight (presence (PyFloat 100)) (presence (PyFloat 103)) = Ok draw
  /\ _analyze_timing_fight (presence (PyFloat 100)) (presence (PyFloat 110))
     = Ok p2_wins.
Proof.
  split; [exact determine_winner_is_timing|].
  split; [exact timing_on_values|].
  split; [exact timing_nan|].
  repeat split; vm_compute; reflexivity.
Qed.

(** The amended C3 at a float against an [int]: 100.5 and 103 differ by
    2.5, a draw; 100.5 and 110 differ by 9.5, a win for participant 2. *)
Lemma timing_fight_rule_witness :
  _analyze_timing_fight (presence (PyFloat 100.5)) (presence (PyInt 103)) = Ok draw
  /\ _analyze_timing_fight (presence (PyFloat 100.5)) (presence (PyInt 110))
     = Ok p2_wins.
Proof.
  split.
  - rewrite (proj1 (proj2 timing_fight_rule)). reflexivity.
  - rewrite (proj1 (proj2 timing_fight_rule)). reflexivity.
Defined.

(** C4, as stated, fails twice.  At a presence duration of 0 the amplitude
    term stays: active time 30, presence 0, amplitude 5000 score 0.15, not
    0.  And the score is computed in binary64: active time 17, presence 28,
    amplitude 2500 make 0.7 * 17/28 + 0.3 * 2500/10000 = 1/2, but the code
    scores 0.49999999999999994, which against a silent participant is a
    draw under the threshold 0.5. *)
Lemma activity_score_zero_presence_counterexample :
  _calculate_activity_score (activity (PyInt 30) (PyInt 0) (PyInt 5000))
  = Ok (PyFloat 0.15)
  /\ (0 <? 0.15)%float = true
  /\ ((7 # 10) * (17 # 28) + (3 # 10) * (2500 # 10000) == 1 # 2)%Q
  /\ _calculate_activity_score (activity (PyInt 17) (PyInt 28) (PyInt 2500))
     = Ok (PyFloat 0.49999999999999994)
  /\ (0.49999999999999994 <? 0.5)%float = true
  /\ determine_winner (PyFloat 0.5) (Some FightType.VOLUME)
       (activity (PyInt 17) (PyInt 28) (PyInt 2500)) silent = Ok draw.
Proof. repeat split; vm_compute; reflexivity. Qed.

(** C4, amended.  The activity score is always a float.  On float entries
    it is [(s / t) * 0.7 + (v / 10000) * 0.3], each operation rounded to
    binary64, where the quotient [s / t] is replaced by 0 unless the
    presence duration [t] is positive: the amplitude term stays.  On [int]
    entries the two quotients are the correctly rounded quotients of the
    integers, and the score is 0.0 if one of them is too large for a
    float.  A missing speaking time or amplitude is the [int] 0, a missing
    duration the [int] 1, and a dictionary whose entries are no numbers
    scores 0.0.  Active time 30, presence 60, amplitude 5000 score 0.5;
    active time 10, presence 60, amplitude 1000 score 0.14666666666666667;
    an active time of 10^400 scores 0.0, the quotient being too large;
    participant 1 wins under every draw threshold up to the difference
    0.35333333333333333. *)
Theorem activity_score_rule :
  (forall m : metrics, exists r : float, _calculate_activity_score m = Ok (PyFloat r))
  /\ (forall (m : metrics) (s v t : float),
        get m "speak_time" (PyInt 0) = PyFloat s ->
        get m "average_volume" (PyInt 0) = PyFloat v ->
        get m "total_join_time" (PyInt 1) = PyFloat t ->
        _calculate_activity_score m
        = Ok (PyFloat ((if 0 <? t then s / t else 0) * 0.7 + v / 10000 * 0.3)%float))
  /\ (forall (m : metrics) (s v t : Z),
        get m "speak_time" (PyInt 0) = PyInt s ->
        get m "average_volume" (PyInt 0) = PyInt v ->
        get m "total_join_time" (PyInt 1) = PyInt t ->
        _calculate_activity_score m
        = Ok (PyFloat
                match (if 0 <? t then int_truediv s t else Ok 0%float),
                      int_truediv v 10000 with
                | Ok p, Ok q => (p * 0.7 + q * 0.3)%float
                | _, _ => 0%float
                end))
  /\ (forall m : metrics,
        _calculate_activity_score (with_defaults (Some FightType.VOLUME) m)
        = _calculate_activity_score m)
  /\ (forall m : metrics,
        unscorable m -> _calculate_activity_score m = Ok (PyFloat 0))
  /\ _calculate_activity_score (activity (PyInt 30) (PyInt 60) (PyInt 5000))
     = Ok (PyFloat 0.5)
  /\ _calculate_activity_score (activity (PyInt 10) (PyInt 60) (PyInt 1000))
     = Ok (PyFloat 0.14666666666666667)
  /\ _calculate_activity_score (activity (PyInt (10 ^ 400)) (PyInt 60) (PyInt 1000))
     = Ok (PyFloat 0)
  /\ (0.5 - 0.14666666666666667 = 0.35333333333333333)%float
  /\ (forall t : float,
        (t <=? 0.35333333333333333)%float = true ->
        determine_winner (PyFloat t) (Some FightType.VOLUME)
          (activity (PyInt 30) (PyInt 60) (PyInt 5000))
          (activity (PyInt 10) (PyInt 60) (PyInt 1000)) = Ok p1_wins).
Proof.
  split; [exact score_is_float|].
  split; [exact score_on_floats|].
  split; [exact score_on_ints|].
  split; [exact score_defaults|].
  split; [exact score_malformed|].
  split; [vm_compute; reflexivity|].
  split; [vm_compute; reflexivity|].
  split; [vm_compute; reflexivity|].
  split; [vm_compute; reflexivity|].
  intros t Ht. rewrite determine_winner_is_volume.
  rewrite (volume_on_float_scores (PyFloat t) _ _ 0.5 0.14666666666666667)
    by (vm_compute; reflexivity).
  change (abs (0.5 - 0.14666666666666667))%float with 0.35333333333333333%float.
  rewrite (leb_not_ltb _ _ Ht). reflexivity.
Qed.

(** The amended C4 on float entries: active time 30.0, presence 60.0 and
    amplitude 5000.0 score 0.5, and with the presence 0.0 they score 0.15. *)
Lemma activity_score_rule_witness :
  _calculate_activity_score (activity (PyFloat 30) (PyFloat 60) (PyFloat 5000))
  = Ok (PyFloat 0.5)
  /\ _calculate_activity_score (activity (PyFloat 30) (PyFloat 0) (PyFloat 5000))
     = Ok (PyFloat 0.15).
Proof.
  split.
  - rewrite (proj1 (proj2 activity_score_rule)
               (activity (PyFloat 30) (PyFloat 60) (PyFloat 5000))
               30%float 5000%float 60%float eq_refl eq_refl eq_refl).
    reflexivity.
  - rewrite (proj1 (proj2 activity_score_rule)
               (activity (PyFloat 30) (PyFloat 0) (PyFloat 5000))
               30%float 5000%float 0%float eq_refl eq_refl eq_refl).
    reflexivity.
Defined.

(** C5, as stated, fails: a missing or malformed metric is not always
    treated as 0.  A duration that is no number against 100 gives a draw,
    where 0 against 100 gives a win for participant 2.  A speaking time
    that is no number makes the whole score 0.0, a draw against a silent
    participant, where a speaking time of 0 with the same amplitude wins.
    A missing duration is 1 in the activity score: speaking time 1 without
    a duration wins against a silent participant, with the duration 0 it
    draws. *)
Lemma malformed_or_missing_not_zero_counterexample :
  determine_winner (PyFloat 0.1) (Some FightType.TIMING)
    (presence PyNone) (presence (PyInt 100)) = Ok draw
  /\ determine_winner (PyFloat 0.1) (Some FightType.TIMING)
       (presence (PyInt 0)) (presence (PyInt 100)) = Ok p2_wins
  /\ determine_winner (PyFloat 0.1) (Some FightType.VOLUME)
       (activity PyNone (PyInt 60) (PyInt 5000)) silent = Ok draw
  /\ determine_winner (PyFloat 0.1) (Some FightType.VOLUME)
       (activity (PyInt 0) (PyInt 60) (PyInt 5000)) silent = Ok p1_wins
  /\ determine_winner (PyFloat 0.1) (Some FightType.VOLUME)
       {["speak_time"%string := PyInt 1]} silent = Ok p1_wins
  /\ determine_winner (PyFloat 0.1) (Some FightType.VOLUME)
       (<["total_join_time"%string := PyInt 0]> {["speak_time"%string := PyInt 1]})
       silent = Ok draw.
Proof. repeat split; vm_compute; reflexivity. Qed.

(** C5, amended.  For every contest type, recognized or not, every pair of
    metrics dictionaries and every value of the configured threshold,
    [determine_winner] raises nothing and returns one of the three
    consistent outcomes; an unrecognized contest type gives the draw.  A
    missing entry of either participant is read as its default: the
    duration 0 in a timing contest; the speaking time 0, the amplitude 0
    and the duration 1 in an activity contest.  An entry that is no number
    is not read as 0: in a timing contest it gives the draw, in an
    activity contest the participant is judged like a silent one with the
    score 0.0.  A NaN duration against a float gives the win to
    participant 2. *)
Theorem determine_winner_total (volume_threshold : value)
    (fight_type : option FightType.t) (m1 m2 : metrics) :
  exists o : outcome,
    determine_winner volume_threshold fight_type m1 m2 = Ok o
    /\ Spec.consistent o
    /\ (fight_type = None -> o = draw)
    /\ determine_winner volume_threshold fight_type
         (with_defaults fight_type m1) (with_defaults fight_type m2) = Ok o
    /\ (fight_type = Some FightType.TIMING ->
        get m1 "total_join_time" (PyInt 0) = PyNone
        \/ get m2 "total_join_time" (PyInt 0) = PyNone ->
        o = draw)
    /\ (fight_type = Some FightType.TIMING ->
        forall x y : float,
          get m1 "total_join_time" (PyInt 0) = PyFloat x ->
          get m2 "total_join_time" (PyInt 0) = PyFloat y ->
          x = nan \/ y = nan ->
          o = p2_wins)
    /\ (fight_type = Some FightType.VOLUME -> unscorable m1 ->
        determine_winner volume_threshold fight_type silent m2 = Ok o)
    /\ (fight_type = Some FightType.VOLUME -> unscorable m2 ->
        determine_winner volume_threshold fight_type m1 silent = Ok o)
    /\ (fight_type = Some FightType.VOLUME -> volume_threshold = PyNone -> o = draw).
Proof.
  destruct fight_type as [[]|].
  - (* TIMING *)
    destruct (timing_total m1 m2) as [o [Ho Hc]].
    exists o. rewrite !determine_winner_is_timing, timing_defaults.
    split; [exact Ho|]. split; [exact Hc|]. split; [discriminate|].
    split; [exact Ho|].
    split.
    { intros _ Hn. rewrite timing_on_values in Ho.
      destruct Hn as [Hn|Hn]; rewrite Hn in Ho.
      - injection Ho as <-. reflexivity.
      - destruct (get m1 _ _); injection Ho as <-; reflexivity. }
    split.
    { intros _ x y Hx Hy Hn. rewrite (timing_nan m1 m2 x y Hx Hy Hn) in Ho.
      injection Ho as <-. reflexivity. }
    repeat split; discriminate.
  - (* VOLUME *)
    destruct (volume_total volume_threshold m1 m2) as [o [Ho Hc]].
    exists o. rewrite !determine_winner_is_volume, volume_defaults.
    split; [exact Ho|]. split; [exact Hc|]. split; [discriminate|].
    split; [exact Ho|].
    split; [discriminate|]. split; [discriminate|].
    split.
    { intros _ Hu. rewrite <- Ho. unfold _analyze_volume_fight.
      rewrite (score_malformed m1 Hu), score_silent. reflexivity. }
    split.
    { intros _ Hu. rewrite <- Ho. unfold _analyze_volume_fight.
      rewrite (score_malformed m2 Hu), score_silent. reflexivity. }
    intros _ ->. destruct (score_is_float m1) as [p1 H1], (score_is_float m2) as [p2 H2].
    rewrite (volume_on_float_scores PyNone m1 m2 p1 p2 H1 H2) in Ho.
    injection Ho as <-. reflexivity.
  - exists draw. unfold Spec.consistent. repeat split; auto; discriminate.
Qed.


(** The amended C5 on a timing contest between a duration that is no
    number and the duration 100: the draw, and the same with the missing
    entries of two empty dictionaries. *)
Lemma determine_winner_total_witness :
  determine_winner (PyFloat 0.1) (Some FightType.TIMING)
    (presence PyNone) (presence (PyInt 100)) = Ok draw
  /\ determine_winner (PyFloat 0.1) (Some FightType.TIMING) ∅ ∅
     = determine_winner (PyFloat 0.1) (Some FightType.TIMING)
         (presence (PyInt 0)) (presence (PyInt 0)).
Proof.
  split.
  - destruct (determine_winner_total (PyFloat 0.1) (Some FightType.TIMING)
                (presence PyNone) (presence (PyInt 100)))
      as [o [Ho [_ [_ [_ [Hn _]]]]]].
    rewrite Ho. f_equal. apply Hn; [reflexivity|]. left. reflexivity.
  - destruct (determine_winner_total (PyFloat 0.1) (Some FightType.TIMING) ∅ ∅)
      as [o [Ho [_ [_ [Hd _]]]]].
    rewrite Ho. symmetry. exact Hd.
Defined.

Import WinnerReports (swapped).

Lemma float_lt_not_gt (x : float) (n : Z) :
  float_lt_int x n = true -> float_gt_int x n = false.
Proof.
  unfold float_lt_int, float_gt_int.
  destruct (compare_float_int x n) as [[]|]; congruence.
Qed.

(** The two orders of a timing contest. *)
Lemma timing_swap (m1 m2 : metrics) (o12 o21 : outcome) :
  _analyze_timing_fight m1 m2 = Ok o12 ->
  _analyze_timing_fight m2 m1 = Ok o21 ->
  (o21 = swapped o12 \/ (o12 = p2_wins /\ o21 = p2_wins))
  /\ (o12 = draw <-> o21 = draw).
Proof.
  rewrite !timing_on_values.
  destruct (get m1 "total_join_time" (PyInt 0)) as [a|x|],
           (get m2 "total_join_time" (PyInt 0)) as [b|y|].
  - replace (Z.abs (b - a)) with (Z.abs (a - b)) by lia.
    destruct (Z.abs (a - b) <? 5) eqn:D;
      [intros [= <-] [= <-]; split; [left; reflexivity|tauto]|].
    apply Z.ltb_ge in D.
    destruct (b <? a) eqn:L1, (a <? b) eqn:L2;
      try apply Z.ltb_lt in L1; try apply Z.ltb_lt in L2;
      try apply Z.ltb_ge in L1; try apply Z.ltb_ge in L2; try lia;
      intros [= <-] [= <-]; (split; [left; reflexivity|split; discriminate]).
  - destruct (float_of_int a) as [x|e];
      [|intros [= <-] [= <-]; split; [left; reflexivity|tauto]].
    rewrite (abs_sub_sym y x).
    destruct (abs (x - y) <? 5)%float;
      [intros [= <-] [= <-]; split; [left; reflexivity|tauto]|].
    destruct (float_lt_int y a) eqn:L1.
    + rewrite (float_lt_not_gt _ _ L1).
      intros [= <-] [= <-]. split; [left; reflexivity|split; discriminate].
    + destruct (float_gt_int y a);
        intros [= <-] [= <-];
        (split; [auto|split; discriminate]).
  - intros [= <-] [= <-]. split; [left; reflexivity|tauto].
  - destruct (float_of_int b) as [y|e];
      [|intros [= <-] [= <-]; split; [left; reflexivity|tauto]].
    rewrite (abs_sub_sym y x).
    destruct (abs (x - y) <? 5)%float;
      [intros [= <-] [= <-]; split; [left; reflexivity|tauto]|].
    destruct (float_lt_int x b) eqn:L1.
    + rewrite (float_lt_not_gt _ _ L1).
      intros [= <-] [= <-]. split; [left; reflexivity|split; discriminate].
    + destruct (float_gt_int x b);
        intros [= <-] [= <-];
        (split; [auto|split; discriminate]).
  - rewrite (abs_sub_sym y x).
    destruct (abs (x - y) <? 5)%float;
      [intros [= <-] [= <-]; split; [left; reflexivity|tauto]|].
    destruct (y <? x)%float eqn:L1.
    + rewrite (ltb_antisym _ _ L1).
      intros [= <-] [= <-]. split; [left; reflexivity|split; discriminate].
    + destruct (x <? y)%float;
        intros [= <-] [= <-];
        (split; [auto|split; discriminate]).
  - intros [= <-] [= <-]. split; [left; reflexivity|tauto].
  - intros [= <-] [= <-]. split; [left; reflexivity|tauto].
  - intros [= <-] [= <-]. split; [left; reflexivity|tauto].
  - intros [= <-] [= <-]. split; [left; reflexivity|tauto].
Qed.

(** The two orders of an activity contest. *)
Lemma volume_swap (threshold : value) (m1 m2 : metrics) (o12 o21 : outcome) :
  _analyze_volume_fight threshold m1 m2 = Ok o12 ->
  _analyze_volume_fight threshold m2 m1 = Ok o21 ->
  (o21 = swapped o12 \/ (o12 = p2_wins /\ o21 = p2_wins))
  /\ (o12 = draw <-> o21 = draw).
Proof.
  destruct (score_is_float m1) as [p1 H1], (score_is_float m2) as [p2 H2].
  rewrite (volume_on_float_scores threshold m1 m2 p1 p2 H1 H2),
          (volume_on_float_scores threshold m2 m1 p2 p1 H2 H1).
  rewrite (abs_sub_sym p2 p1).
  assert (forall small : bool,
             Ok (if small then draw else if (p2 <? p1)%float then p1_wins else p2_wins)
             = Ok o12 ->
             Ok (if small then draw else if (p1 <? p2)%float then p1_wins else p2_wins)
             = Ok o21 ->
             (o21 = swapped o12 \/ (o12 = p2_wins /\ o21 = p2_wins))
             /\ (o12 = draw <-> o21 = draw)) as Hd.
  { intros [|]; [intros [= <-] [= <-]; split; [left; reflexivity|tauto]|].
    destruct (p2 <? p1)%float eqn:L1.
    - rewrite (ltb_antisym _ _ L1).
      intros [= <-] [= <-]. split; [left; reflexivity|split; discriminate].
    - destruct (p1 <? p2)%float;
        intros [= <-] [= <-]; (split; [auto|split; discriminate]). }
  destruct threshold as [n|t|]; [apply Hd|apply Hd|].
  intros [= <-] [= <-]. split; [left; reflexivity|tauto].
Qed.

(** The two orders of any contest. *)
Lemma outcome_swap (threshold : value) (fight_type : option FightType.t)
    (m1 m2 : metrics) (o12 o21 : outcome) :
  determine_winner threshold fight_type m1 m2 = Ok o12 ->
  determine_winner threshold fight_type m2 m1 = Ok o21 ->
  (o21 = swapped o12 \/ (o12 = p2_wins /\ o21 = p2_wins))
  /\ (o12 = draw <-> o21 = draw).
Proof.
  intros H12 H21. destruct fight_type as [[]|].
  - rewrite determine_winner_is_timing in H12, H21. exact (timing_swap _ _ _ _ H12 H21).
  - rewrite determine_winner_is_volume in H12, H21.
    exact (volume_swap _ _ _ _ _ H12 H21).
  - cbn in H12, H21. injection H12 as <-. injection H21 as <-.
    split; [left; reflexivity|tauto].
Qed.

(** Under the threshold 0.0 nothing is a draw, and a dictionary against
    itself is a win for participant 2. *)
Lemma volume_threshold_zero (m : metrics) :
  determine_winner (PyFloat 0) (Some FightType.VOLUME) m m = Ok p2_wins.
Proof.
  rewrite determine_winner_is_volume.
  destruct (score_is_float m) as [p H].
  rewrite (volume_on_float_scores _ m m p p H H).
  rewrite abs_not_below_zero, ltb_irrefl. reflexivity.
Qed.

(** X7.  What a swap of the two metrics dictionaries does to
    [determine_winner], for every contest type, every pair of dictionaries
    and every threshold.  The draw is the same in both orders, and a win
    moves with the participant, with one exception: when the contest is no
    draw and neither value exceeds the other, participant 2 wins in both
    orders.  The exception does not arise on [int] durations, on finite
    float durations, for an unrecognized contest type, or on finite scores
    under a positive float threshold: there the swapped call gives the
    swapped outcome.  It does arise with a NaN duration, and under the
    threshold 0.0, where a dictionary against itself is a win for
    participant 2. *)
Theorem determine_winner_swap :
  (forall (threshold : value) (fight_type : option FightType.t)
          (m1 m2 : metrics) (o12 o21 : outcome),
      determine_winner threshold fight_type m1 m2 = Ok o12 ->
      determine_winner threshold fight_type m2 m1 = Ok o21 ->
      (o21 = swapped o12 \/ (o12 = p2_wins /\ o21 = p2_wins))
      /\ (o12 = draw <-> o21 = draw)
      /\ (fight_type = None -> o21 = swapped o12)
      /\ (fight_type = Some FightType.TIMING ->
          forall a b : Z,
            get m1 "total_join_time" (PyInt 0) = PyInt a ->
            get m2 "total_join_time" (PyInt 0) = PyInt b ->
            o21 = swapped o12)
      /\ (fight_type = Some FightType.TIMING ->
          forall x y : float,
            get m1 "total_join_time" (PyInt 0) = PyFloat x ->
            get m2 "total_join_time" (PyInt 0) = PyFloat y ->
            is_finite x = true -> is_finite y = true ->
            o21 = swapped o12)
      /\ (fight_type = Some FightType.VOLUME ->
          forall p1 p2 t : float,
            _calculate_activity_score m1 = Ok (PyFloat p1) ->
            _calculate_activity_score m2 = Ok (PyFloat p2) ->
            is_finite p1 = true -> is_finite p2 = true ->
            threshold = PyFloat t -> (0 <? t)%float = true ->
            o21 = swapped o12))
  /\ (forall m : metrics,
        determine_winner (PyFloat 0) (Some FightType.VOLUME) m m = Ok p2_wins)
  /\ (forall (threshold : value) (y : float),
        determine_winner threshold (Some FightType.TIMING)
          (presence (PyFloat nan)) (presence (PyFloat y)) = Ok p2_wins
        /\ determine_winner threshold (Some FightType.TIMING)
             (presence (PyFloat y)) (presence (PyFloat nan)) = Ok p2_wins).
Proof.
  split; [|split; [exact volume_threshold_zero|]].
  2: { intros threshold y. rewrite !determine_winner_is_timing.
       split; eapply timing_nan; try reflexivity; auto. }
  intros threshold fight_type m1 m2 o12 o21 H12 H21.
  destruct (outcome_swap threshold fight_type m1 m2 o12 o21 H12 H21) as [Hgen Hdraw].
  split; [exact Hgen|]. split; [exact Hdraw|].
  split.
  { intros ->. cbn in H12, H21. injection H12 as <-. injection H21 as <-. reflexivity. }
  split.
  { intros -> a b Ha Hb. rewrite determine_winner_is_timing in H12, H21.
    rewrite timing_on_values, ?Ha, ?Hb in H12, H21.
    destruct Hgen as [Hgen|[-> ->]]; [exact Hgen|exfalso].
    replace (Z.abs (b - a)) with (Z.abs (a - b)) in H21 by lia.
    destruct (Z.abs (a - b) <? 5) eqn:D; [discriminate|]. apply Z.ltb_ge in D.
    destruct (b <? a) eqn:L1; [discriminate|].
    destruct (a <? b) eqn:L2; [discriminate|].
    apply Z.ltb_ge in L1, L2. lia. }
  split.
  { intros -> x y Hx Hy Fx Fy. rewrite determine_winner_is_timing in H12, H21.
    rewrite timing_on_values, ?Hx, ?Hy in H12, H21.
    destruct Hgen as [Hgen|[-> ->]]; [exact Hgen|exfalso].
    destruct (y <? x)%float eqn:L1;
      [destruct (abs (x - y) <? 5)%float; discriminate|].
    destruct (x <? y)%float eqn:L2;
      [destruct (abs (y - x) <? 5)%float; discriminate|].
    rewrite (abs_sub_unordered x y Fx Fy L2 L1) in H12. discriminate. }
  intros -> p1 p2 t H1 H2 F1 F2 -> Ht.
  rewrite determine_winner_is_volume in H12, H21.
  rewrite (volume_on_float_scores _ m1 m2 p1 p2 H1 H2) in H12.
  rewrite (volume_on_float_scores _ m2 m1 p2 p1 H2 H1) in H21.
  destruct Hgen as [Hgen|[-> ->]]; [exact Hgen|exfalso].
  destruct (p2 <? p1)%float eqn:L1;
    [destruct (abs (p1 - p2) <? t)%float; discriminate|].
  destruct (p1 <? p2)%float eqn:L2;
    [destruct (abs (p2 - p1) <? t)%float; discriminate|].
  rewrite (abs_sub_unordered p1 p2 F1 F2 L2 L1), Ht in H12. discriminate.
Qed.

(** X7 at the float durations 100.5 and 110.25, which are finite: the
    opponent's win one way is the challenger's win the other way. *)
Lemma determine_winner_swap_witness :
  determine_winner (PyFloat 0.1) (Some FightType.TIMING)
    (presence (PyFloat 100.5)) (presence (PyFloat 110.25)) = Ok p2_wins
  /\ determine_winner (PyFloat 0.1) (Some FightType.TIMING)
       (presence (PyFloat 110.25)) (presence (PyFloat 100.5)) = Ok p1_wins
  /\ p1_wins = swapped p2_wins.
Proof.
  split; [reflexivity|]. split; [reflexivity|].
  refine (proj1 (proj2 (proj2 (proj2 (proj2
           (proj1 determine_winner_swap (PyFloat 0.1) (Some FightType.TIMING)
              (presence (PyFloat 100.5)) (presence (PyFloat 110.25))
              p2_wins p1_wins eq_refl eq_refl)))))
           eq_refl 100.5%float 110.25%float eq_refl eq_refl eq_refl eq_refl).
Defined.

Lemma over_a_minute_spec (s : value) :
  s <> PyNone -> py_gt s (PyInt 60) = Ok (over_a_minute s).
Proof.
  destruct s as [n|x|]; [reflexivity| |congruence].
  intros _. cbn. rewrite float_gt_int_60. reflexivity.
Qed.

(** X9.  [analyze_fight_quality] never raises.  It answers the report
    ['unknown'], with a [TypeError], exactly when one of the two speaking
    times is no number; other entries that are no numbers only make the
    activity score 0.0 and still give an analysis.  The analysis is computed
    in binary64 from the two scores [p1] and [p2]: engagement level and
    quality are high and excellent when [p1 + p2 > 1.5], medium and good
    when [p1 + p2 > 1.0], low and fair otherwise; the balance rating is
    [min(p1, p2) / max(p1, p2)] when [p1 + p2 > 0] and 0.5 otherwise; the
    events name each participant who spoke for more than 60 and, exactly
    when the rating exceeds 0.8, the evenly matched fight. *)
Theorem fight_quality_report (m1 m2 : metrics) :
  exists p1 p2 : float,
    _calculate_activity_score m1 = Ok (PyFloat p1)
    /\ _calculate_activity_score m2 = Ok (PyFloat p2)
    /\ (get m1 "speak_time" (PyInt 0) = PyNone
        \/ get m2 "speak_time" (PyInt 0) = PyNone ->
        analyze_fight_quality m1 m2 = Ok (Unknown TypeError))
    /\ (get m1 "speak_time" (PyInt 0) <> PyNone ->
        get m2 "speak_time" (PyInt 0) <> PyNone ->
        let total := (p1 + p2)%float in
        let rating :=
          if (0 <? total)%float
          then ((if p2 <? p1 then p2 else p1) / (if p1 <? p2 then p2 else p1))%float
          else 0.5%float in
        analyze_fight_quality m1 m2
        = Ok (Analysis
                (mkAnalysis 2
                   (if (1.5 <? total)%float then "excellent"
                    else if (1 <? total)%float then "good" else "fair")
                   (if (1.5 <? total)%float then "high"
                    else if (1 <? total)%float then "medium" else "low")
                   (PyFloat rating)
                   ((if over_a_minute (get m1 "speak_time" (PyInt 0))
                     then ["Participant 1 spoke for over 1 minute"%string] else [])
                    ++ (if over_a_minute (get m2 "speak_time" (PyInt 0))
                        then ["Participant 2 spoke for over 1 minute"%string] else [])
                    ++ (if (0.8 <? rating)%float
                        then ["Very evenly matched fight"%string] else []))%list))).
Proof.
  destruct (score_is_float m1) as [p1 H1], (score_is_float m2) as [p2 H2].
  exists p1, p2. split; [exact H1|]. split; [exact H2|].
  unfold analyze_fight_quality. rewrite H1, H2.
  assert (forall levels : string * string,
             (positive ← py_gt (PyFloat (p1 + p2)) (PyInt 0);
              if positive : bool
              then lower ← py_min (PyFloat p1) (PyFloat p2);
                   higher ← py_max (PyFloat p1) (PyFloat p2);
                   py_truediv lower higher
              else Ok (PyFloat 0.5))
             = Ok (PyFloat
                     (if (0 <? p1 + p2)%float
                      then ((if p2 <? p1 then p2 else p1)
                            / (if p1 <? p2 then p2 else p1))%float
                      else 0.5%float))) as Hbal.
  { intros _. cbn. rewrite float_gt_int_0.
    destruct (0 <? p1 + p2)%float eqn:P; cbn; [|reflexivity].
    pose proof (max_nonzero p1 p2 P) as Hmax.
    destruct (p2 <? p1)%float, (p1 <? p2)%float; cbn; rewrite Hmax; reflexivity. }
  specialize (Hbal ("", "")).
  split.
  - intros Hnone. cbn.
    destruct (1.5 <? p1 + p2)%float; cbn;
      [|destruct (1 <? p1 + p2)%float; cbn];
      cbn in Hbal; rewrite Hbal; cbn;
      (destruct Hnone as [-> | Hn2]; [reflexivity|]);
      (destruct (py_gt (get m1 "speak_time" (PyInt 0)) (PyInt 60)) as [l1|e1] eqn:E1;
       cbn; [rewrite Hn2; reflexivity|]);
      destruct (get m1 "speak_time" (PyInt 0)); cbn in E1; congruence.
  - intros N1 N2. cbn.
    destruct (1.5 <? p1 + p2)%float eqn:T1; cbn;
      [|destruct (1 <? p1 + p2)%float eqn:T2; cbn];
      cbn in Hbal; rewrite Hbal; cbn;
      rewrite (over_a_minute_spec _ N1); cbn;
      rewrite (over_a_minute_spec _ N2); cbn;
      rewrite ?T1, ?T2;
      destruct (over_a_minute (get m1 _ _)), (over_a_minute (get m2 _ _));
      match goal with |- context [(0.8 <? ?r)%float] => destruct (0.8 <? r)%float end;
      reflexivity.
Qed.

(** X9 on two reports: scores 0.52 and 0.6499999999999999 have the rating
    0.8000000000000002 and are reported as evenly matched; scores 0.34 and
    1.1600000000000001 add up to 1.5000000000000002 and are rated high and
    excellent. *)
Lemma fight_quality_report_witness :
  analyze_fight_quality (activity (PyInt 4) (PyInt 10) (PyInt 8000))
    (activity (PyInt 5) (PyInt 10) (PyInt 10000))
  = Ok (Analysis (mkAnalysis 2 "good" "medium" (PyFloat 0.8000000000000002)
                    ["Very evenly matched fight"%string]))
  /\ analyze_fight_quality (activity (PyInt 1) (PyInt 10) (PyInt 9000))
       (activity (PyInt 5) (PyInt 10) (PyInt 27000))
     = Ok (Analysis (mkAnalysis 2 "excellent" "high" (PyFloat 0.29310344827586204) [])).
Proof.
  split.
  - destruct (fight_quality_report (activity (PyInt 4) (PyInt 10) (PyInt 8000))
                (activity (PyInt 5) (PyInt 10) (PyInt 10000)))
      as [p1 [p2 [H1 [H2 [_ H]]]]].
    vm_compute in H1, H2. injection H1 as <-. injection H2 as <-.
    rewrite H by discriminate. vm_compute. reflexivity.
  - destruct (fight_quality_report (activity (PyInt 1) (PyInt 10) (PyInt 9000))
                (activity (PyInt 5) (PyInt 10) (PyInt 27000)))
      as [p1 [p2 [H1 [H2 [_ H]]]]].
    vm_compute in H1, H2. injection H1 as <-. injection H2 as <-.
    rewrite H by discriminate. vm_compute. reflexivity.
Defined.

End WinnerDetector64Facts.

(* ===================================================================== *)
(** * Properties of the challenge manager *)
(* ===================================================================== *)

Module ManagerFacts.
Import Py StateMachine Runtime ChallengeManager Spec Products Examples.
Local Open Scope string_scope.

(** Unfolding of the coroutines down to state transformers. *)
Ltac run_unfold :=
  unfold _monitor_fight, _end_fight_no_show, _end_fight_error, _end_fight_with_results,
    start_fight, cancel_challenge, expire_entry,
    transition_and_discard, determine_results, update_statistics, compare_and_assign,
    attribute, machine_transition_to,
    ChallengeOps.get_challenge, ChallengeOps.update_challenge_status,
    FightOps.finish_fight, FightOps.update_fight_metrics, FightOps.create_fight,
    UserOps.update_user_stats, RecordingManager.start_recording,
    RecordingManager.stop_recording, UserbotManager.check_participants_joined,
    UserbotManager.get_fight_metrics, UserbotManager.are_participants_active,
    UserbotManager.cleanup_fight,
    sleep, awaiting, utcnow, read, modify, raise, lift, try_except,
    mbind, mret, M_bind, M_ret in *.

(** One step of symbolic execution: use a known lookup, or split on the
    next lookup, membership test or transition. *)
Ltac run_step :=
  match goal with
  | H : ?x = _ |- context [match ?x with _ => _ end] => rewrite H
  | H : ?x = _ |- context [if ?x then _ else _] => rewrite H
  | |- context [match ?m !! ?k with _ => _ end] => destruct (m !! k) eqn:?
  | |- context [if bool_decide ?P then _ else _] => destruct (bool_decide P) eqn:?
  | |- context [transition_to ?sm ?s ?t] =>
      destruct (transition_to sm s t) as [? ?] eqn:?
  end; cbn.

Ltac run := cbn; repeat run_step.

(** C10.  The claim describes the record of a successful [start_fight]; no
    call succeeds.  The constructor call [Fight(...)] in [start_fight]
    passes no [ended_at], a field the model declares required, so the call
    raises, the handler of [start_fight] answers [False], no fight record is
    persisted and no monitoring task is recorded. *)
Theorem start_fight_never_succeeds (fresh challenge_id : string) (w : World) :
  fst (start_fight fresh challenge_id w) = Ok false
  /\ fights (snd (start_fight fresh challenge_id w)) = fights w
  /\ _fight_tasks (snd (start_fight fresh challenge_id w)) = _fight_tasks w.
Proof.
  destruct w as [ch fi us ma ac ta re cl ca].
  run_unfold. cbn.
  destruct (ch !! challenge_id) as [c|]; cbn; [|auto].
  destruct (ac !! challenge_id) as [ref|]; cbn.
  - destruct (ma !! ref) as [sm|]; cbn; [|auto].
    destruct (transition_to sm PARTICIPANTS_JOINING cl) as [[|] sm']; cbn; [|auto].
    unfold Fight.init. cbn. destruct (Challenge.fight_type c); cbn; auto.
  - unfold Fight.init. cbn. destruct (Challenge.fight_type c); cbn; auto.
Qed.

(** C6, amended.  When, after the wait of acceptance_timeout, the session
    collaborator does not confirm that both participants joined, the
    monitoring routine of a challenge that is in the active table returns
    after setting both results of the fight record to NO_SHOW with no
    winner and marking the challenge COMPLETED; it attempts the transition
    to FIGHT_FINISHED and removes the entry from the table.  From
    PARTICIPANTS_JOINING, the state on entry, the table has no such edge:
    the attempt is rejected and the machine is discarded unchanged.  The
    calls of this path are the five listed: none determines a winner,
    touches a recording, updates statistics or releases agents. *)
Theorem no_show_path (config : Config) (env : Env) (fuel : nat)
    (challenge_id fight_id : string) (w w' : World) (r : res completion)
    (c : Challenge.t) (f : Fight.t) (ref : nat) (sm : ChallengeStateMachine) :
  challenges w !! challenge_id = Some c ->
  fights w !! fight_id = Some f ->
  _active_challenges w !! challenge_id = Some ref ->
  machines w !! ref = Some sm ->
  participants_joined env = false ->
  _monitor_fight config env fuel challenge_id fight_id w = (r, w') ->
  r = Ok Completed
  /\ (exists f', fights w' !! fight_id = Some f'
        /\ Fight.winner_id f' = None
        /\ Fight.participant1_result f' = FightResult.NO_SHOW
        /\ Fight.participant2_result f' = FightResult.NO_SHOW)
  /\ (Challenge.status <$> challenges w' !! challenge_id) = Some ChallengeStatus.COMPLETED
  /\ _active_challenges w' !! challenge_id = None
  /\ machines w' !! ref
     = Some (snd (transition_to sm FIGHT_FINISHED
                    (clock w + challenge_timeout config * 1000000)))
  /\ (current_state sm = PARTICIPANTS_JOINING -> machines w' !! ref = Some sm)
  /\ calls w' = (calls w ++
       [GetChallenge challenge_id; Sleep (challenge_timeout config);
        CheckParticipantsJoined (Challenge.challenger_id c) (Challenge.opponent_id c);
        FinishFight fight_id None FightResult.NO_SHOW FightResult.NO_SHOW;
        UpdateChallengeStatus challenge_id ChallengeStatus.COMPLETED])%list.
Proof.
  intros Hc Hf Ha Hm Hj.
  destruct w as [ch fi us ma ac ta re cl ca]. cbn in Hc, Hf, Ha, Hm.
  run_unfold. cbn. rewrite Hc. cbn. rewrite Ha. cbn. rewrite Hj. cbn.
  rewrite Hf. cbn. rewrite Hc. cbn. rewrite Ha. cbn. rewrite Hm. cbn.
  destruct (transition_to sm FIGHT_FINISHED (cl + challenge_timeout config * 1000000))
    as [ok sm'] eqn:E. cbn.
  intros H. injection H as <- <-. cbn.
  split; [reflexivity|]. split.
  { eexists. split; [apply lookup_insert_eq|]. cbn. auto. }
  split; [rewrite lookup_insert_eq; reflexivity|].
  split; [apply lookup_delete_eq|].
  split; [rewrite lookup_insert_eq; reflexivity|].
  split.
  { intros HS. rewrite lookup_insert_eq. f_equal.
    unfold transition_to, can_transition_to in E. rewrite HS in E. cbn in E.
    injection E as _ <-. reflexivity. }
  rewrite <- !app_assoc. reflexivity.
Qed.


(** One run of [_end_fight_with_results] whose decision block raises
    nothing: everything it writes. *)
Lemma end_fight_with_results_run (challenge_id fight_id : string) (duration : Z)
    (m1 m2 : metrics) (fight_type : option FightType.t) (w : World)
    (c : Challenge.t) (f : Fight.t)
    (winner : option Z) (r1 r2 : FightResult.t) :
  challenges w !! challenge_id = Some c ->
  fights w !! fight_id = Some f ->
  (forall w0, determine_results (Some c) fight_type m1 m2 w0 = (Ok (winner, r1, r2), w0)) ->
  exists w',
    _end_fight_with_results challenge_id fight_id duration m1 m2 fight_type w = (Ok tt, w')
    /\ fights w' = <[fight_id := Fight.set_result winner r1 r2 (clock w) f]> (fights w)
    /\ challenges w'
       = <[challenge_id := Challenge.set_status ChallengeStatus.COMPLETED c]> (challenges w)
    /\ users w' = credited c r1 r2 (users w)
    /\ _active_challenges w' = delete challenge_id (_active_challenges w)
    /\ clock w' = clock w.
Proof.
  intros Hc Hf Hd.
  destruct w as [ch fi us ma ac ta re cl ca]. cbn in Hc, Hf.
  unfold _end_fight_with_results, update_statistics, transition_and_discard,
    attribute, machine_transition_to,
    ChallengeOps.get_challenge, ChallengeOps.update_challenge_status,
    FightOps.finish_fight, UserOps.update_user_stats,
    RecordingManager.stop_recording, UserbotManager.cleanup_fight,
    awaiting, utcnow, read, modify, raise, try_except,
    mbind, mret, M_bind, M_ret.
  unfold credited. cbn. repeat (first [rewrite Hd; cbn | run_step]).
  all: eexists; (split; [reflexivity|]); cbn; repeat split; try reflexivity.
  all: symmetry; apply delete_id; assumption.
Qed.











Lemma inc_won (u : User.t) : User.inc 1 0 0 1 u = won u.
Proof. destruct u. unfold User.inc, won. cbn. f_equal; lia. Qed.

Lemma inc_lost (u : User.t) : User.inc 0 1 0 1 u = lost u.
Proof. destruct u. unfold User.inc, lost. cbn. f_equal; lia. Qed.

Lemma inc_drew (u : User.t) : User.inc 0 0 1 1 u = drew u.
Proof. destruct u. unfold User.inc, drew. cbn. f_equal; lia. Qed.


(** What [credited] does to two distinct users who both have a record. *)
Lemma credited_lookup (c : Challenge.t) (r1 r2 : FightResult.t)
    (us : gmap Z User.t) (u1 u2 : User.t) :
  Challenge.challenger_id c <> Challenge.opponent_id c ->
  us !! Challenge.challenger_id c = Some u1 ->
  us !! Challenge.opponent_id c = Some u2 ->
  credited c r1 r2 us !! Challenge.challenger_id c = Some (credit1 r1 r2 u1)
  /\ credited c r1 r2 us !! Challenge.opponent_id c = Some (credit2 r1 r2 u2).
Proof.
  intros Hne H1 H2. unfold credited, credit1, credit2. rewrite H1.
  rewrite lookup_insert_ne by exact Hne. rewrite H2.
  rewrite lookup_insert_eq.
  rewrite lookup_insert_ne by congruence. rewrite lookup_insert_eq.
  destruct (bool_decide (r1 = FightResult.WIN));
    [|destruct (bool_decide (r2 = FightResult.WIN))];
    rewrite ?inc_won, ?inc_lost, ?inc_drew; split; reflexivity.
Qed.





(** A second attempt to expire a machine changes nothing more. *)
Lemma transition_expired_idempotent (sm : ChallengeStateMachine) (now : datetime) :
  snd (transition_to (snd (transition_to sm EXPIRED now)) EXPIRED now)
  = snd (transition_to sm EXPIRED now).
Proof. destruct sm as [s h]. destruct s; reflexivity. Qed.

(** The state after an attempt to expire: [EXPIRED] exactly from the two
    states that have the edge, and from [EXPIRED] itself. *)
Lemma transition_expired_state (sm : ChallengeStateMachine) (now : datetime) :
  current_state (snd (transition_to sm EXPIRED now)) =
    if bool_decide (current_state sm ∈ [SENT; PARTICIPANTS_JOINING; EXPIRED])
    then EXPIRED else current_state sm.
Proof. destruct sm as [s h]. destruct s; reflexivity. Qed.

(** The second loop of [expire_old_challenges] over distinct keys of the
    table. *)
Lemma for_each_expire_entry (l : list string) :
  forall w : World,
    NoDup l ->
    (forall id, id ∈ l -> is_Some (_active_challenges w !! id)) ->
    exists w',
      for_each l expire_entry w = (Ok tt, w')
      /\ clock w' = clock w
      /\ (forall id, _active_challenges w' !! id
                     = if decide (id ∈ l) then None else _active_challenges w !! id)
      /\ (forall ref sm, machines w !! ref = Some sm ->
            machines w' !! ref
            = Some (if decide (Exists (fun id => _active_challenges w !! id = Some ref) l)
                    then snd (transition_to sm EXPIRED (clock w)) else sm)).
Proof.
  induction l as [|x l IH]; intros w Hnd Hin.
  - exists w. split; [reflexivity|]. split; [reflexivity|]. split.
    + intros id. destruct (decide (id ∈ [])) as [H|H]; [inversion H | reflexivity].
    + intros ref sm Hm.
      destruct (decide (Exists (fun id => _active_challenges w !! id = Some ref) []))
        as [H|H]; [inversion H | exact Hm].
  - apply NoDup_cons in Hnd as [Hx Hnd].
    destruct (Hin x (list_elem_of_here x l)) as [r0 Hr0].
    (* the world after the entry of x *)
    assert (exists w1,
      expire_entry x w = (Ok tt, w1)
      /\ clock w1 = clock w
      /\ _active_challenges w1 = delete x (_active_challenges w)
      /\ (forall ref sm, machines w !! ref = Some sm ->
            machines w1 !! ref
            = Some (if decide (ref = r0) then snd (transition_to sm EXPIRED (clock w))
                    else sm))) as [w1 [Hrun [Hclk [Hact Hmach]]]].
    { destruct w as [ch fi us ma ac ta re cl ca]. cbn in Hr0.
      unfold expire_entry. run_unfold. cbn. rewrite Hr0. cbn.
      destruct (ma !! r0) as [sm0|] eqn:Hm0; cbn.
      - destruct (transition_to sm0 EXPIRED cl) as [ok sm0'] eqn:Ht. cbn.
        eexists. split; [reflexivity|]. cbn. repeat split.
        intros ref sm Hm. destruct (decide (ref = r0)) as [->|Hne].
        + rewrite lookup_insert_eq. rewrite Hm0 in Hm. injection Hm as <-.
          rewrite Ht. reflexivity.
        + rewrite lookup_insert_ne by congruence. exact Hm.
      - eexists. split; [reflexivity|]. cbn. repeat split.
        intros ref sm Hm. destruct (decide (ref = r0)) as [->|Hne]; [congruence|exact Hm]. }
    destruct (IH w1 Hnd) as [w' [Hrun' [Hclk' [Hact' Hmach']]]].
    { intros id Hid. rewrite Hact. rewrite lookup_delete_ne.
      - apply Hin. apply list_elem_of_further. exact Hid.
      - intros ->. contradiction. }
    exists w'. split.
    { cbn [for_each]. unfold mbind, M_bind. rewrite Hrun. exact Hrun'. }
    split; [congruence|]. split.
    + intros id. rewrite Hact', Hact.
      destruct (decide (id ∈ l)) as [H|H].
      * rewrite decide_True by (apply list_elem_of_further; exact H). reflexivity.
      * destruct (decide (id = x)) as [->|Hne].
        -- rewrite decide_True by apply list_elem_of_here. apply lookup_delete_eq.
        -- rewrite decide_False.
           ++ apply lookup_delete_ne. congruence.
           ++ intros Hc. apply elem_of_cons in Hc as [?|?]; contradiction.
    + intros ref sm Hm.
      rewrite (Hmach' ref _ (Hmach ref sm Hm)). f_equal. rewrite Hclk.
      assert (Exists (fun id => _active_challenges w1 !! id = Some ref) l
              <-> Exists (fun id => _active_challenges w !! id = Some ref) l) as Hex.
      { rewrite !Exists_exists. split; intros [id [Hid Hl]]; exists id; (split; [exact Hid|]).
        - rewrite Hact in Hl. apply lookup_delete_Some in Hl as [_ Hl]. exact Hl.
        - rewrite Hact. rewrite lookup_delete_ne; [exact Hl|].
          intros ->. apply Hx. exact Hid. }
      destruct (decide (ref = r0)) as [->|Hne].
      * rewrite (decide_True (P := Exists _ (x :: l)))
          by (apply Exists_cons_hd; exact Hr0).
        destruct (decide (Exists _ l)); [apply transition_expired_idempotent | reflexivity].
      * destruct (decide (Exists (fun id => _active_challenges w1 !! id = Some ref) l))
          as [H|H].
        -- rewrite decide_True; [reflexivity|].
           apply Exists_cons_tl. apply Hex. exact H.
        -- rewrite decide_False; [reflexivity|].
           intros Hc. apply Exists_cons in Hc as [Hc|Hc].
           ++ congruence.
           ++ apply H. apply Hex. exact Hc.
Qed.


(** C8, as stated, fails: a machine in state ACCEPTED, which is reachable,
    is discarded by the sweep after 91 seconds (more than 3 * 30) without
    having been moved to EXPIRED. *)
Lemma expire_from_accepted_counterexample :
  let w := with_clock (fun _ => 91000000) (world0 None ACCEPTED) in
  let w' := snd (expire_old_challenges config0 w) in
  reachable ACCEPTED
  /\ challenge_timeout config0 * 3 < time_in_state w 0
  /\ _active_challenges w' !! "c1" = None
  /\ (current_state <$> machines w' !! 0%nat) = Some ACCEPTED
  /\ (current_state <$> machines w' !! 0%nat) <> Some EXPIRED.
Proof.
  split; [apply StateMachineFacts.all_reachable|].
  vm_compute. repeat split; try reflexivity; discriminate.
Qed.

(** C8, amended.  For every in-memory active challenge whose dwell time in
    its current state exceeds 3 * acceptance_timeout, whatever that state
    is, [expire_old_challenges] removes the entry from the table after one
    attempt to move the machine to EXPIRED: the machine ends in EXPIRED when
    its state was SENT or PARTICIPANTS_JOINING, the two states with such an
    edge; from any other state the attempt is rejected and the machine is
    discarded as it was. *)
Theorem expire_old_challenges_discards (config : Config) (w w' : World) (r : res Z)
    (challenge_id : string) (ref : nat) (sm : ChallengeStateMachine) :
  _active_challenges w !! challenge_id = Some ref ->
  machines w !! ref = Some sm ->
  challenge_timeout config * 3 < get_time_in_state sm (clock w) ->
  expire_old_challenges config w = (r, w') ->
  (exists n, r = Ok n)
  /\ _active_challenges w' !! challenge_id = None
  /\ machines w' !! ref = Some (snd (transition_to sm EXPIRED (clock w)))
  /\ (current_state sm ∈ [SENT; PARTICIPANTS_JOINING] ->
      (current_state <$> machines w' !! ref) = Some EXPIRED)
  /\ (current_state sm ∉ [SENT; PARTICIPANTS_JOINING; EXPIRED] ->
      machines w' !! ref = Some sm).
Proof.
  intros Ha Hm Hdwell.
  destruct w as [ch fi us ma ac ta re cl ca]. cbn in Ha, Hm, Hdwell.
  unfold expire_old_challenges, ChallengeOps.expire_old_challenges.
  unfold awaiting, utcnow, read, modify, try_except, mbind, mret, M_bind, M_ret.
  cbn.
  match goal with
  | |- context [for_each ?l0 expire_entry ?w0] =>
      set (l := l0); set (w1 := w0)
  end.
  assert (challenge_id ∈ l) as Hin.
  { unfold l. apply list_elem_of_In. apply filter_In. split.
    - apply list_elem_of_In. apply list_elem_of_fmap.
      exists (challenge_id, ref). split; [reflexivity|].
      apply elem_of_map_to_list. exact Ha.
    - rewrite Ha. unfold time_in_state. cbn. rewrite Hm.
      apply Z.ltb_lt. exact Hdwell. }
  destruct (for_each_expire_entry l w1) as [w2 [Hrun [Hclk [Hact Hmach]]]].
  { unfold l. apply NoDup_ListNoDup. apply List.NoDup_filter.
    apply NoDup_ListNoDup. apply NoDup_fst_map_to_list. }
  { intros id Hid. unfold l in Hid. apply list_elem_of_In in Hid.
    apply filter_In in Hid as [Hid _]. apply list_elem_of_In in Hid.
    apply list_elem_of_fmap in Hid as [[id' r'] [-> Hid]].
    apply elem_of_map_to_list in Hid. cbn. rewrite Hid. eauto. }
  rewrite Hrun. cbn. intros H. injection H as <- <-. cbn.
  specialize (Hact challenge_id). rewrite decide_True in Hact by exact Hin.
  specialize (Hmach ref sm Hm).
  rewrite decide_True in Hmach.
  2:{ apply Exists_exists. exists challenge_id. split; [exact Hin | exact Ha]. }
  cbn in Hmach.
  split; [eauto|]. split; [exact Hact|]. split; [exact Hmach|]. split.
  - intros HS. rewrite Hmach. cbn. f_equal.
    rewrite transition_expired_state. rewrite bool_decide_eq_true_2; [reflexivity|].
    apply elem_of_cons in HS as [->|HS]; [apply list_elem_of_here|].
    apply elem_of_cons in HS as [->|HS];
      [apply list_elem_of_further, list_elem_of_here | inversion HS].
  - intros HS. rewrite Hmach. f_equal.
    destruct sm as [s h]. cbn in HS.
    destruct s; try reflexivity; exfalso; apply HS;
      repeat first [apply list_elem_of_here | apply list_elem_of_further].
Qed.


(** *** Which exceptions can leave a coroutine *)

Lemma safe_ret {A : Type} (a : A) : safe (mret a).
Proof. intros w. exact I. Qed.

Lemma safe_bind {A B : Type} (m : M A) (f : A -> M B) :
  safe m -> (forall a, safe (f a)) -> safe (m ≫= f).
Proof.
  intros Hm Hf w. unfold mbind, M_bind. specialize (Hm w).
  destruct (m w) as [[a|e] w1]; cbn in *.
  - apply Hf.
  - exact Hm.
Qed.

Lemma total_safe {A : Type} (m : M A) : total m -> safe m.
Proof. intros H w. destruct (H w) as [a ->]. exact I. Qed.

Lemma safe_lift {A : Type} (r : res A) :
  (forall e, r = Raise e -> is_Exception e = true) -> safe (lift r).
Proof. intros H w. unfold lift. cbn. destruct r; [exact I | apply H; reflexivity]. Qed.

Lemma safe_try_except {A : Type} (body : M A) (handler : exn -> M A) :
  safe body -> (forall e, safe (handler e)) -> safe (try_except body handler).
Proof.
  intros Hb Hh w. unfold try_except. specialize (Hb w).
  destruct (body w) as [[a|e] w1]; cbn in *; [exact I|].
  rewrite Hb. apply Hh.
Qed.

Lemma total_try_except {A : Type} (body : M A) (handler : exn -> M A) :
  safe body -> (forall e, total (handler e)) -> total (try_except body handler).
Proof.
  intros Hb Hh w. unfold try_except. specialize (Hb w).
  destruct (body w) as [[a|e] w1]; cbn in *; [eauto|].
  rewrite Hb. apply Hh.
Qed.

Lemma total_ret {A : Type} (a : A) : total (mret a).
Proof. intros w. exists a. reflexivity. Qed.

Lemma total_bind {A B : Type} (m : M A) (f : A -> M B) :
  total m -> (forall a, total (f a)) -> total (m ≫= f).
Proof.
  intros Hm Hf w. unfold mbind, M_bind. destruct (Hm w) as [a Ha].
  destruct (m w) as [[a'|e] w1]; cbn in *; [apply Hf | discriminate].
Qed.

Lemma total_read {A : Type} (f : World -> A) : total (read f).
Proof. intros w. eexists. reflexivity. Qed.

Lemma total_modify (f : World -> World) : total (modify f).
Proof. intros w. eexists. reflexivity. Qed.

Lemma total_awaiting (c : call) : total (awaiting c).
Proof. apply total_modify. Qed.

Lemma total_machine_transition_to (ref : nat) (s : ChallengeState) :
  total (machine_transition_to ref s).
Proof.
  intros w. unfold machine_transition_to.
  destruct (machines w !! ref) as [sm|]; [|eauto].
  destruct (transition_to sm s (clock w)). eauto.
Qed.

(** Solves [total] goals by following the structure of the coroutine. *)
Ltac total_tac :=
  repeat first
    [ apply total_ret
    | apply total_read
    | apply total_modify
    | apply total_awaiting
    | apply total_machine_transition_to
    | apply total_bind; [|intros ?]
    | match goal with
      | |- total (match ?x with _ => _ end) => destruct x
      end ].

Lemma total_update_user_stats (tid a b c d : Z) :
  total (UserOps.update_user_stats tid a b c d).
Proof. unfold UserOps.update_user_stats. total_tac. Qed.

Lemma total_get_challenge (id : string) : total (ChallengeOps.get_challenge id).
Proof. unfold ChallengeOps.get_challenge. total_tac. Qed.

Lemma total_update_challenge_status (id : string) (s : ChallengeStatus.t) :
  total (ChallengeOps.update_challenge_status id s).
Proof. unfold ChallengeOps.update_challenge_status. total_tac. Qed.

Lemma total_finish_fight (id : string) (w0 : option Z) (r1 r2 : FightResult.t) :
  total (FightOps.finish_fight id w0 r1 r2).
Proof. unfold FightOps.finish_fight, utcnow. total_tac. Qed.

Lemma total_update_fight_metrics (id : string) (p : Z) (m : metrics) :
  total (FightOps.update_fight_metrics id p m).
Proof. unfold FightOps.update_fight_metrics. total_tac. Qed.

Lemma total_stop_recording (id : string) : total (RecordingManager.stop_recording id).
Proof. unfold RecordingManager.stop_recording. total_tac. Qed.

Lemma total_start_recording (id : string) (v ok : bool) :
  total (RecordingManager.start_recording id v ok).
Proof. unfold RecordingManager.start_recording. total_tac. Qed.

Lemma total_cleanup_fight (p1 p2 : Z) : total (UserbotManager.cleanup_fight p1 p2).
Proof. apply total_awaiting. Qed.

Lemma total_transition_and_discard (id : string) (s : ChallengeState) :
  total (transition_and_discard id s).
Proof. unfold transition_and_discard. total_tac. Qed.

Lemma safe_attribute {A : Type} (c : option Challenge.t) (field : Challenge.t -> A) :
  safe (attribute c field).
Proof. destruct c; intros w; exact I || reflexivity. Qed.

Lemma safe_py_gt (a b : pyval) : safe (lift (py_gt a b)).
Proof. apply safe_lift. destruct a, b; cbn; intros e H; inversion H; reflexivity. Qed.

Lemma safe_py_mul (a b : pyval) : safe (lift (py_mul a b)).
Proof. apply safe_lift. destruct a, b; cbn; intros e H; inversion H; reflexivity. Qed.

(** Solves [safe] goals by following the structure of the coroutine. *)
Ltac safe_tac :=
  repeat first
    [ apply safe_ret
    | apply safe_attribute
    | apply safe_py_gt
    | apply safe_py_mul
    | apply total_safe; first
        [ apply total_update_user_stats | apply total_get_challenge
        | apply total_update_challenge_status | apply total_finish_fight
        | apply total_stop_recording | apply total_cleanup_fight
        | apply total_transition_and_discard ]
    | apply safe_bind; [|intros ?]
    | match goal with
      | |- safe (match ?x with _ => _ end) => destruct x
      | |- safe (if ?b then _ else _) => destruct b
      end ].

Lemma total_end_fight_error (challenge_id fight_id : string) :
  total (_end_fight_error challenge_id fight_id).
Proof.
  unfold _end_fight_error. apply total_try_except; [|intros; apply total_ret].
  safe_tac.
Qed.

Lemma total_end_fight_no_show (challenge_id fight_id : string) :
  total (_end_fight_no_show challenge_id fight_id).
Proof.
  unfold _end_fight_no_show. apply total_try_except; [|intros; apply total_ret].
  safe_tac.
Qed.

(** [_end_fight_with_results] returns on every input: what its body raises
    is caught and ends in [_end_fight_error]. *)
Lemma total_end_fight_with_results (challenge_id fight_id : string) (d : Z)
    (m1 m2 : metrics) (fight_type : option FightType.t) :
  total (_end_fight_with_results challenge_id fight_id d m1 m2 fight_type).
Proof.
  unfold _end_fight_with_results.
  apply total_try_except; [|intros; apply total_end_fight_error].
  unfold determine_results, compare_and_assign, update_statistics.
  safe_tac.
Qed.


(** *** The call log of a cancelled run *)

Lemma no_cleanup_app (l1 l2 : list call) :
  no_cleanup l1 -> no_cleanup l2 -> no_cleanup (l1 ++ l2).
Proof.
  unfold no_cleanup, count. intros [A1 B1] [A2 B2].
  rewrite !List.filter_app, !length_app. lia.
Qed.

Lemma appends_no_cleanup_refl (w : World) : appends_no_cleanup w w.
Proof. exists []. split; [symmetry; apply app_nil_r | split; reflexivity]. Qed.

Lemma appends_no_cleanup_trans (w1 w2 w3 : World) :
  appends_no_cleanup w1 w2 -> appends_no_cleanup w2 w3 -> appends_no_cleanup w1 w3.
Proof.
  intros [l1 [E1 N1]] [l2 [E2 N2]]. exists (l1 ++ l2)%list. split.
  - rewrite E2, E1. symmetry. apply app_assoc.
  - apply no_cleanup_app; assumption.
Qed.

Lemma update_fight_metrics_log (fight_id : string) (p : Z) (m : metrics) (w : World) :
  exists b w', FightOps.update_fight_metrics fight_id p m w = (Ok b, w')
    /\ clock w' = clock w
    /\ calls w' = (calls w ++ [UpdateFightMetrics fight_id p])%list.
Proof.
  destruct w as [ch fi us ma ac ta re cl ca].
  unfold FightOps.update_fight_metrics. run_unfold. cbn.
  destruct (fi !! fight_id); cbn; eauto.
Qed.

(** The sampling loop calls neither [stop_recording] nor [cleanup_fight],
    and the only exception that leaves it is the cancellation. *)
Lemma sampling_loop_log (config : Config) (env : Env) (c : Challenge.t)
    (fight_id : string) (fuel : nat) :
  forall (i : nat) (d : Z) (m1 m2 : metrics) (w w' : World)
         (r : res (option (Z * metrics * metrics))),
    sampling_loop config env c fight_id fuel i d m1 m2 w = (r, w') ->
    appends_no_cleanup w w' /\ (forall e, r = Raise e -> e = CancelledError).
Proof.
  induction fuel as [|fuel IH]; intros i d m1 m2 w w' r H; cbn [sampling_loop] in H.
  - destruct (negb (d <? max_fight_duration config)%Z); cbn in H;
      injection H as <- <-; (split; [apply appends_no_cleanup_refl | discriminate]).
  - destruct (negb (d <? max_fight_duration config)%Z); cbn in H.
    { injection H as <- <-. split; [apply appends_no_cleanup_refl | discriminate]. }
    unfold sampling_sleep in H.
    destruct (bool_decide (cancelled_at env = Some i)).
    + (* the cancellation is raised at the sleep *)
      unfold mbind, M_bind, awaiting, modify, raise in H. cbn in H.
      injection H as <- <-. split.
      * exists [Sleep (monitoring_interval config)]. split; [reflexivity | split; reflexivity].
      * intros e He. injection He as <-. reflexivity.
    + unfold UserbotManager.get_fight_metrics,
        UserbotManager.are_participants_active, sleep in H.
      unfold awaiting, modify, mbind, M_bind, mret, M_ret in H.
      cbn in H.
      set (w1 := with_calls _ (with_clock _ (with_calls _ w))) in H.
      assert (appends_no_cleanup w w1) as H01.
      { exists [Sleep (monitoring_interval config);
                GetFightMetrics (Challenge.challenger_id c) (Challenge.opponent_id c)].
        split; [|split; reflexivity].
        destruct w. cbn. rewrite <- app_assoc. reflexivity. }
      destruct (fight_metrics env i) as [[n1 n2]|].
      * destruct (update_fight_metrics_log fight_id (Challenge.challenger_id c) n1 w1)
          as [b1 [w2 [E2 [_ C2]]]]. rewrite E2 in H. cbn in H.
        destruct (update_fight_metrics_log fight_id (Challenge.opponent_id c) n2 w2)
          as [b2 [w3 [E3 [_ C3]]]]. rewrite E3 in H. cbn in H.
        assert (appends_no_cleanup w1 w3) as H13.
        { exists [UpdateFightMetrics fight_id (Challenge.challenger_id c);
                  UpdateFightMetrics fight_id (Challenge.opponent_id c)].
          split; [|split; reflexivity].
          rewrite C3, C2, <- app_assoc. reflexivity. }
        set (w4 := with_calls _ w3) in H.
        assert (appends_no_cleanup w3 w4) as H34.
        { exists [AreParticipantsActive (Challenge.challenger_id c) (Challenge.opponent_id c)].
          split; [|split; reflexivity]. destruct w3. reflexivity. }
        assert (appends_no_cleanup w w4) as H04
          by (eapply appends_no_cleanup_trans; [exact H01|];
              eapply appends_no_cleanup_trans; eassumption).
        destruct (negb (participants_active env i)).
        -- injection H as <- <-. split; [exact H04 | discriminate].
        -- apply IH in H as [Hlog Hexn]. split; [|exact Hexn].
           eapply appends_no_cleanup_trans; eassumption.
      * cbn in H.
        set (w4 := with_calls _ w1) in H.
        assert (appends_no_cleanup w1 w4) as H14.
        { exists [AreParticipantsActive (Challenge.challenger_id c) (Challenge.opponent_id c)].
          split; [|split; reflexivity]. destruct w1. reflexivity. }
        assert (appends_no_cleanup w w4) as H04
          by (eapply appends_no_cleanup_trans; eassumption).
        destruct (negb (participants_active env i)).
        -- injection H as <- <-. split; [exact H04 | discriminate].
        -- apply IH in H as [Hlog Hexn]. split; [|exact Hexn].
           eapply appends_no_cleanup_trans; eassumption.
Qed.


Lemma total_run {A : Type} (m : M A) (w : World) :
  total m -> exists a w', m w = (Ok a, w').
Proof.
  intros H. destruct (H w) as [a Ha]. destruct (m w) as [r w'] eqn:E.
  cbn in Ha. subst r. eauto.
Qed.

(** A run of the monitoring routine that ends in an exception was
    cancelled in the sampling loop, and has called neither
    [stop_recording] nor [cleanup_fight]. *)
Lemma monitor_raise_log (config : Config) (env : Env) (fuel : nat)
    (challenge_id fight_id : string) (w w' : World) (e : exn) :
  _monitor_fight config env fuel challenge_id fight_id w = (Raise e, w') ->
  e = CancelledError /\ appends_no_cleanup w w'.
Proof.
  unfold _monitor_fight, Runtime.try_except.
  match goal with
  | |- (let (_, _) := ?b w in _) = _ -> _ => destruct (b w) as [[a|e0] wb] eqn:Hb
  end; [discriminate|].
  destruct (is_Exception e0) eqn:He0.
  { destruct (total_run (_end_fight_error challenge_id fight_id ≫= fun _ => mret Completed) wb)
      as [a [w2 E]].
    - apply total_bind; [apply total_end_fight_error | intros; apply total_ret].
    - rewrite E. discriminate. }
  intros H. injection H as <- <-.
  revert Hb.
  unfold ChallengeOps.get_challenge, UserbotManager.check_participants_joined, sleep.
  unfold awaiting, read, modify, mbind, M_bind, mret, M_ret. cbn.
  destruct (challenges w !! challenge_id) as [c|]; [|destruct w; discriminate].
  destruct w as [ch fi us ma ac ta re cl ca]. cbn.
  destruct (ac !! challenge_id) as [ref|]; [|discriminate]. cbn.
  destruct (participants_joined env); cbn.
  - (* the participants joined *)
    match goal with
    | |- context [machine_transition_to ref FIGHT_ACTIVE ?w0] =>
        destruct (total_run (machine_transition_to ref FIGHT_ACTIVE) w0
                    (total_machine_transition_to _ _)) as [b [w1 E1]];
        assert (calls w1 = calls w0) as C1
    end.
    { revert E1. unfold machine_transition_to. cbn.
      destruct (ma !! ref) as [sm|]; [|intros H; injection H as _ <-; reflexivity].
      destruct (transition_to sm FIGHT_ACTIVE _).
      intros H; injection H as _ <-; reflexivity. }
    rewrite E1. cbn in C1.
    assert (exists b2 w2,
      RecordingManager.start_recording fight_id
        (bool_decide (Challenge.fight_type c = Some FightType.VOLUME))
        (recording_started env) w1 = (Ok b2, w2)
      /\ calls w2 = (calls w1 ++ [StartRecording fight_id
           (bool_decide (Challenge.fight_type c = Some FightType.VOLUME))])%list)
      as [b2 [w2 [E2 C2]]].
    { unfold RecordingManager.start_recording, awaiting, modify, mbind, M_bind, mret, M_ret.
      destruct w1. cbn. destruct (recording_started env); cbn; eauto. }
    rewrite E2.
    destruct (sampling_loop config env c fight_id fuel 0 0 initial_metrics initial_metrics w2)
      as [[exit|e1] w3] eqn:E3.
    + destruct exit as [[[d n1] n2]|]; [|discriminate].
      destruct (total_run (_end_fight_with_results challenge_id fight_id d n1 n2
                             (Challenge.fight_type c)) w3
                  (total_end_fight_with_results _ _ _ _ _ _)) as [u [w4 E4]].
      rewrite E4. discriminate.
    + apply sampling_loop_log in E3 as [[l [Hl Nl]] Hexn].
      intros H. injection H as <- <-.
      split; [apply Hexn; reflexivity|].
      exists ([GetChallenge challenge_id; Sleep (challenge_timeout config);
               CheckParticipantsJoined (Challenge.challenger_id c) (Challenge.opponent_id c);
               StartRecording fight_id
                 (bool_decide (Challenge.fight_type c = Some FightType.VOLUME))] ++ l)%list.
      split.
      * rewrite Hl, C2, C1. cbn. rewrite <- !app_assoc. reflexivity.
      * apply no_cleanup_app; [split; reflexivity | exact Nl].
  - (* nobody joined: the no-show path returns *)
    match goal with
    | |- context [_end_fight_no_show challenge_id fight_id ?w0] =>
        destruct (total_run (_end_fight_no_show challenge_id fight_id) w0
                    (total_end_fight_no_show _ _)) as [u [w1 E1]]
    end.
    rewrite E1. discriminate.
Qed.


Lemma cancel_challenge_log (challenge_id : string) (w : World) :
  exists w', cancel_challenge challenge_id w = (Ok true, w')
    /\ calls w' = (calls w ++ [UpdateChallengeStatus challenge_id ChallengeStatus.CANCELLED])%list
    /\ active_recordings w' = active_recordings w
    /\ _active_challenges w' !! challenge_id = None.
Proof.
  destruct w as [ch fi us ma ac ta re cl ca].
  run_unfold. run.
  all: eexists; (split; [reflexivity|]); cbn; repeat split;
    first [apply lookup_delete_eq | assumption].
Qed.

(** C9.  When the monitoring routine is cancelled in its sampling loop, in
    whichever iteration, the cancellation leaves the routine without
    passing through any handler, and [cancel_challenge] itself only marks
    the challenge and discards the state machine: between the start of the
    routine and the end of [cancel_challenge] there is no call of
    [stop_recording] and no call of [cleanup_fight] -- not one of each, as
    the claim requires. *)
Theorem cancellation_skips_cleanup (config : Config) (env : Env) (fuel : nat)
    (challenge_id fight_id : string) (w w1 w2 : World) (r : res bool) :
  _monitor_fight config env fuel challenge_id fight_id w = (Raise CancelledError, w1) ->
  cancel_challenge challenge_id w1 = (r, w2) ->
  r = Ok true
  /\ count is_stop_recording (calls w2) = count is_stop_recording (calls w)
  /\ count is_release (calls w2) = count is_release (calls w).
Proof.
  intros Hm Hc.
  apply monitor_raise_log in Hm as [_ [l [Hl [Ns Nr]]]].
  destruct (cancel_challenge_log challenge_id w1) as [w2' [E [C _]]].
  rewrite E in Hc. injection Hc as <- <-.
  split; [reflexivity|].
  rewrite C, Hl. unfold count in *.
  rewrite !List.filter_app, !length_app, Ns, Nr. cbn. lia.
Qed.

(** A cancellation in the third sampling iteration of the example fight:
    the recording that was started is never stopped, the agents are never
    released. *)
Lemma cancellation_skips_cleanup_witness :
  let w := world0 (Some FightType.TIMING) PARTICIPANTS_JOINING in
  let w1 := snd (_monitor_fight config0 (env0 true (Some 2%nat)) 100 "c1" "f1" w) in
  let w2 := snd (cancel_challenge "c1" w1) in
  count is_stop_recording (calls w2) = 0%nat
  /\ count is_release (calls w2) = 0%nat
  /\ "f1" ∈ active_recordings w2.
Proof.
  intros w w1 w2.
  destruct (cancellation_skips_cleanup config0 (env0 true (Some 2%nat)) 100 "c1" "f1"
              w w1 w2 (fst (cancel_challenge "c1" w1)))
    as [_ [Hs Hr]].
  - vm_compute. reflexivity.
  - apply surjective_pairing.
  - split; [exact Hs|]. split; [exact Hr|].
    vm_compute. reflexivity.
Defined.

(** C6, as stated, fails: on the no-show path of the example fight the
    state machine is left in PARTICIPANTS_JOINING, not FIGHT_FINISHED, and
    the persisted duration is still 0, not the deadline of 30. *)
Lemma no_show_counterexample :
  let w := world0 (Some FightType.TIMING) PARTICIPANTS_JOINING in
  let w' := snd (_monitor_fight config0 (env0 false None) 100 "c1" "f1" w) in
  (current_state <$> machines w' !! 0%nat) = Some PARTICIPANTS_JOINING
  /\ (current_state <$> machines w' !! 0%nat) <> Some FIGHT_FINISHED
  /\ (Fight.duration <$> fights w' !! "f1") = Some 0
  /\ (Fight.duration <$> fights w' !! "f1") <> Some (challenge_timeout config0).
Proof. vm_compute. repeat split; try reflexivity; discriminate. Qed.


(** The amended C6 on the example fight. *)
Lemma no_show_path_witness :
  let w := world0 (Some FightType.TIMING) PARTICIPANTS_JOINING in
  let w' := snd (_monitor_fight config0 (env0 false None) 100 "c1" "f1" w) in
  (Challenge.status <$> challenges w' !! "c1") = Some ChallengeStatus.COMPLETED
  /\ _active_challenges w' !! "c1" = None
  /\ machines w' !! 0%nat = Some (init PARTICIPANTS_JOINING 0).
Proof.
  intros w w'.
  destruct (no_show_path config0 (env0 false None) 100 "c1" "f1" w w'
              (fst (_monitor_fight config0 (env0 false None) 100 "c1" "f1" w))
              (challenge0 (Some FightType.TIMING)) fight0 0%nat
              (init PARTICIPANTS_JOINING 0)
              eq_refl eq_refl eq_refl eq_refl eq_refl (surjective_pairing _))
    as [_ [_ [Hs [Ha [_ [Hm _]]]]]].
  split; [exact Hs|]. split; [exact Ha|]. apply Hm. reflexivity.
Defined.


(** The amended C8 on a machine in state SENT, 91 seconds after it entered
    that state, with an acceptance timeout of 30. *)
Lemma expire_old_challenges_discards_witness :
  let w := with_clock (fun _ => 91000000) (world0 None SENT) in
  let w' := snd (expire_old_challenges config0 w) in
  _active_challenges w' !! "c1" = None
  /\ (current_state <$> machines w' !! 0%nat) = Some EXPIRED.
Proof.
  intros w w'.
  destruct (expire_old_challenges_discards config0 w w'
              (fst (expire_old_challenges config0 w)) "c1" 0%nat (init SENT 0)
              eq_refl eq_refl eq_refl (surjective_pairing _))
    as [_ [Ha [_ [He _]]]].
  split; [exact Ha|]. apply He. apply list_elem_of_here.
Defined.

End ManagerFacts.

(* ===================================================================== *)
(** * Further properties of the state machine *)
(* ===================================================================== *)

Module StateMachineQueriesFacts.
Import StateMachine StateMachineQueries.

(** X1.  A machine reports a terminal state exactly in DECLINED,
    FIGHT_FINISHED, EXPIRED and CANCELLED, and that is exactly when every
    [transition_to], whatever the target and the time, is rejected and
    leaves the machine as it is. *)
Theorem terminal_iff_all_rejected (sm : ChallengeStateMachine) :
  (is_terminal_state sm = true <-> terminal (current_state sm))
  /\ (is_terminal_state sm = true <->
      forall T now, transition_to sm T now = (false, sm)).
Proof.
  destruct sm as [s h]. unfold terminal, is_terminal_state. cbn. split.
  - destruct s; cbn; split; intros H; try reflexivity; try discriminate;
      try (repeat (destruct H as [H|H]; try discriminate)); auto 6.
  - split.
    + intros H T now. destruct s; try discriminate H; reflexivity.
    + intros H. destruct s; try reflexivity.
      * specialize (H CANCELLED 0); discriminate H.
      * specialize (H CANCELLED 0); discriminate H.
      * specialize (H CANCELLED 0); discriminate H.
      * specialize (H CANCELLED 0); discriminate H.
      * specialize (H CANCELLED 0); discriminate H.
      * specialize (H CANCELLED 0); discriminate H.
Qed.

(** X2.  A challenge can be cancelled from every state that is not
    terminal, and from no other; [is_active] holds exactly in the states
    that are neither terminal nor CREATED. *)
Theorem cancellable_iff_not_terminal (sm : ChallengeStateMachine) (now : datetime) :
  (fst (transition_to sm CANCELLED now) = true <-> is_terminal_state sm = false)
  /\ (is_active sm = true <->
      is_terminal_state sm = false /\ current_state sm <> CREATED).
Proof.
  destruct sm as [s h].
  destruct s; vm_compute; intuition (discriminate || congruence).
Qed.


Lemma edge_rank (S T : ChallengeState) :
  T ∈ VALID_TRANSITIONS S -> (rank S < rank T)%nat.
Proof.
  intros H. apply StateMachineFacts.VALID_TRANSITIONS_edge in H.
  destruct S, T; cbn in H; try discriminate H; cbn; lia.
Qed.

Lemma rank_le_6 (S : ChallengeState) : (rank S <= 6)%nat.
Proof. destruct S; cbn; lia. Qed.

Lemma chained_snoc (l : list ChallengeState) (s t : ChallengeState) :
  chained (l ++ [s]) -> t ∈ VALID_TRANSITIONS s -> chained ((l ++ [s]) ++ [t]).
Proof.
  induction l as [|a l IH]; intros Hc Ht.
  - cbn. auto.
  - destruct l as [|b l].
    + cbn in *. destruct Hc as [Hab _]. auto.
    + cbn in Hc. destruct Hc as [Hab Hc]. cbn. split; [exact Hab|].
      apply IH; assumption.
Qed.

Lemma well_formed_init (S : ChallengeState) (t0 : datetime) : well_formed (init S t0).
Proof. split; [exists [], t0; reflexivity | exact I]. Qed.

Lemma well_formed_step (sm : ChallengeStateMachine) (T : ChallengeState) (now : datetime) :
  well_formed sm -> well_formed (snd (transition_to sm T now)).
Proof.
  intros [[h [t Hh]] Hc].
  destruct (can_transition_to sm T) eqn:E;
    [rewrite (StateMachineFacts.transition_to_accepted _ _ _ E)
    |rewrite (StateMachineFacts.transition_to_rejected _ _ _ E); split; eauto].
  cbn [snd].
  unfold can_transition_to in E. apply bool_decide_eq_true in E.
  split.
  - exists (state_history sm), now. reflexivity.
  - cbn [state_history]. rewrite Hh in *. rewrite !fmap_app in *.
    change ([(current_state sm, t)].*1) with [current_state sm] in *.
    change ([(T, now)].*1) with [T].
    apply chained_snoc; assumption.
Qed.

Lemma transitions_well_formed (steps : list (ChallengeState * datetime)) :
  forall sm, well_formed sm -> well_formed (transitions sm steps).
Proof.
  induction steps as [|x steps IH]; intros sm H; [exact H|].
  cbn. apply IH. apply well_formed_step. exact H.
Qed.

Lemma head_step (sm : ChallengeStateMachine) (T : ChallengeState) (now : datetime) :
  state_history sm <> [] ->
  head (state_history (snd (transition_to sm T now))) = head (state_history sm)
  /\ state_history (snd (transition_to sm T now)) <> [].
Proof.
  intros H.
  destruct (can_transition_to sm T) eqn:E;
    [rewrite (StateMachineFacts.transition_to_accepted _ _ _ E)
    |rewrite (StateMachineFacts.transition_to_rejected _ _ _ E); auto].
  cbn [snd state_history].
  destruct (state_history sm); [contradiction|]. cbn. split; [reflexivity | discriminate].
Qed.

Lemma transitions_head (steps : list (ChallengeState * datetime)) :
  forall sm, state_history sm <> [] ->
    head (state_history (transitions sm steps)) = head (state_history sm).
Proof.
  induction steps as [|x steps IH]; intros sm H; [reflexivity|].
  change (transitions sm (x :: steps))
    with (transitions (snd (transition_to sm x.1 x.2)) steps).
  destruct (head_step sm x.1 x.2 H) as [Hh Hne].
  rewrite IH by exact Hne. exact Hh.
Qed.

(** X3.  Whatever transitions are asked of a machine after its creation,
    in whatever order, its history starts with the initial state, ends with
    the current state, and every two consecutive entries are joined by an
    edge of the table: rejected requests leave no trace. *)
Theorem history_is_a_path (S : ChallengeState) (t0 : datetime)
    (steps : list (ChallengeState * datetime)) :
  head (get_state_history (transitions (init S t0) steps)) = Some (S, t0)
  /\ (exists t, last (get_state_history (transitions (init S t0) steps))
                = Some (get_current_state (transitions (init S t0) steps), t))
  /\ chained (get_state_history (transitions (init S t0) steps)).*1.
Proof.
  unfold get_state_history, get_current_state.
  split; [rewrite transitions_head; [reflexivity | discriminate]|].
  destruct (transitions_well_formed steps (init S t0) (well_formed_init S t0))
    as [[h [t Hh]] Hc].
  split; [|exact Hc].
  exists t. rewrite Hh. apply last_snoc.
Qed.

Lemma chained_bound (l : list ChallengeState) :
  forall s, chained (s :: l) ->
    (length (s :: l) + rank s <= 7)%nat
    /\ NoDup (s :: l)
    /\ Forall (fun t => (rank s < rank t)%nat) l.
Proof.
  induction l as [|t l IH]; intros s Hc.
  - cbn. pose proof (rank_le_6 s). split; [lia|]. split; [|constructor].
    apply NoDup_singleton.
  - cbn in Hc. destruct Hc as [Hst Hc]. apply edge_rank in Hst.
    destruct (IH t Hc) as [Hlen [Hnd Hall]].
    assert (Forall (fun u => (rank s < rank u)%nat) (t :: l)) as Hall'.
    { constructor; [exact Hst|]. eapply Forall_impl; [exact Hall|].
      cbn. intros u Hu. lia. }
    split; [cbn in *; lia|]. split; [|exact Hall'].
    apply NoDup_cons. split; [|exact Hnd].
    intros Hin. rewrite Forall_forall in Hall'. specialize (Hall' s Hin). lia.
Qed.

(** X4.  The table has no cycle: a machine never enters a state twice, and
    its history never holds more than seven entries (six accepted
    transitions), however many transitions are asked of it. *)
Theorem history_never_repeats (S : ChallengeState) (t0 : datetime)
    (steps : list (ChallengeState * datetime)) :
  NoDup (get_state_history (transitions (init S t0) steps)).*1
  /\ (length (get_state_history (transitions (init S t0) steps)) + rank S <= 7)%nat.
Proof.
  unfold get_state_history.
  assert (head (state_history (transitions (init S t0) steps)) = Some (S, t0)) as Hhead
    by (rewrite transitions_head; [reflexivity | discriminate]).
  destruct (transitions_well_formed steps (init S t0) (well_formed_init S t0))
    as [_ Hc].
  destruct (state_history (transitions (init S t0) steps)) as [|[s t] h];
    [discriminate|].
  cbn in Hhead. injection Hhead as -> ->.
  cbn [fmap list_fmap] in Hc. cbn [fst] in Hc.
  destruct (chained_bound (h.*1) S Hc) as [Hlen [Hnd _]].
  split; [exact Hnd|]. cbn in *. rewrite length_fmap in Hlen. exact Hlen.
Qed.


Lemma times_step (P : datetime -> Prop) (sm : ChallengeStateMachine)
    (T : ChallengeState) (now : datetime) :
  Forall P (state_history sm).*2 -> P now ->
  Forall P (state_history (snd (transition_to sm T now))).*2.
Proof.
  intros H Hn.
  destruct (can_transition_to sm T) eqn:E;
    [rewrite (StateMachineFacts.transition_to_accepted _ _ _ E)
    |rewrite (StateMachineFacts.transition_to_rejected _ _ _ E); exact H].
  cbn [snd state_history]. rewrite fmap_app. apply Forall_app. split; [exact H|].
  constructor; [exact Hn | constructor].
Qed.

Lemma transitions_times (P : datetime -> Prop)
    (steps : list (ChallengeState * datetime)) :
  forall sm, Forall P (state_history sm).*2 -> Forall (fun step => P step.2) steps ->
    Forall P (state_history (transitions sm steps)).*2.
Proof.
  induction steps as [|x steps IH]; intros sm H Hs; [exact H|].
  change (transitions sm (x :: steps))
    with (transitions (snd (transition_to sm x.1 x.2)) steps).
  apply Forall_cons in Hs as [Hx Hs].
  apply IH; [|exact Hs]. apply times_step; assumption.
Qed.

(** X5.  When every transition is asked at a time between the creation of
    the machine and now, the time spent in the current state is not
    negative and never exceeds the total duration since creation. *)
Theorem dwell_within_lifetime (S : ChallengeState) (t0 now : datetime)
    (steps : list (ChallengeState * datetime)) :
  t0 <= now ->
  Forall (fun step => t0 <= step.2 <= now) steps ->
  0 <= get_time_in_state (transitions (init S t0) steps) now
    <= get_total_duration (transitions (init S t0) steps) now.
Proof.
  intros Hnow Hsteps.
  assert (head (state_history (transitions (init S t0) steps)) = Some (S, t0)) as Hhead
    by (rewrite transitions_head; [reflexivity | discriminate]).
  destruct (transitions_well_formed steps (init S t0) (well_formed_init S t0))
    as [[h0 [t Hh0]] _].
  assert (last (state_history (transitions (init S t0) steps))
          = Some (current_state (transitions (init S t0) steps), t)) as Hlast
    by (rewrite Hh0; apply last_snoc).
  clear Hh0.
  assert (Forall (fun u => t0 <= u <= now)
            (state_history (transitions (init S t0) steps)).*2) as Hall.
  { apply transitions_times; [|exact Hsteps].
    cbn. constructor; [cbn; lia | constructor]. }
  unfold get_time_in_state, get_total_duration, whole_seconds.
  rewrite Hlast.
  destruct (state_history (transitions (init S t0) steps)) as [|[s u] h] eqn:Hh;
    [discriminate|].
  cbn in Hhead. injection Hhead as -> ->.
  assert (t0 <= t <= now) as Ht.
  { rewrite Forall_forall in Hall. apply Hall.
    apply last_Some in Hlast as [l' Hl']. rewrite Hl'.
    rewrite fmap_app. apply elem_of_app. right. cbn. apply list_elem_of_here. }
  split.
  - apply Z.quot_pos; lia.
  - apply Z.quot_le_mono; lia.
Qed.

(** The lifetime bound on a machine created at second 0, accepted at second
    10 and read at second 25. *)
Lemma dwell_within_lifetime_witness :
  0 <= get_time_in_state
         (transitions (init CREATED 0) [(SENT, 0); (ACCEPTED, 10000000)]) 25000000
    <= get_total_duration
         (transitions (init CREATED 0) [(SENT, 0); (ACCEPTED, 10000000)]) 25000000.
Proof.
  apply (dwell_within_lifetime CREATED 0 25000000 [(SENT, 0); (ACCEPTED, 10000000)]).
  - lia.
  - repeat constructor; cbn; lia.
Defined.

(** X6.  [from_state_string] gives back the machine of the state whose
    value it is handed, for each of the ten states, and a fresh machine in
    CREATED for every string that is no state's value; the value of a state
    is matched exactly, an upper-case name is not. *)
Theorem from_state_string_round_trip (now : datetime) :
  (forall S, from_state_string (value S) now = init S now)
  /\ (forall str, (forall S, value S <> str) ->
        from_state_string str now = init CREATED now)
  /\ from_state_string "SENT" now = init CREATED now.
Proof.
  split; [intros S; destruct S; reflexivity|].
  split; [|reflexivity].
  intros str H. unfold from_state_string.
  destruct (of_value str) as [S|] eqn:E; [|reflexivity].
  unfold of_value in E. apply find_some in E as [_ E].
  apply bool_decide_eq_true in E. exfalso. exact (H S E).
Qed.

End StateMachineQueriesFacts.

(* ===================================================================== *)
(** * Further properties of winner detection *)
(* ===================================================================== *)

Module WinnerReportsFacts.
Import Py WinnerDetector WinnerReports Spec Examples.
Import WinnerDetectorFacts.
Local Open Scope Q_scope.
Local Open Scope string_scope.




End WinnerReportsFacts.

(* ===================================================================== *)
(** * Properties of the callback data *)
(* ===================================================================== *)

Module CallbackDataFacts.
Import CallbackData.
Local Open Scope string_scope.



Lemma underscore_code : Ascii.nat_of_ascii underscore = 95%nat.
Proof. reflexivity. Qed.


Lemma split_nonempty (sep : Ascii.ascii) (s : string) (n : nat) :
  split sep n s <> [].
Proof.
  revert n. induction s as [|c s IH]; intros [|n]; cbn; try discriminate.
  destruct (bool_decide (c = sep)); [discriminate|].
  destruct (split sep (S n) s); discriminate.
Qed.






End CallbackDataFacts.

(* ===================================================================== *)
(** * Properties of the pool of userbots *)
(* ===================================================================== *)

Module UserbotPoolFacts.
Import UserbotPool.

Lemma dict_set_elem (key : string) (value : nat) (d : list (string * nat)) (kv : string * nat) :
  kv ∈ dict_set key value d -> kv = (key, value) \/ kv ∈ d.
Proof.
  induction d as [|[k v] d IH]; cbn.
  - intros H. apply list_elem_of_singleton in H. left. exact H.
  - destruct (bool_decide (k = key)).
    + intros H. apply elem_of_cons in H as [H|H]; [left; exact H|].
      right. apply list_elem_of_further. exact H.
    + intros H. apply elem_of_cons in H as [H|H].
      * right. rewrite H. apply list_elem_of_here.
      * destruct (IH H) as [?|?]; [left; assumption|].
        right. apply list_elem_of_further. assumption.
Qed.

Lemma dict_set_registered (key : string) (value : nat) (d : list (string * nat)) :
  (key, value) ∈ dict_set key value d.
Proof.
  induction d as [|[k v] d IH]; cbn.
  - apply list_elem_of_here.
  - destruct (bool_decide (k = key)).
    + apply list_elem_of_here.
    + apply list_elem_of_further. exact IH.
Qed.

Lemma dict_set_keys (key : string) (value : nat) (d : list (string * nat)) :
  NoDup d.*1 -> NoDup (dict_set key value d).*1.
Proof.
  induction d as [|[k v] d IH]; cbn; intros H.
  - apply NoDup_singleton.
  - apply NoDup_cons in H as [Hk Hd].
    destruct (bool_decide (k = key)) eqn:E; cbn.
    + apply bool_decide_eq_true in E. subst k. apply NoDup_cons. split; assumption.
    + apply bool_decide_eq_false in E. apply NoDup_cons. split; [|apply IH; exact Hd].
      intros Hin. apply list_elem_of_fmap in Hin as [[k' v'] [Hk' Hin]]. cbn in Hk'. subst k'.
      apply dict_set_elem in Hin as [Hin|Hin].
      * injection Hin as -> _. contradiction.
      * apply Hk. apply list_elem_of_fmap. exists (k, v'). split; [reflexivity|exact Hin].
Qed.

Lemma dict_set_values (key : string) (value : nat) (d : list (string * nat)) :
  NoDup d.*2 -> value ∉ d.*2 -> NoDup (dict_set key value d).*2.
Proof.
  induction d as [|[k v] d IH]; cbn; intros H Hv.
  - apply NoDup_singleton.
  - apply NoDup_cons in H as [Hk Hd].
    apply not_elem_of_cons in Hv as [Hne Hv].
    destruct (bool_decide (k = key)) eqn:E; cbn.
    + apply NoDup_cons. split; assumption.
    + apply NoDup_cons. split; [|apply IH; assumption].
      intros Hin. apply list_elem_of_fmap in Hin as [[k' v'] [Hk' Hin]]. cbn in Hk'. subst v'.
      apply dict_set_elem in Hin as [Hin|Hin].
      * injection Hin as _ ->. contradiction.
      * apply Hk. apply list_elem_of_fmap. exists (k', v). split; [reflexivity|exact Hin].
Qed.

(** X11.  [assign_userbot_to_fight] on a consistent pool.  It answers
    [True] exactly when a userbot is available and joins the voice chat;
    then the first available userbot has left the pool, is registered under
    the fight identifier and monitors that fight.  When it answers [False]
    no fight is registered or dropped and no userbot is lost: the userbot
    whose join failed is back in the pool, at its end.  The pool stays
    consistent either way. *)
Theorem assign_userbot_to_fight_outcome (joined : bool) (fight_id : string) (p : t) :
  consistent p ->
  let ok := fst (assign_userbot_to_fight joined fight_id p) in
  let p' := snd (assign_userbot_to_fight joined fight_id p) in
  consistent p'
  /\ (ok = true <-> joined = true /\ available_userbots p <> [])
  /\ (ok = true ->
      exists userbot,
        available_userbots p = userbot :: available_userbots p'
        /\ (fight_id, userbot) ∈ active_fights p'
        /\ current_fight_id p' !! userbot = Some fight_id)
  /\ (ok = false ->
      active_fights p' = active_fights p
      /\ current_fight_id p' = current_fight_id p
      /\ available_userbots p' ≡ₚ available_userbots p).
Proof.
  intros [Hav [Hkeys [Hvals Hreg]]].
  destruct p as [av af cf]. cbn in *.
  unfold assign_userbot_to_fight, get_available_userbot. cbn.
  destruct av as [|bot rest]; cbn.
  { split; [repeat split; assumption|].
    split; [split; [discriminate | intros [_ H]; contradiction]|].
    split; [discriminate|]. intros _. repeat split; reflexivity. }
  apply NoDup_cons in Hav as [Hbot Hrest].
  assert (Hfree : bot ∉ af.*2).
  { intros Hin. apply list_elem_of_fmap in Hin as [[k v] [Hv Hin]]. cbn in Hv. subst v.
    rewrite Forall_forall in Hreg. destruct (Hreg _ Hin) as [_ Hn]. cbn in Hn.
    apply Hn. apply list_elem_of_here. }
  destruct joined; cbn.
  - split.
    { repeat split; cbn.
      - exact Hrest.
      - apply dict_set_keys. exact Hkeys.
      - apply dict_set_values; assumption.
      - apply Forall_forall. intros [k v] Hin. cbn.
        apply dict_set_elem in Hin as [Hin|Hin].
        + injection Hin as -> ->. split; [apply lookup_insert_eq | exact Hbot].
        + rewrite Forall_forall in Hreg. destruct (Hreg _ Hin) as [Hc Hn]. cbn in Hc, Hn.
          assert (v <> bot).
          { intros ->. apply Hn. apply list_elem_of_here. }
          split.
          * rewrite lookup_insert_ne by congruence. exact Hc.
          * intros Hv. apply Hn. apply list_elem_of_further. exact Hv. }
    split; [split; [intros _; split; [reflexivity|discriminate] | reflexivity]|].
    split; [|discriminate].
    intros _. exists bot. split; [reflexivity|].
    split; [apply dict_set_registered | apply lookup_insert_eq].
  - unfold release_userbot. cbn.
    rewrite bool_decide_eq_false_2 by exact Hbot. cbn.
    split.
    { repeat split; cbn; try assumption.
      - apply NoDup_app. split; [exact Hrest|]. split; [|apply NoDup_singleton].
        intros x Hx Hx'. apply list_elem_of_singleton in Hx'. subst x. contradiction.
      - apply Forall_forall. intros [k v] Hin. cbn.
        rewrite Forall_forall in Hreg. destruct (Hreg _ Hin) as [Hc Hn]. cbn in Hc, Hn.
        split; [exact Hc|].
        intros Hv. apply Hn. apply elem_of_app in Hv as [Hv|Hv].
        + apply list_elem_of_further. exact Hv.
        + apply list_elem_of_singleton in Hv. subst v. apply list_elem_of_here. }
    split; [split; [discriminate | intros [H _]; discriminate]|].
    split; [discriminate|].
    intros _. repeat split. symmetry. apply Permutation_cons_append.
Qed.

Lemma consistent_example :
  consistent (mk [1; 2]%nat [("f1"%string, 7%nat)] {[ 7%nat := "f1"%string ]}).
Proof.
  repeat split; cbn.
  - apply NoDup_cons. split; [|apply NoDup_singleton].
    intros Hin. apply list_elem_of_singleton in Hin. discriminate.
  - apply NoDup_singleton.
  - apply NoDup_singleton.
  - apply Forall_singleton. cbn. split; [reflexivity|].
    intros Hin. apply elem_of_cons in Hin as [Hin|Hin]; [discriminate|].
    apply list_elem_of_singleton in Hin. discriminate.
Qed.

Lemma assign_userbot_to_fight_outcome_witness :
  let p := mk [1; 2]%nat [("f1"%string, 7%nat)] {[ 7%nat := "f1"%string ]} in
  consistent p
  /\ consistent (snd (assign_userbot_to_fight true "f2" p))
  /\ consistent (snd (assign_userbot_to_fight false "f2" p)).
Proof.
  split; [exact consistent_example|].
  split.
  - exact (proj1 (assign_userbot_to_fight_outcome true "f2" _ consistent_example)).
  - exact (proj1 (assign_userbot_to_fight_outcome false "f2" _ consistent_example)).
Defined.

(** The first loop of [cleanup_fight] over fights whose userbots are
    distinct, monitoring and not available. *)
Lemma cleanup_loop_run (items : list (string * nat)) :
  forall (av : list nat) (af : list (string * nat)) (cf : gmap nat string)
         (acc : list string),
    NoDup items.*2 ->
    Forall (fun kv => is_Some (cf !! kv.2) /\ kv.2 ∉ av) items ->
    exists cf',
      cleanup_loop items (mk av af cf) acc = (mk (av ++ items.*2) af cf', acc ++ items.*1)
      /\ (forall userbot, cf' !! userbot
                          = if decide (userbot ∈ items.*2) then None else cf !! userbot).
Proof.
  induction items as [|[fid bot] items IH]; intros av af cf acc Hnd Hall.
  - exists cf. cbn. rewrite !app_nil_r. split; [reflexivity|].
    intros userbot. rewrite decide_False; [reflexivity|]. intros H; inversion H.
  - cbn in Hnd. apply NoDup_cons in Hnd as [Hbot Hnd].
    apply Forall_cons in Hall as [[Hmon Hfree] Hall]. cbn in Hmon, Hfree.
    cbn [cleanup_loop]. unfold is_monitoring_fight. cbn.
    rewrite bool_decide_eq_true_2 by exact Hmon.
    unfold release_userbot. cbn. rewrite bool_decide_eq_false_2 by exact Hfree. cbn.
    destruct (IH (av ++ [bot]) af (delete bot cf) (acc ++ [fid]) Hnd) as [cf' [Hrun Hcf]].
    { apply Forall_forall. intros [k v] Hin. cbn.
      rewrite Forall_forall in Hall. destruct (Hall _ Hin) as [Hm Hf]. cbn in Hm, Hf.
      assert (v <> bot).
      { intros ->. apply Hbot. apply list_elem_of_fmap. exists (k, bot).
        split; [reflexivity|exact Hin]. }
      split.
      - rewrite lookup_delete_ne by congruence. exact Hm.
      - intros Hv. apply elem_of_app in Hv as [Hv|Hv]; [contradiction|].
        apply list_elem_of_singleton in Hv. contradiction. }
    exists cf'. split.
    + rewrite Hrun. cbn. rewrite <- !app_assoc. reflexivity.
    + intros userbot. rewrite Hcf. cbn.
      destruct (decide (userbot ∈ items.*2)) as [H|H].
      * rewrite decide_True by (apply list_elem_of_further; exact H). reflexivity.
      * destruct (decide (userbot = bot)) as [->|Hne].
        -- rewrite decide_True by apply list_elem_of_here. apply lookup_delete_eq.
        -- rewrite decide_False.
           ++ apply lookup_delete_ne. congruence.
           ++ intros Hc. apply elem_of_cons in Hc as [?|?]; contradiction.
Qed.

(** The second loop of [cleanup_fight]. *)
Lemma delete_loop_run (keys : list string) :
  forall (av : list nat) (af : list (string * nat)) (cf : gmap nat string),
    fold_left (fun p fight_id =>
                 mk (available_userbots p) (dict_del fight_id (active_fights p))
                    (current_fight_id p)) keys (mk av af cf)
    = mk av (List.filter (fun kv => negb (bool_decide (kv.1 ∈ keys))) af) cf.
Proof.
  induction keys as [|k keys IH]; intros av af cf; cbn.
  - f_equal. induction af as [|kv af IHaf]; [reflexivity|]. cbn.
    rewrite bool_decide_eq_false_2 by (intros H; inversion H). cbn.
    f_equal. exact IHaf.
  - rewrite IH. f_equal. unfold dict_del.
    induction af as [|kv af IHaf]; [reflexivity|]. cbn.
    destruct (bool_decide (kv.1 = k)) eqn:E; cbn.
    + apply bool_decide_eq_true in E.
      rewrite (bool_decide_eq_true_2 (kv.1 ∈ k :: keys))
        by (rewrite E; apply list_elem_of_here).
      cbn. exact IHaf.
    + apply bool_decide_eq_false in E.
      destruct (bool_decide (kv.1 ∈ keys)) eqn:E'; cbn.
      * apply bool_decide_eq_true in E'.
        rewrite (bool_decide_eq_true_2 (kv.1 ∈ k :: keys))
          by (apply list_elem_of_further; exact E').
        cbn. exact IHaf.
      * apply bool_decide_eq_false in E'.
        rewrite (bool_decide_eq_false_2 (kv.1 ∈ k :: keys)).
        -- cbn. f_equal. exact IHaf.
        -- intros Hc. apply elem_of_cons in Hc as [?|?]; contradiction.
Qed.

Lemma filter_own_keys (af : list (string * nat)) (keys : list string) :
  (forall kv, kv ∈ af -> kv.1 ∈ keys) ->
  List.filter (fun kv => negb (bool_decide (kv.1 ∈ keys))) af = [].
Proof.
  induction af as [|kv af IH]; intros H; [reflexivity|]. cbn.
  rewrite bool_decide_eq_true_2 by (apply H; apply list_elem_of_here). cbn.
  apply IH. intros kv' Hin. apply H. apply list_elem_of_further. exact Hin.
Qed.

(** X12.  [cleanup_fight] on a consistent pool ends every registered
    fight, not only one between the two participants it is called for:
    whatever the participant identifiers, no fight is registered afterwards,
    the userbot of every fight that was registered has stopped monitoring
    and is appended to the available ones in the order of registration, and
    the other userbots are as they were.  The number of available userbots
    grows by the number of fights that were registered. *)
Theorem cleanup_fight_ends_every_fight (participant1_id participant2_id : Z) (p : t) :
  consistent p ->
  let p' := cleanup_fight participant1_id participant2_id p in
  active_fights p' = []
  /\ available_userbots p' = available_userbots p ++ (active_fights p).*2
  /\ (forall userbot,
        current_fight_id p' !! userbot
        = if decide (userbot ∈ (active_fights p).*2) then None
          else current_fight_id p !! userbot)
  /\ get_available_userbot_count p'
     = (get_available_userbot_count p + get_active_fight_count p)%nat
  /\ consistent p'.
Proof.
  intros [Hav [Hkeys [Hvals Hreg]]].
  destruct p as [av af cf]. cbn in *.
  destruct (cleanup_loop_run af av af cf [] Hvals) as [cf' [Hrun Hcf]].
  { apply Forall_forall. intros kv Hin. rewrite Forall_forall in Hreg.
    destruct (Hreg _ Hin) as [Hc Hn]. split; [rewrite Hc; eexists; reflexivity | exact Hn]. }
  unfold cleanup_fight. cbn. rewrite Hrun. cbn. rewrite delete_loop_run.
  rewrite filter_own_keys
    by (intros kv Hin; apply list_elem_of_fmap; exists kv; split; [reflexivity|exact Hin]).
  cbn. split; [reflexivity|]. split; [reflexivity|]. split; [exact Hcf|].
  split.
  { unfold get_available_userbot_count, get_active_fight_count. cbn.
    rewrite length_app, length_fmap. reflexivity. }
  repeat split; cbn.
  - apply NoDup_app. split; [exact Hav|]. split; [|exact Hvals].
    intros x Hx Hx'. apply list_elem_of_fmap in Hx' as [kv [-> Hin]].
    rewrite Forall_forall in Hreg. destruct (Hreg _ Hin) as [_ Hn]. contradiction.
  - apply NoDup_nil_2.
  - apply NoDup_nil_2.
  - apply Forall_nil_2.
Qed.

Lemma cleanup_fight_ends_every_fight_witness :
  let p := mk [1; 2]%nat [("f1"%string, 7%nat)] {[ 7%nat := "f1"%string ]} in
  consistent p
  /\ active_fights (cleanup_fight 1001 2002 p) = [].
Proof.
  split; [exact consistent_example|].
  exact (proj1 (cleanup_fight_ends_every_fight 1001 2002 _ consistent_example)).
Defined.

End UserbotPoolFacts.

(* ===================================================================== *)
(** * Properties of the life cycle of a challenge *)
(* ===================================================================== *)

Module LifecycleFacts.
Import Py StateMachine Runtime ChallengeManager ChallengeStore ChallengeLifecycle Spec Examples.
Import ManagerFacts.
Local Open Scope string_scope.

(** The duplicate test of [create_challenge]. *)
Lemma duplicate_test (w : World) (challenger_id opponent_id : Z) :
  existsb (fun challenge => bool_decide (Challenge.challenger_id challenge = challenger_id))
    (List.filter (is_pending_for opponent_id (clock w)) (map_to_list (challenges w)).*2)
  = true
  <-> pending_between w challenger_id opponent_id.
Proof.
  rewrite existsb_exists. unfold pending_between. split.
  - intros [c [Hin Hc]]. apply filter_In in Hin as [Hin Hp].
    apply list_elem_of_In in Hin. apply list_elem_of_fmap in Hin as [[id c'] [-> Hin]].
    apply elem_of_map_to_list in Hin. cbn in *.
    apply bool_decide_eq_true in Hc.
    unfold is_pending_for in Hp.
    apply andb_true_iff in Hp as [Hp Ht]. apply andb_true_iff in Hp as [Ho Hs].
    apply bool_decide_eq_true in Ho. apply Z.ltb_lt in Ht.
    exists id, c'. repeat split; try assumption.
    destruct (Challenge.status c'); try discriminate. reflexivity.
  - intros [id [c [Hl [Hc [Ho [Hs Ht]]]]]]. exists c. split.
    + apply filter_In. split.
      * apply list_elem_of_In. apply list_elem_of_fmap. exists (id, c).
        split; [reflexivity|]. apply elem_of_map_to_list. exact Hl.
      * unfold is_pending_for. rewrite Hs.
        rewrite bool_decide_eq_true_2 by exact Ho.
        cbn. apply Z.ltb_lt. exact Ht.
    + apply bool_decide_eq_true. exact Hc.
Qed.

(** A run of [create_challenge] that finds no duplicate: everything it
    writes. *)
Lemma create_challenge_run (config : Config) (inserted_id : string)
    (challenger_id opponent_id chat_id : Z) (w : World) :
  challenges w !! inserted_id = None ->
  inserted_id <> "" ->
  ~ pending_between w challenger_id opponent_id ->
  exists ref w',
    create_challenge config inserted_id challenger_id opponent_id chat_id w
    = (Ok (Some inserted_id), w')
    /\ challenges w'
       = <[inserted_id := Challenge.mk challenger_id opponent_id None
                            ChallengeStatus.PENDING
                            (clock w + challenge_timeout config * 2 * 1000000)]>
           (challenges w)
    /\ machines w !! ref = None
    /\ machines w' = <[ref := sent_machine (clock w)]> (machines w)
    /\ _active_challenges w' = <[inserted_id := ref]> (_active_challenges w)
    /\ fights w' = fights w /\ users w' = users w
    /\ _fight_tasks w' = _fight_tasks w /\ clock w' = clock w /\ calls w' = calls w.
Proof.
  intros Hfresh Hne Hp.
  pose proof (duplicate_test w challenger_id opponent_id) as Hdup.
  destruct w as [ch fi us ma ac ta re cl ca]. cbn in Hfresh, Hdup.
  unfold create_challenge, get_pending_challenges, ChallengeStore.create_challenge.
  unfold utcnow, read, modify, try_except, mbind, mret, M_bind, M_ret. cbn.
  destruct (existsb _ _) eqn:E; [exfalso; apply Hp, Hdup; reflexivity|].
  cbn. rewrite Hfresh. cbn.
  rewrite bool_decide_eq_false_2 by exact Hne. cbn.
  exists (fresh (dom ma)). eexists. split; [reflexivity|]. cbn.
  split; [reflexivity|]. split.
  { apply not_elem_of_dom. apply is_fresh. }
  repeat split.
Qed.

(** X13.  [create_challenge], for an identifier the store does not hold.
    It refuses, answering [None] and writing nothing, exactly when a
    challenge of the same challenger to the same opponent is pending and
    not past its expiry; a pending challenge in the other direction does
    not count.  Otherwise it answers the new identifier, stores a PENDING
    challenge without contest type that expires after twice the acceptance
    timeout, and registers for it a new state machine in state SENT whose
    history is CREATED then SENT, both at the time of the call; the state
    machines already in the store and the other entries of the table are
    left as they were. *)
Theorem create_challenge_outcome (config : Config) (inserted_id : string)
    (challenger_id opponent_id chat_id : Z) (w : World) :
  challenges w !! inserted_id = None ->
  inserted_id <> "" ->
  (pending_between w challenger_id opponent_id ->
   create_challenge config inserted_id challenger_id opponent_id chat_id w = (Ok None, w))
  /\ (~ pending_between w challenger_id opponent_id ->
      exists ref w',
        create_challenge config inserted_id challenger_id opponent_id chat_id w
        = (Ok (Some inserted_id), w')
        /\ challenges w'
           = <[inserted_id := Challenge.mk challenger_id opponent_id None
                                ChallengeStatus.PENDING
                                (clock w + challenge_timeout config * 2 * 1000000)]>
               (challenges w)
        /\ machines w !! ref = None
        /\ machines w' = <[ref := sent_machine (clock w)]> (machines w)
        /\ _active_challenges w' = <[inserted_id := ref]> (_active_challenges w)
        /\ fights w' = fights w /\ users w' = users w
        /\ _fight_tasks w' = _fight_tasks w /\ clock w' = clock w /\ calls w' = calls w).
Proof.
  intros Hfresh Hne. split.
  - intros Hp. apply (duplicate_test w challenger_id opponent_id) in Hp.
    destruct w as [ch fi us ma ac ta re cl ca]. cbn in Hp.
    unfold create_challenge, get_pending_challenges.
    unfold utcnow, read, try_except, mbind, mret, M_bind, M_ret. cbn.
    rewrite Hp. reflexivity.
  - intros Hp. apply create_challenge_run; assumption.
Qed.

Lemma create_challenge_outcome_witness :
  exists ref w',
    create_challenge config0 "c2" 1001 2002 77 (world0 None SENT) = (Ok (Some "c2"), w')
    /\ (current_state <$> machines w' !! ref) = Some SENT
    /\ _active_challenges w' !! "c2" = Some ref.
Proof.
  destruct (create_challenge_outcome config0 "c2" 1001 2002 77 (world0 None SENT))
    as [_ H].
  - reflexivity.
  - discriminate.
  - destruct H as [ref [w' [Hrun [_ [_ [Hm [Ha _]]]]]]].
    + intros [id [c [Hl [_ [_ [Hs _]]]]]]. cbn in Hl.
      apply lookup_singleton_Some in Hl as [_ <-]. discriminate.
    + exists ref, w'. split; [exact Hrun|]. split.
      * rewrite Hm, lookup_insert_eq. reflexivity.
      * rewrite Ha, lookup_insert_eq. reflexivity.
Defined.

(** The second loop of [expire_old_challenges] writes to the table and to
    the state machines only. *)
Lemma for_each_expire_entry_frame (l : list string) :
  forall (w w' : World) (r : res unit),
    for_each l expire_entry w = (r, w') ->
    challenges w' = challenges w /\ fights w' = fights w /\ users w' = users w
    /\ _fight_tasks w' = _fight_tasks w /\ calls w' = calls w.
Proof.
  induction l as [|x l IH]; intros w w' r H.
  - cbn in H. injection H as _ <-. repeat split.
  - cbn [for_each] in H. unfold mbind, M_bind in H.
    destruct (expire_entry x w) as [[[]|e] w1] eqn:E.
    + apply IH in H.
      assert (challenges w1 = challenges w /\ fights w1 = fights w /\ users w1 = users w
              /\ _fight_tasks w1 = _fight_tasks w /\ calls w1 = calls w) as Hw.
      { destruct w as [ch fi us ma ac ta re cl ca].
        unfold expire_entry in E. run_unfold. cbn in E.
        destruct (ac !! x); cbn in E; [|discriminate].
        destruct (ma !! n); cbn in E.
        - destruct (transition_to c EXPIRED cl). cbn in E.
          injection E as <-. repeat split.
        - injection E as <-. repeat split. }
      destruct H as [-> [-> [-> [-> ->]]]]. exact Hw.
    + injection H as _ <-.
      destruct w as [ch fi us ma ac ta re cl ca].
      unfold expire_entry in E. run_unfold. cbn in E.
      destruct (ac !! x); cbn in E.
      * destruct (ma !! n); cbn in E; [destruct (transition_to c EXPIRED cl)|];
          cbn in E; discriminate.
      * injection E as _ <-. repeat split.
Qed.

Lemma swept_not_overdue (now : datetime) (c : Challenge.t) :
  ChallengeOps.is_overdue now (swept now c) = false.
Proof.
  unfold swept. destruct (ChallengeOps.is_overdue now c) eqn:E; [|exact E].
  reflexivity.
Qed.

Lemma swept_twice (now : datetime) (c : Challenge.t) :
  swept now (swept now c) = swept now c.
Proof. unfold swept at 1. rewrite swept_not_overdue. reflexivity. Qed.

(** One run of the manager's [expire_old_challenges]: everything it
    writes. *)
Lemma expire_old_challenges_run (config : Config) (w : World) :
  exists w',
    expire_old_challenges config w
    = (Ok (Z.of_nat (size (filter (fun kc => ChallengeOps.is_overdue (clock w) kc.2 = true)
                             (challenges w)))), w')
    /\ challenges w' = swept (clock w) <$> challenges w
    /\ clock w' = clock w /\ fights w' = fights w /\ users w' = users w
    /\ _fight_tasks w' = _fight_tasks w
    /\ (forall id, _active_challenges w' !! id
                   = if stale config w id then None else _active_challenges w !! id)
    /\ (forall id ref sm, _active_challenges w !! id = Some ref ->
          machines w !! ref = Some sm -> stale config w id = true ->
          machines w' !! ref = Some (snd (transition_to sm EXPIRED (clock w))))
    /\ (forall ref sm, machines w !! ref = Some sm ->
          (forall id, _active_challenges w !! id = Some ref -> stale config w id = false) ->
          machines w' !! ref = Some sm).
Proof.
  destruct w as [ch fi us ma ac ta re cl ca].
  unfold expire_old_challenges, ChallengeOps.expire_old_challenges.
  unfold awaiting, utcnow, read, modify, try_except, mbind, mret, M_bind, M_ret.
  cbn.
  match goal with
  | |- context [for_each ?l0 expire_entry ?w0] =>
      set (l := l0); set (w1 := w0)
  end.
  assert (forall id, id ∈ l <-> stale config w1 id = true) as Hl.
  { intros id. unfold l, stale. cbn. rewrite list_elem_of_In, filter_In. split.
    - intros [_ H]. exact H.
    - intros H. split; [|exact H].
      destruct (ac !! id) as [ref|] eqn:E; [|discriminate].
      apply list_elem_of_In. apply list_elem_of_fmap. exists (id, ref).
      split; [reflexivity|]. apply elem_of_map_to_list. exact E. }
  destruct (for_each_expire_entry l w1) as [w2 [Hrun [Hclk [Hact Hmach]]]].
  { unfold l. apply NoDup_ListNoDup. apply List.NoDup_filter.
    apply NoDup_ListNoDup. apply NoDup_fst_map_to_list. }
  { intros id Hid. apply Hl in Hid. unfold stale in Hid. cbn in Hid.
    cbn. destruct (ac !! id); [eauto | discriminate]. }
  destruct (for_each_expire_entry_frame l w1 w2 _ Hrun) as [Hch [Hfi [Hus [Hta Hca]]]].
  rewrite Hrun. cbn. exists w2. split; [reflexivity|].
  split; [exact Hch|]. split; [exact Hclk|]. split; [exact Hfi|]. split; [exact Hus|].
  split; [exact Hta|]. split; [|split].
  - intros id. rewrite Hact. cbn.
    change (stale config (mkWorld ch fi us ma ac ta re cl ca) id) with (stale config w1 id).
    destruct (decide (id ∈ l)) as [H|H].
    + apply Hl in H. rewrite H. reflexivity.
    + destruct (stale config w1 id) eqn:E; [|reflexivity].
      exfalso. apply H, Hl. exact E.
  - intros id ref sm Ha Hm Hs. rewrite (Hmach ref sm Hm).
    rewrite decide_True; [reflexivity|].
    apply Exists_exists. exists id. split; [apply Hl; exact Hs | exact Ha].
  - intros ref sm Hm Hnone. rewrite (Hmach ref sm Hm).
    rewrite decide_False; [reflexivity|].
    intros Hex. apply Exists_exists in Hex as [id [Hin Ha]].
    apply Hl in Hin. cbn in Ha.
    change (stale config w1 id) with (stale config (mkWorld ch fi us ma ac ta re cl ca) id)
      in Hin.
    rewrite (Hnone id Ha) in Hin. discriminate.
Qed.

(** X14.  One sweep of the manager's [expire_old_challenges], on any
    world.  It never fails; its answer is the number of stored challenges
    that are PENDING and past their expiry, whatever the in-memory table
    holds; exactly those records become EXPIRED and every other record is
    left as it is.  An entry of the in-memory table whose dwell time does
    not exceed three times the acceptance timeout is kept, and no entry is
    added.  A second sweep at the same time answers 0 and changes no
    record. *)
Theorem expire_old_challenges_sweep (config : Config) (w : World) :
  exists w',
    expire_old_challenges config w
    = (Ok (Z.of_nat (size (filter (fun kc => ChallengeOps.is_overdue (clock w) kc.2 = true)
                             (challenges w)))), w')
    /\ (forall id, challenges w' !! id
                   = (fun c => if ChallengeOps.is_overdue (clock w) c
                               then Challenge.set_status ChallengeStatus.EXPIRED c
                               else c) <$> challenges w !! id)
    /\ (forall id ref sm,
          _active_challenges w !! id = Some ref -> machines w !! ref = Some sm ->
          get_time_in_state sm (clock w) <= challenge_timeout config * 3 ->
          _active_challenges w' !! id = Some ref)
    /\ (forall id, _active_challenges w !! id = None -> _active_challenges w' !! id = None)
    /\ fst (expire_old_challenges config w') = Ok 0
    /\ challenges (snd (expire_old_challenges config w')) = challenges w'.
Proof.
  destruct (expire_old_challenges_run config w)
    as [w' [Hrun [Hch [Hclk [_ [_ [_ [Hact _]]]]]]]].
  exists w'. split; [exact Hrun|]. split.
  { intros id. rewrite Hch, lookup_fmap. reflexivity. }
  split.
  { intros id ref sm Ha Hm Hd. rewrite Hact. unfold stale, time_in_state.
    rewrite Ha, Hm. rewrite (proj2 (Z.ltb_ge _ _) Hd). reflexivity. }
  split.
  { intros id Ha. rewrite Hact. unfold stale. rewrite Ha. reflexivity. }
  destruct (expire_old_challenges_run config w')
    as [w'' [Hrun' [Hch' _]]].
  rewrite Hrun'. cbn. split.
  - f_equal. rewrite Hclk, Hch.
    replace (filter _ _) with (∅ : gmap string Challenge.t); [reflexivity|].
    symmetry. apply map_empty. intros id. apply map_lookup_filter_None. right.
    intros c Hc. cbn. rewrite lookup_fmap in Hc.
    destruct (challenges w !! id) as [c0|]; [|discriminate].
    cbn in Hc. injection Hc as <-. rewrite swept_not_overdue. discriminate.
  - rewrite Hch', Hclk, Hch. rewrite <- map_fmap_compose.
    apply map_fmap_ext. intros id c _. cbn. apply swept_twice.
Qed.

Lemma dwell_sent (now micros : Z) :
  get_time_in_state (sent_machine now) (now + micros) = Z.quot micros 1000000.
Proof.
  unfold get_time_in_state, sent_machine, whole_seconds. cbn.
  f_equal. lia.
Qed.

(** X15.  A challenge that nobody answers, swept when [micros] microseconds
    have passed since its creation, for an acceptance timeout of [T]
    seconds.  Up to [2 * T] seconds it is still PENDING and tracked in state
    SENT.  From there to just below [3 * T + 1] seconds the stored challenge
    is already EXPIRED while the in-memory table still holds it, its state
    machine still in SENT: the table is swept on the whole seconds of the
    elapsed time, which must exceed [3 * T].  From [3 * T + 1] seconds on
    the stored challenge is EXPIRED, the state machine has been moved to
    EXPIRED and the entry is gone from the table. *)
Theorem unanswered_challenge_expiry (config : Config) (inserted_id : string)
    (challenger_id opponent_id chat_id : Z) (w : World) (micros : Z) :
  challenges w !! inserted_id = None ->
  inserted_id <> "" ->
  ~ pending_between w challenger_id opponent_id ->
  0 <= challenge_timeout config ->
  let w1 := snd (create_challenge config inserted_id challenger_id opponent_id chat_id w) in
  let w2 := with_clock (fun now => now + micros) w1 in
  let w3 := snd (expire_old_challenges config w2) in
  exists ref,
    _active_challenges w1 !! inserted_id = Some ref
    /\ (micros <= challenge_timeout config * 2 * 1000000 ->
        (Challenge.status <$> challenges w3 !! inserted_id) = Some ChallengeStatus.PENDING
        /\ _active_challenges w3 !! inserted_id = Some ref
        /\ machines w3 !! ref = Some (sent_machine (clock w)))
    /\ (challenge_timeout config * 2 * 1000000 < micros
        < (challenge_timeout config * 3 + 1) * 1000000 ->
        (Challenge.status <$> challenges w3 !! inserted_id) = Some ChallengeStatus.EXPIRED
        /\ _active_challenges w3 !! inserted_id = Some ref
        /\ machines w3 !! ref = Some (sent_machine (clock w)))
    /\ ((challenge_timeout config * 3 + 1) * 1000000 <= micros ->
        (Challenge.status <$> challenges w3 !! inserted_id) = Some ChallengeStatus.EXPIRED
        /\ _active_challenges w3 !! inserted_id = None
        /\ (current_state <$> machines w3 !! ref) = Some EXPIRED).
Proof.
  intros Hfresh Hne Hp Htimeout.
  destruct (create_challenge_run config inserted_id challenger_id opponent_id chat_id w
              Hfresh Hne Hp)
    as [ref [w1 [Hrun [Hch [Hnew [Hma [Hac [_ [_ [_ [Hcl _]]]]]]]]]]].
  rewrite Hrun. cbn [snd].
  remember (with_clock (fun now => now + micros) w1) as w2 eqn:Hw2.
  assert (challenges w2 = challenges w1 /\ machines w2 = machines w1
          /\ _active_challenges w2 = _active_challenges w1
          /\ clock w2 = clock w + micros) as [Hch2 [Hma2 [Hac2 Hcl2]]].
  { subst w2. destruct w1. cbn in Hcl. subst. repeat split. }
  clear Hw2.
  destruct (expire_old_challenges_run config w2)
    as [w3 [Hrun3 [Hch3 [_ [_ [_ [_ [Hact3 [Hstale3 Hfresh3]]]]]]]]].
  rewrite Hrun3. cbn [snd].
  assert (Ha2 : _active_challenges w2 !! inserted_id = Some ref).
  { rewrite Hac2, Hac. apply lookup_insert_eq. }
  assert (Hm2 : machines w2 !! ref = Some (sent_machine (clock w))).
  { rewrite Hma2, Hma. apply lookup_insert_eq. }
  assert (Hstale : forall id, _active_challenges w2 !! id = Some ref ->
            stale config w2 id
            = (challenge_timeout config * 3 <? Z.quot micros 1000000)%Z).
  { intros id Ha. unfold stale, time_in_state. rewrite Ha, Hm2, Hcl2, dwell_sent.
    reflexivity. }
  assert (Hstatus : (Challenge.status <$> challenges w3 !! inserted_id)
            = Some (if (challenge_timeout config * 2 * 1000000 <? micros)%Z
                    then ChallengeStatus.EXPIRED else ChallengeStatus.PENDING)).
  { rewrite Hch3, lookup_fmap, Hch2, Hch, lookup_insert_eq. cbn.
    unfold swept, ChallengeOps.is_overdue. cbn. rewrite Hcl2.
    destruct (challenge_timeout config * 2 * 1000000 <? micros)%Z eqn:E.
    - apply Z.ltb_lt in E. rewrite (proj2 (Z.ltb_lt _ _)) by lia. reflexivity.
    - apply Z.ltb_ge in E. rewrite (proj2 (Z.ltb_ge _ _)) by lia. reflexivity. }
  assert (Hwhole : micros < (challenge_timeout config * 3 + 1) * 1000000 ->
            (challenge_timeout config * 3 <? Z.quot micros 1000000)%Z = false).
  { intros Hlt. apply Z.ltb_ge.
    destruct (Z.le_gt_cases 0 micros) as [Hpos|Hneg].
    - rewrite Z.quot_div_nonneg by lia.
      apply Z.lt_succ_r. apply Z.div_lt_upper_bound; lia.
    - pose proof (Z.quot_opp_l (- micros) 1000000 ltac:(lia)) as Hq.
      rewrite Z.opp_involutive in Hq. rewrite Hq.
      pose proof (Z.quot_pos (- micros) 1000000 ltac:(lia) ltac:(lia)). lia. }
  assert (Hlate : (challenge_timeout config * 3 + 1) * 1000000 <= micros ->
            (challenge_timeout config * 3 <? Z.quot micros 1000000)%Z = true).
  { intros Hge. apply (proj2 (Z.ltb_lt _ _)). rewrite Z.quot_div_nonneg by lia.
    assert (challenge_timeout config * 3 + 1 <= micros / 1000000)
      by (apply Z.div_le_lower_bound; lia).
    lia. }
  exists ref. split; [rewrite Hac; apply lookup_insert_eq|].
  split; [|split].
  - intros Hs. split.
    { rewrite Hstatus. rewrite (proj2 (Z.ltb_ge _ _)) by lia. reflexivity. }
    pose proof (Hwhole ltac:(lia)) as E.
    split.
    + rewrite Hact3, (Hstale _ Ha2), E. exact Ha2.
    + apply Hfresh3; [exact Hm2|]. intros id Ha. rewrite (Hstale _ Ha). exact E.
  - intros [Hs1 Hs2]. split.
    { rewrite Hstatus. rewrite (proj2 (Z.ltb_lt _ _)) by lia. reflexivity. }
    pose proof (Hwhole Hs2) as E.
    split.
    + rewrite Hact3, (Hstale _ Ha2), E. exact Ha2.
    + apply Hfresh3; [exact Hm2|]. intros id Ha. rewrite (Hstale _ Ha). exact E.
  - intros Hs. split.
    { rewrite Hstatus. rewrite (proj2 (Z.ltb_lt _ _)) by lia. reflexivity. }
    pose proof (Hlate Hs) as E.
    split.
    + rewrite Hact3, (Hstale _ Ha2), E. reflexivity.
    + rewrite (Hstale3 inserted_id ref _ Ha2 Hm2) by (rewrite (Hstale _ Ha2); exact E).
      reflexivity.
Qed.

(** X15 at a timeout of 30 seconds: after 90.5 seconds the stored challenge
    is EXPIRED and the table still holds it in state SENT; after 91
    seconds it has left the table. *)
Lemma unanswered_challenge_expiry_witness :
  let w1 := snd (create_challenge config0 "c2" 1001 2002 77 (world0 None SENT)) in
  let w3 := snd (expire_old_challenges config0
                   (with_clock (fun now => now + 90500000) w1)) in
  let w3' := snd (expire_old_challenges config0
                    (with_clock (fun now => now + 91000000) w1)) in
  exists ref,
    _active_challenges w1 !! "c2" = Some ref
    /\ (Challenge.status <$> challenges w3 !! "c2") = Some ChallengeStatus.EXPIRED
    /\ _active_challenges w3 !! "c2" = Some ref
    /\ (current_state <$> machines w3 !! ref) = Some SENT
    /\ (Challenge.status <$> challenges w3' !! "c2") = Some ChallengeStatus.EXPIRED
    /\ _active_challenges w3' !! "c2" = None
    /\ (current_state <$> machines w3' !! ref) = Some EXPIRED.
Proof.
  assert (~ pending_between (world0 None SENT) 1001 2002) as Hp.
  { intros [id [c [Hl [_ [_ [Hs _]]]]]]. cbn in Hl.
    apply lookup_singleton_Some in Hl as [_ <-]. discriminate. }
  destruct (unanswered_challenge_expiry config0 "c2" 1001 2002 77 (world0 None SENT)
              90500000 eq_refl ltac:(discriminate) Hp ltac:(cbn; lia))
    as [ref [Ha [_ [H _]]]].
  destruct (unanswered_challenge_expiry config0 "c2" 1001 2002 77 (world0 None SENT)
              91000000 eq_refl ltac:(discriminate) Hp ltac:(cbn; lia))
    as [ref' [Ha' [_ [_ H']]]].
  assert (ref' = ref) as -> by congruence.
  exists ref. split; [exact Ha|].
  destruct (H ltac:(cbn; lia)) as [H1 [H2 H3]].
  destruct (H' ltac:(cbn; lia)) as [H1' [H2' H3']].
  split; [exact H1|]. split; [exact H2|].
  split; [rewrite H3; reflexivity|].
  split; [exact H1'|]. split; [exact H2'|]. exact H3'.
Defined.

(** X16.  [_monitor_fight] for a challenge that is not stored, or that the
    manager's table does not hold (as in a manager that was just
    constructed), returns at once: apart from the request for the
    challenge it awaits nothing, it does not wait for the participants,
    starts no recording, and leaves the fight record, the challenge and
    the statistics as they are. *)
Theorem monitor_untracked_returns (config : Config) (env : Env) (fuel : nat)
    (challenge_id fight_id : string) (w : World) :
  challenges w !! challenge_id = None \/ _active_challenges w !! challenge_id = None ->
  _monitor_fight config env fuel challenge_id fight_id w
  = (Ok Completed, with_calls (fun l => l ++ [GetChallenge challenge_id])%list w).
Proof.
  intros H. destruct w as [ch fi us ma ac ta re cl ca]. cbn in H.
  unfold _monitor_fight. run_unfold. cbn.
  destruct (ch !! challenge_id) as [c|]; cbn; [|reflexivity].
  destruct H as [H|H]; [discriminate|]. rewrite H. reflexivity.
Qed.

Lemma monitor_untracked_returns_witness :
  _monitor_fight config0 (env0 true None) 5 "c1" "f1"
    (with_active (fun _ => ∅) (world0 (Some FightType.TIMING) PARTICIPANTS_JOINING))
  = (Ok Completed,
     with_calls (fun l => l ++ [GetChallenge "c1"])%list
       (with_active (fun _ => ∅) (world0 (Some FightType.TIMING) PARTICIPANTS_JOINING))).
Proof.
  apply monitor_untracked_returns. right. reflexivity.
Defined.

(** One run of [cancel_challenge]. *)
Lemma cancel_challenge_run (challenge_id : string) (w : World) :
  exists w',
    cancel_challenge challenge_id w = (Ok true, w')
    /\ _active_challenges w' = delete challenge_id (_active_challenges w)
    /\ _fight_tasks w' = delete challenge_id (_fight_tasks w)
    /\ fights w' = fights w /\ users w' = users w /\ clock w' = clock w
    /\ active_recordings w' = active_recordings w
    /\ challenges w'
       = match challenges w !! challenge_id with
         | Some c => <[challenge_id := Challenge.set_status ChallengeStatus.CANCELLED c]>
                       (challenges w)
         | None => challenges w
         end
    /\ machines w'
       = match _active_challenges w !! challenge_id with
         | Some ref =>
             match machines w !! ref with
             | Some sm => <[ref := snd (transition_to sm CANCELLED (clock w))]> (machines w)
             | None => machines w
             end
         | None => machines w
         end.
Proof.
  destruct w as [ch fi us ma ac ta re cl ca].
  unfold cancel_challenge. run_unfold. cbn.
  destruct (ta !! challenge_id) eqn:Et; cbn;
    destruct (ch !! challenge_id) eqn:Ec; cbn;
    destruct (ac !! challenge_id) as [ref|] eqn:Ea; cbn;
    try (destruct (ma !! ref) as [sm|] eqn:Em; cbn;
         [destruct (transition_to sm CANCELLED cl) as [ok sm'] eqn:Etr; cbn|]);
    eexists; (split; [reflexivity|]); cbn; repeat split;
    symmetry; apply delete_id; assumption.
Qed.

Lemma transition_cancelled_state (sm : ChallengeStateMachine) (now : datetime) :
  current_state (snd (transition_to sm CANCELLED now))
  = if is_terminal_state sm then current_state sm else CANCELLED.
Proof. destruct sm as [s h]. destruct s; reflexivity. Qed.

(** X17.  [cancel_challenge] answers [True] for every identifier, also one
    that names no challenge, and never raises.  Afterwards the challenge
    is not in the table and has no task; a stored challenge has the status
    CANCELLED whatever its status was, a completed one included; the state
    machine that was tracked is in CANCELLED unless it was in a terminal
    state, which it keeps; fight records and statistics are not touched,
    and a recording that was started stays active. *)
Theorem cancel_challenge_outcome (challenge_id : string) (w : World) :
  exists w',
    cancel_challenge challenge_id w = (Ok true, w')
    /\ is_challenge_active w' challenge_id = false
    /\ _fight_tasks w' !! challenge_id = None
    /\ (Challenge.status <$> challenges w' !! challenge_id)
       = (fun _ => ChallengeStatus.CANCELLED) <$> challenges w !! challenge_id
    /\ (forall ref sm,
          _active_challenges w !! challenge_id = Some ref -> machines w !! ref = Some sm ->
          (current_state <$> machines w' !! ref)
          = Some (if is_terminal_state sm then current_state sm else CANCELLED))
    /\ fights w' = fights w /\ users w' = users w
    /\ active_recordings w' = active_recordings w.
Proof.
  destruct (cancel_challenge_run challenge_id w)
    as [w' [Hrun [Hac [Hta [Hfi [Hus [_ [Hre [Hch Hma]]]]]]]]].
  exists w'. split; [exact Hrun|]. split.
  { unfold is_challenge_active. rewrite Hac, lookup_delete_eq. reflexivity. }
  split; [rewrite Hta; apply lookup_delete_eq|]. split.
  { rewrite Hch. destruct (challenges w !! challenge_id) as [c|] eqn:E.
    - rewrite lookup_insert_eq. reflexivity.
    - rewrite E. reflexivity. }
  split; [|repeat split; assumption].
  intros ref sm Ha Hm. rewrite Hma, Ha, Hm, lookup_insert_eq. cbn.
  rewrite transition_cancelled_state. reflexivity.
Qed.


(** X18.  A run of [_end_fight_with_results] in which malformed metrics
    make the comparison fail (a timing contest with a [None] under
    ["join_time"]) ends through [_end_fight_error]: the fight is stored as
    CANCELLED for both participants with no winner, the challenge as
    CANCELLED, nobody's statistics change and the entry leaves the table.
    On this path [stop_recording] is called twice, and [cleanup_fight],
    which releases the userbots, is not called at all. *)
Theorem malformed_metrics_cancel_the_fight (challenge_id fight_id : string)
    (duration : Z) (m1 m2 : metrics) (w : World) (c : Challenge.t) (f : Fight.t) :
  challenges w !! challenge_id = Some c ->
  fights w !! fight_id = Some f ->
  m1 !! "join_time" = Some PyNone \/ m2 !! "join_time" = Some PyNone ->
  exists w' l,
    _end_fight_with_results challenge_id fight_id duration m1 m2
      (Some FightType.TIMING) w = (Ok tt, w')
    /\ appended w w' l
    /\ count is_stop_recording l = 2%nat /\ count is_release l = 0%nat
    /\ (persisted <$> fights w' !! fight_id)
       = Some (None, FightResult.CANCELLED, FightResult.CANCELLED)
    /\ (Challenge.status <$> challenges w' !! challenge_id)
       = Some ChallengeStatus.CANCELLED
    /\ users w' = users w
    /\ _active_challenges w' !! challenge_id = None.
Proof.
  intros Hc Hf Hbad.
  assert (py_gt (get m1 "join_time" (PyNum 0)) (get m2 "join_time" (PyNum 0))
          = Raise TypeError) as Hgt.
  { unfold get. destruct Hbad as [H|H]; rewrite H.
    - reflexivity.
    - destruct (m1 !! "join_time") as [[q|]|]; reflexivity. }
  destruct w as [ch fi us ma ac ta re cl ca]. cbn in Hc, Hf.
  unfold _end_fight_with_results, _end_fight_error, determine_results,
    compare_and_assign, transition_and_discard, machine_transition_to,
    ChallengeOps.get_challenge, ChallengeOps.update_challenge_status,
    FightOps.finish_fight, RecordingManager.stop_recording,
    awaiting, utcnow, read, modify, raise, lift, try_except,
    mbind, mret, M_bind, M_ret.
  unfold appended. cbn. rewrite Hgt. cbn.
  repeat run_step.
  all: eexists; eexists; (split; [reflexivity|]); cbn.
  all: split; [rewrite <- !app_assoc; reflexivity|].
  all: split; [reflexivity|]; split; [reflexivity|].
  all: rewrite !lookup_insert_eq; cbn.
  all: repeat split; try reflexivity.
  all: first [apply lookup_delete_eq | assumption].
Qed.

Lemma malformed_metrics_cancel_the_fight_witness :
  let w := world0 (Some FightType.TIMING) FIGHT_ACTIVE in
  let w' := snd (_end_fight_with_results "c1" "f1" 60 (<["join_time" := PyNone]> ∅)
                   (joined 110) (Some FightType.TIMING) w) in
  (persisted <$> fights w' !! "f1")
  = Some (None, FightResult.CANCELLED, FightResult.CANCELLED)
  /\ users w' = users w.
Proof.
  destruct (malformed_metrics_cancel_the_fight "c1" "f1" 60 (<["join_time" := PyNone]> ∅)
              (joined 110) (world0 (Some FightType.TIMING) FIGHT_ACTIVE)
              (challenge0 (Some FightType.TIMING)) fight0)
    as [w' [l [Hrun [_ [_ [_ [Hp [_ [Hu _]]]]]]]]].
  - reflexivity.
  - reflexivity.
  - left. reflexivity.
  - cbn zeta. rewrite Hrun. split; [exact Hp | exact Hu].
Defined.

(** X19.  [_end_fight_with_results] for a challenge without contest type
    (the type is optional in a challenge and unset when it is created)
    reads no metric at all: whatever the two dictionaries hold, malformed
    entries included, the fight is stored with no winner but with LOSS for
    the challenger and WIN for the opponent, and the statistics follow the
    results: the opponent is credited a win, the challenger a loss. *)
Theorem untyped_fight_favours_opponent (challenge_id fight_id : string)
    (duration : Z) (m1 m2 : metrics) (w : World)
    (c : Challenge.t) (f : Fight.t) (u1 u2 : User.t) :
  challenges w !! challenge_id = Some c ->
  fights w !! fight_id = Some f ->
  Challenge.challenger_id c <> Challenge.opponent_id c ->
  users w !! Challenge.challenger_id c = Some u1 ->
  users w !! Challenge.opponent_id c = Some u2 ->
  exists w',
    _end_fight_with_results challenge_id fight_id duration m1 m2 None w = (Ok tt, w')
    /\ (persisted <$> fights w' !! fight_id)
       = Some (None, FightResult.LOSS, FightResult.WIN)
    /\ users w' !! Challenge.challenger_id c = Some (lost u1)
    /\ users w' !! Challenge.opponent_id c = Some (won u2)
    /\ (Challenge.status <$> challenges w' !! challenge_id)
       = Some ChallengeStatus.COMPLETED.
Proof.
  intros Hc Hf Hne H1 H2.
  destruct (end_fight_with_results_run challenge_id fight_id duration m1 m2 None w c f
              None FightResult.LOSS FightResult.WIN Hc Hf)
    as [w' [Hrun [Hfi [Hch [Hus _]]]]].
  { intros w0. reflexivity. }
  exists w'. split; [exact Hrun|]. split.
  { rewrite Hfi, lookup_insert_eq. reflexivity. }
  destruct (credited_lookup c FightResult.LOSS FightResult.WIN (users w) u1 u2 Hne H1 H2)
    as [Hu1 Hu2].
  rewrite Hus. split; [exact Hu1|]. split; [exact Hu2|].
  rewrite Hch, lookup_insert_eq. reflexivity.
Qed.

Lemma untyped_fight_favours_opponent_witness :
  let w' := snd (_end_fight_with_results "c1" "f1" 60 (joined 110) (joined 100) None
                   (world0 None FIGHT_ACTIVE)) in
  users w' !! 1001 = Some (lost user0) /\ users w' !! 2002 = Some (won user0).
Proof.
  destruct (untyped_fight_favours_opponent "c1" "f1" 60 (joined 110) (joined 100)
              (world0 None FIGHT_ACTIVE) (challenge0 None) fight0 user0 user0)
    as [w' [Hrun [_ [Hu1 [Hu2 _]]]]].
  - reflexivity.
  - reflexivity.
  - discriminate.
  - reflexivity.
  - reflexivity.
  - cbn zeta. rewrite Hrun. split; [exact Hu1 | exact Hu2].
Defined.

(** *** The sampling loop *)

Lemma sampling_frame_refl (w : World) : sampling_frame w w.
Proof. repeat split. Qed.

Lemma sampling_frame_trans (w1 w2 w3 : World) :
  sampling_frame w1 w2 -> sampling_frame w2 w3 -> sampling_frame w1 w3.
Proof.
  intros [A1 [A2 [A3 [A4 [A5 A6]]]]] [B1 [B2 [B3 [B4 [B5 B6]]]]].
  repeat split; congruence.
Qed.

Lemma update_fight_metrics_frame (fight_id : string) (p : Z) (m : metrics) (w : World) :
  exists b w', FightOps.update_fight_metrics fight_id p m w = (Ok b, w')
    /\ clock w' = clock w
    /\ sampling_frame w w'
    /\ (forall id, is_Some (fights w' !! id) <-> is_Some (fights w !! id)).
Proof.
  destruct w as [ch fi us ma ac ta re cl ca].
  unfold FightOps.update_fight_metrics. run_unfold. cbn.
  destruct (fi !! fight_id) as [f|] eqn:E; cbn.
  - eexists. eexists. split; [reflexivity|]. cbn. split; [reflexivity|].
    split; [repeat split|].
    intros id. destruct (decide (id = fight_id)) as [->|Hne].
    + rewrite lookup_insert_eq, E. split; eauto.
    + rewrite lookup_insert_ne by congruence. reflexivity.
  - eexists. eexists. split; [reflexivity|]. cbn. split; [reflexivity|].
    split; [repeat split|]. reflexivity.
Qed.

(** A run of the sampling loop that is not cancelled, with enough fuel to
    reach the maximum duration. *)
Lemma sampling_loop_run (config : Config) (env : Env) (c : Challenge.t)
    (fight_id : string) (fuel : nat) :
  0 < monitoring_interval config ->
  cancelled_at env = None ->
  forall (i : nat) (d : Z) (m1 m2 : metrics) (w : World),
    max_fight_duration config - d <= Z.of_nat fuel * monitoring_interval config ->
    exists (d' : Z) (m1' m2' : metrics) (w' : World) (k : nat),
      sampling_loop config env c fight_id fuel i d m1 m2 w = (Ok (Some (d', m1', m2')), w')
      /\ d' = d + Z.of_nat k * monitoring_interval config
      /\ (max_fight_duration config <= d -> k = 0%nat)
      /\ (d < max_fight_duration config ->
          d' < max_fight_duration config + monitoring_interval config)
      /\ clock w' = clock w + (d' - d) * 1000000
      /\ sampling_frame w w'
      /\ (forall id, is_Some (fights w' !! id) <-> is_Some (fights w !! id))
      /\ ((m1' = m1 /\ m2' = m2) \/ exists j, fight_metrics env j = Some (m1', m2')).
Proof.
  intros Hpos Hnc.
  assert (Hexit : forall (fuel0 i : nat) (d : Z) (m1 m2 : metrics) (w : World),
    max_fight_duration config <= d ->
    exists (d' : Z) (m1' m2' : metrics) (w' : World) (k : nat),
      sampling_loop config env c fight_id fuel0 i d m1 m2 w = (Ok (Some (d', m1', m2')), w')
      /\ d' = d + Z.of_nat k * monitoring_interval config
      /\ (max_fight_duration config <= d -> k = 0%nat)
      /\ (d < max_fight_duration config ->
          d' < max_fight_duration config + monitoring_interval config)
      /\ clock w' = clock w + (d' - d) * 1000000
      /\ sampling_frame w w'
      /\ (forall id, is_Some (fights w' !! id) <-> is_Some (fights w !! id))
      /\ ((m1' = m1 /\ m2' = m2) \/ exists j, fight_metrics env j = Some (m1', m2'))).
  { intros fuel0 i d m1 m2 w Hd.
    exists d, m1, m2, w, 0%nat. split.
    { destruct fuel0; cbn [sampling_loop];
        rewrite (proj2 (Z.ltb_ge _ _) Hd); reflexivity. }
    split; [cbn; lia|]. split; [reflexivity|]. split; [lia|]. split; [lia|].
    split; [apply sampling_frame_refl|]. split; [reflexivity|]. left. split; reflexivity. }
  induction fuel as [|fuel IH]; intros i d m1 m2 w Hfuel.
  { apply Hexit. cbn in Hfuel. lia. }
  destruct (Z_lt_le_dec d (max_fight_duration config)) as [Hlt|Hge];
    [|apply Hexit; exact Hge].
  rewrite Nat2Z.inj_succ, Z.mul_succ_l in Hfuel.
  cbn [sampling_loop]. rewrite (proj2 (Z.ltb_lt _ _) Hlt). cbn [negb].
  unfold sampling_sleep. rewrite Hnc.
  rewrite bool_decide_eq_false_2 by discriminate.
  unfold UserbotManager.get_fight_metrics, UserbotManager.are_participants_active, sleep.
  unfold awaiting, modify, mbind, M_bind, mret, M_ret.
  cbn.
  set (w1 := with_calls _ (with_clock _ (with_calls _ w))).
  assert (sampling_frame w w1 /\ fights w1 = fights w
          /\ clock w1 = clock w + monitoring_interval config * 1000000)
    as [F1 [Hf1 C1]] by (destruct w; repeat split).
  assert (Hcont : forall (n1 n2 : metrics) (w3 : World),
    sampling_frame w w3 ->
    (forall id, is_Some (fights w3 !! id) <-> is_Some (fights w !! id)) ->
    clock w3 = clock w + monitoring_interval config * 1000000 ->
    ((n1 = m1 /\ n2 = m2) \/ exists j, fight_metrics env j = Some (n1, n2)) ->
    exists (d' : Z) (m1' m2' : metrics) (w' : World) (k : nat),
      (if negb (participants_active env i)
       then mret (Some (d + monitoring_interval config, n1, n2))
       else sampling_loop config env c fight_id fuel (S i)
              (d + monitoring_interval config) n1 n2)
        (with_calls (fun l => l ++ [AreParticipantsActive (Challenge.challenger_id c)
                                      (Challenge.opponent_id c)])%list w3)
      = (Ok (Some (d', m1', m2')), w')
      /\ d' = d + Z.of_nat k * monitoring_interval config
      /\ (max_fight_duration config <= d -> k = 0%nat)
      /\ (d < max_fight_duration config ->
          d' < max_fight_duration config + monitoring_interval config)
      /\ clock w' = clock w + (d' - d) * 1000000
      /\ sampling_frame w w'
      /\ (forall id, is_Some (fights w' !! id) <-> is_Some (fights w !! id))
      /\ ((m1' = m1 /\ m2' = m2) \/ exists j, fight_metrics env j = Some (m1', m2'))).
  { intros n1 n2 w3 F3 Hf3 C3 Hn.
    set (w4 := with_calls _ w3).
    assert (sampling_frame w3 w4 /\ fights w4 = fights w3 /\ clock w4 = clock w3)
      as [F4 [Hf4 C4]] by (destruct w3; repeat split).
    destruct (participants_active env i); cbn [negb].
    - destruct (IH (S i) (d + monitoring_interval config) n1 n2 w4)
        as [d' [m1' [m2' [w' [k [Hrun [Hd' [Hk0 [Hbound [Hclk [F5 [Hf5 Hm]]]]]]]]]]]];
        [lia|].
      exists d', m1', m2', w', (if decide (max_fight_duration config
                                           <= d + monitoring_interval config)
                                then 1%nat else S k).
      split; [exact Hrun|].
      destruct (decide (max_fight_duration config <= d + monitoring_interval config))
        as [Hd1|Hd1].
      + specialize (Hk0 Hd1). subst k. cbn in Hd'.
        split; [lia|]. split; [lia|]. split; [lia|].
        split; [rewrite Hclk, C4, C3; lia|].
        split; [exact (sampling_frame_trans _ _ _ F3 (sampling_frame_trans _ _ _ F4 F5))|].
        split; [intros id; rewrite Hf5, Hf4; apply Hf3|].
        destruct Hm as [[-> ->]|Hm]; [exact Hn | right; exact Hm].
      + split; [rewrite Hd', Nat2Z.inj_succ, Z.mul_succ_l; lia|].
        split; [lia|]. split; [intros _; apply Hbound; lia|].
        split; [rewrite Hclk, C4, C3; lia|].
        split; [exact (sampling_frame_trans _ _ _ F3 (sampling_frame_trans _ _ _ F4 F5))|].
        split; [intros id; rewrite Hf5, Hf4; apply Hf3|].
        destruct Hm as [[-> ->]|Hm]; [exact Hn | right; exact Hm].
    - exists (d + monitoring_interval config), n1, n2, w4, 1%nat.
      split; [reflexivity|]. split; [lia|]. split; [lia|]. split; [lia|].
      split; [rewrite C4, C3; lia|].
      split; [exact (sampling_frame_trans _ _ _ F3 F4)|].
      split; [intros id; rewrite Hf4; apply Hf3 | exact Hn]. }
  destruct (fight_metrics env i) as [[n1 n2]|] eqn:Em.
  - destruct (update_fight_metrics_frame fight_id (Challenge.challenger_id c) n1 w1)
      as [b1 [w2 [E2 [C2 [F2 Hf2]]]]]. rewrite E2. cbn.
    destruct (update_fight_metrics_frame fight_id (Challenge.opponent_id c) n2 w2)
      as [b2 [w3 [E3 [C3 [F3 Hf3]]]]]. rewrite E3. cbn.
    apply Hcont.
    + exact (sampling_frame_trans _ _ _ F1 (sampling_frame_trans _ _ _ F2 F3)).
    + intros id. rewrite Hf3, Hf2, Hf1. reflexivity.
    + rewrite C3, C2. exact C1.
    + right. exists i. exact Em.
  - cbn. apply Hcont.
    + exact F1.
    + intros id. rewrite Hf1. reflexivity.
    + exact C1.
    + left. split; reflexivity.
Qed.

(** X20.  The sampling loop of [_monitor_fight], when the interval between
    samples is positive and the routine is not cancelled, ends after at
    most as many iterations as intervals fit into the maximum duration,
    however the participants behave.  The duration it hands on counts
    exactly the time slept, is a multiple of the interval above the
    starting value, and stays below the maximum plus one interval; a loop
    entered at or above the maximum makes no iteration. *)
Theorem sampling_loop_terminates (config : Config) (env : Env) (c : Challenge.t)
    (fight_id : string) (fuel i : nat) (d : Z) (m1 m2 : metrics) (w : World) :
  0 < monitoring_interval config ->
  cancelled_at env = None ->
  max_fight_duration config - d <= Z.of_nat fuel * monitoring_interval config ->
  exists (d' : Z) (m1' m2' : metrics) (w' : World),
    sampling_loop config env c fight_id fuel i d m1 m2 w = (Ok (Some (d', m1', m2')), w')
    /\ d <= d'
    /\ (monitoring_interval config | d' - d)
    /\ (d < max_fight_duration config ->
        d' < max_fight_duration config + monitoring_interval config)
    /\ (max_fight_duration config <= d -> d' = d)
    /\ clock w' = clock w + (d' - d) * 1000000.
Proof.
  intros Hpos Hnc Hfuel.
  destruct (sampling_loop_run config env c fight_id fuel Hpos Hnc i d m1 m2 w Hfuel)
    as [d' [m1' [m2' [w' [k [Hrun [Hd' [Hk0 [Hbound [Hclk _]]]]]]]]]].
  exists d', m1', m2', w'. split; [exact Hrun|].
  split; [rewrite Hd'; nia|].
  split; [exists (Z.of_nat k); lia|].
  split; [exact Hbound|]. split; [|exact Hclk].
  intros Hge. rewrite Hd', (Hk0 Hge). cbn. lia.
Qed.

Lemma sampling_loop_terminates_witness :
  exists (d' : Z) (m1' m2' : metrics) (w' : World),
    sampling_loop config0 (env0 true None) (challenge0 (Some FightType.TIMING)) "f1"
      60 0 0 initial_metrics initial_metrics
      (world0 (Some FightType.TIMING) FIGHT_ACTIVE)
    = (Ok (Some (d', m1', m2')), w')
    /\ d' < 305.
Proof.
  destruct (sampling_loop_terminates config0 (env0 true None)
              (challenge0 (Some FightType.TIMING)) "f1" 60 0 0
              initial_metrics initial_metrics
              (world0 (Some FightType.TIMING) FIGHT_ACTIVE))
    as [d' [m1' [m2' [w' [Hrun [_ [_ [Hb _]]]]]]]].
  - reflexivity.
  - reflexivity.
  - cbn. lia.
  - exists d', m1', m2', w'. split; [exact Hrun|]. apply Hb. reflexivity.
Defined.

(** X21.  With an interval between samples that is not positive, the
    sampling loop started below the maximum duration never ends of itself
    while the participants stay active: after any number of iterations it
    is still sampling. *)
Theorem sampling_loop_never_ends (config : Config) (env : Env) (c : Challenge.t)
    (fight_id : string) (fuel i : nat) (d : Z) (m1 m2 : metrics) (w : World) :
  monitoring_interval config <= 0 ->
  d < max_fight_duration config ->
  cancelled_at env = None ->
  (forall j, participants_active env j = true) ->
  fst (sampling_loop config env c fight_id fuel i d m1 m2 w) = Ok None.
Proof.
  intros Hint Hd Hnc Hact. revert i d m1 m2 w Hd.
  induction fuel as [|fuel IH]; intros i d m1 m2 w Hd; cbn [sampling_loop];
    rewrite (proj2 (Z.ltb_lt _ _) Hd); cbn [negb]; [reflexivity|].
  unfold sampling_sleep. rewrite Hnc.
  rewrite bool_decide_eq_false_2 by discriminate.
  unfold UserbotManager.get_fight_metrics, UserbotManager.are_participants_active, sleep.
  unfold awaiting, modify, mbind, M_bind, mret, M_ret.
  cbn. rewrite Hact. cbn [negb].
  destruct (fight_metrics env i) as [[n1 n2]|].
  - match goal with
    | |- context [FightOps.update_fight_metrics fight_id (Challenge.challenger_id c) n1 ?w0] =>
        destruct (update_fight_metrics_frame fight_id (Challenge.challenger_id c) n1 w0)
          as [b1 [w2 [E2 _]]]
    end.
    rewrite E2. cbn.
    destruct (update_fight_metrics_frame fight_id (Challenge.opponent_id c) n2 w2)
      as [b2 [w3 [E3 _]]]. rewrite E3. cbn.
    apply IH. lia.
  - cbn. apply IH. lia.
Qed.

Lemma sampling_loop_never_ends_witness :
  fst (sampling_loop (mkConfig 30 300 0) (env0 true None)
         (challenge0 (Some FightType.TIMING)) "f1" 1000 0 0
         initial_metrics initial_metrics (world0 (Some FightType.TIMING) FIGHT_ACTIVE))
  = Ok None.
Proof.
  apply sampling_loop_never_ends.
  - cbn. lia.
  - cbn. lia.
  - reflexivity.
  - intros j. reflexivity.
Defined.





(** *** What a manager can reach through its public coroutines *)

Lemma create_challenge_tracking (config : Config) (inserted_id : string)
    (challenger_id opponent_id chat_id : Z) (w : World) :
  let w' := snd (create_challenge config inserted_id challenger_id opponent_id chat_id w) in
  fights w' = fights w /\ _fight_tasks w' = _fight_tasks w
  /\ ((_active_challenges w' = _active_challenges w /\ machines w' = machines w)
      \/ exists ref,
           machines w !! ref = None
           /\ machines w' = <[ref := sent_machine (clock w)]> (machines w)
           /\ _active_challenges w' = <[inserted_id := ref]> (_active_challenges w)).
Proof.
  destruct w as [ch fi us ma ac ta re cl ca].
  unfold create_challenge, get_pending_challenges, ChallengeStore.create_challenge.
  unfold utcnow, read, modify, try_except, mbind, mret, M_bind, M_ret. cbn.
  destruct (existsb _ _); cbn; [auto|].
  destruct (ch !! inserted_id); cbn; [auto|].
  destruct (bool_decide (inserted_id = "")); cbn; [auto|].
  split; [reflexivity|]. split; [reflexivity|]. right.
  exists (fresh (dom ma)). split; [|split; reflexivity].
  apply not_elem_of_dom. apply is_fresh.
Qed.

Lemma start_fight_tracking (inserted_id challenge_id : string) (w : World) :
  let w' := snd (start_fight inserted_id challenge_id w) in
  fights w' = fights w /\ _fight_tasks w' = _fight_tasks w
  /\ _active_challenges w' = _active_challenges w
  /\ (machines w' = machines w
      \/ exists ref sm,
           _active_challenges w !! challenge_id = Some ref
           /\ machines w !! ref = Some sm
           /\ machines w'
              = <[ref := snd (transition_to sm PARTICIPANTS_JOINING (clock w))]>
                  (machines w)).
Proof.
  destruct w as [ch fi us ma ac ta re cl ca].
  unfold start_fight. run_unfold. cbn.
  destruct (ch !! challenge_id) as [c|]; cbn; [|auto].
  destruct (ac !! challenge_id) as [ref|] eqn:Ea; cbn.
  - destruct (ma !! ref) as [sm|] eqn:Em; cbn.
    + destruct (transition_to sm PARTICIPANTS_JOINING cl) as [ok sm'] eqn:Et. cbn.
      assert (sm' = snd (transition_to sm PARTICIPANTS_JOINING cl)) as Hsm'
        by (rewrite Et; reflexivity).
      destruct ok; cbn.
      * destruct (Challenge.fight_type c); cbn;
          (split; [reflexivity|]; split; [reflexivity|]; split; [reflexivity|]);
          right; exists ref, sm; rewrite Hsm'; auto.
      * split; [reflexivity|]. split; [reflexivity|]. split; [reflexivity|].
        right. exists ref, sm. rewrite Hsm'. auto.
    + auto.
  - destruct (Challenge.fight_type c); cbn; auto.
Qed.

(** X23.  A manager that is driven through [create_challenge],
    [start_fight], [cancel_challenge] and [expire_old_challenges], in any
    order and with any arguments, while time passes and the stored
    challenges and users change in any way, never tracks a state machine in a state
    other than SENT: every entry of its table has a state machine of its
    own whose history is CREATED then SENT.  [start_fight] moves none of
    them, no monitoring task is ever scheduled and no fight record is ever
    created. *)
Theorem manager_never_leaves_sent (config : Config) (w0 w : World) :
  manager_init w0 ->
  manager_reachable config w0 w ->
  tracked_in_sent w /\ _fight_tasks w = ∅ /\ fights w = fights w0.
Proof.
  intros [Hac0 Hta0] Hreach.
  induction Hreach as [|w w' Hreach [[Hsent Hinj] [Hta Hfi]] Hstep].
  { split; [|split; [exact Hta0 | reflexivity]]. split.
    - intros id ref H. rewrite Hac0, lookup_empty in H. discriminate.
    - intros id1 id2 ref H. rewrite Hac0, lookup_empty in H. discriminate. }
  destruct Hstep as [inserted_id challenger_id opponent_id chat_id
                    | inserted_id challenge_id | challenge_id | | seconds
                    | f g].
  - (* create_challenge *)
    destruct (create_challenge_tracking config inserted_id challenger_id opponent_id
                chat_id w) as [Hf [Ht Hcase]].
    split; [|split; congruence].
    destruct Hcase as [[Ha Hm]|[ref [Hnew [Hm Ha]]]].
    + split.
      * intros id r H. rewrite Ha in H. rewrite Hm. eapply Hsent. exact H.
      * intros id1 id2 r H1 H2. rewrite Ha in H1, H2. eapply Hinj; eassumption.
    + assert (Hold : forall id r, _active_challenges w !! id = Some r -> r <> ref).
      { intros id r H ->. destruct (Hsent _ _ H) as [t Ht']. congruence. }
      split.
      * intros id r H. rewrite Ha in H. rewrite Hm.
        apply lookup_insert_Some in H as [[_ <-]|[_ H]].
        -- exists (clock w). apply lookup_insert_eq.
        -- rewrite lookup_insert_ne by (intros E; symmetry in E; exact (Hold _ _ H E)).
           eapply Hsent. exact H.
      * intros id1 id2 r H1 H2. rewrite Ha in H1, H2.
        apply lookup_insert_Some in H1 as [[E1 <-]|[N1 H1]];
          apply lookup_insert_Some in H2 as [[E2 E2']|[N2 H2]].
        -- congruence.
        -- exfalso. exact (Hold _ _ H2 eq_refl).
        -- exfalso. subst r. exact (Hold _ _ H1 eq_refl).
        -- eapply Hinj; eassumption.
  - (* start_fight *)
    destruct (start_fight_tracking inserted_id challenge_id w) as [Hf [Ht [Ha Hcase]]].
    split; [|split; congruence].
    split.
    + intros id r H. rewrite Ha in H. destruct (Hsent _ _ H) as [t Hr].
      destruct Hcase as [Hm|[ref [sm [Href [Hsm Hm]]]]]; rewrite Hm.
      * eauto.
      * destruct (decide (r = ref)) as [->|Hne].
        -- rewrite lookup_insert_eq. exists t.
           rewrite Hr in Hsm. injection Hsm as <-. reflexivity.
        -- rewrite lookup_insert_ne by congruence. eauto.
    + intros id1 id2 r H1 H2. rewrite Ha in H1, H2. eapply Hinj; eassumption.
  - (* cancel_challenge *)
    destruct (cancel_challenge_run challenge_id w)
      as [w' [Hrun [Ha [Ht [Hf [_ [_ [_ [_ Hm]]]]]]]]].
    rewrite Hrun. cbn [snd].
    split; [|split; [rewrite Ht, Hta; apply delete_empty | congruence]].
    split.
    + intros id r H. rewrite Ha in H. apply lookup_delete_Some in H as [Hne H].
      rewrite Hm.
      destruct (_active_challenges w !! challenge_id) as [ref|] eqn:Ec;
        [|eapply Hsent; exact H].
      destruct (machines w !! ref) as [sm|]; [|eapply Hsent; exact H].
      rewrite lookup_insert_ne; [eapply Hsent; exact H|].
      intros ->. apply Hne. eapply Hinj; eassumption.
    + intros id1 id2 r H1 H2. rewrite Ha in H1, H2.
      apply lookup_delete_Some in H1 as [_ H1]. apply lookup_delete_Some in H2 as [_ H2].
      eapply Hinj; eassumption.
  - (* expire_old_challenges *)
    destruct (expire_old_challenges_run config w)
      as [w' [Hrun [_ [_ [Hf [_ [Ht [Ha [_ Hm]]]]]]]]].
    rewrite Hrun. cbn [snd].
    split; [|split; congruence].
    assert (Hkept : forall id r, _active_challenges w' !! id = Some r ->
              stale config w id = false /\ _active_challenges w !! id = Some r).
    { intros id r H. rewrite Ha in H.
      destruct (stale config w id); [discriminate | auto]. }
    split.
    + intros id r H. apply Hkept in H as [Hs H].
      destruct (Hsent _ _ H) as [t Hr]. exists t. apply Hm; [exact Hr|].
      intros id2 H2. rewrite (Hinj _ _ _ H2 H). exact Hs.
    + intros id1 id2 r H1 H2.
      apply Hkept in H1 as [_ H1]. apply Hkept in H2 as [_ H2].
      eapply Hinj; eassumption.
  - (* time passes *)
    destruct w as [ch fi us ma ac ta re cl ca]. cbn in *.
    split; [split; assumption | split; assumption].
  - (* the stored challenges and users change *)
    destruct w as [ch fi us ma ac ta re cl ca]. cbn in *.
    split; [split; assumption | split; assumption].
Qed.

Lemma manager_never_leaves_sent_witness :
  let w0 := mkWorld ∅ ∅ ∅ ∅ ∅ ∅ ∅ 0 [] in
  let w1 := snd (create_challenge config0 "c1" 1001 2002 77 w0) in
  let w2 := snd (start_fight "f1" "c1" w1) in
  manager_init w0 /\ tracked_in_sent w2 /\ fights w2 = ∅.
Proof.
  intros w0 w1 w2.
  assert (manager_init w0) as H0 by (split; reflexivity).
  split; [exact H0|].
  destruct (manager_never_leaves_sent config0 w0 w2 H0) as [Hs [_ Hf]].
  - eapply reachable_next; [eapply reachable_next; [apply reachable_start|]|].
    + apply (step_create_challenge config0 w0 "c1" 1001 2002 77).
    + apply (step_start_fight config0 w1 "f1" "c1").
  - split; [exact Hs | exact Hf].
Defined.

End LifecycleFacts.
